(** * Receipt ledger: duplicate detection and append protocol

    Shallow embedding of [src/receipt-scanner/google_apps_script.js]
    (the revision with duplicate detection, raw-text shadow columns and the
    Debug sheet: functions [doPost], [findDuplicate], [migrateOldRows] and
    [writeDebugLog]), followed by the properties of the ledger writer.

    Conventions of the embedding.
    - A JavaScript string is a [string] whose characters are the code points
      0..255; [toLowerCase] and [trim] follow ECMAScript on that range.
    - A JavaScript number is an integer [Z]; the handler itself only produces
      integers (lengths and row numbers).
    - The spreadsheet is an in-memory store that keeps every cell value as it
      was written: a sheet is the list of its rows 1..getLastRow(), a row the
      list of its cells, and a cell that was never written reads as ['']
      (what [getValues] returns for an empty cell). [console.log] is
      left out.
    - The handler is embedded twice. In the first embedding the calls on
      the spreadsheet do not fail: the exceptions are the one [JSON.parse]
      may throw and the [TypeError]s of the handler's own expressions, and
      the calls that only format ([setFontWeight], [setNumberFormat],
      [autoResizeColumns], ...), which change no cell value, are left out.
      In the second one, module [Faulty], every call of the spreadsheet
      service is in its place and may throw. The two agree when no call
      throws (lemma [faulty_submit_reliable]).
    - The clock ([new Date().toISOString()]) is an input of each request. *)

From Stdlib Require Import String Ascii List ZArith Bool Arith Lia.
From Stdlib Require Import DecimalString.
Import ListNotations.
Open Scope string_scope.
Open Scope nat_scope.

(* ================================================================== *)
(** ** JavaScript strings *)

Module JsString.

Definition code (c : ascii) : nat := nat_of_ascii c.

(** ECMAScript WhiteSpace and LineTerminator code points below 256:
    TAB, LF, VT, FF, CR, SP and NBSP. *)
Definition isWhiteSpace (c : ascii) : bool :=
  let n := code c in
  ((9 <=? n) && (n <=? 13)) || (n =? 32) || (n =? 160).

(** Code points with a lower-case mapping: A-Z, and the Latin-1 capitals
    U+00C0..U+00DE except the multiplication sign U+00D7. *)
Definition isUpper (c : ascii) : bool :=
  let n := code c in
  ((65 <=? n) && (n <=? 90))
  || ((192 <=? n) && (n <=? 222) && negb (n =? 215)).

Definition lowerChar (c : ascii) : ascii :=
  if isUpper c then ascii_of_nat (code c + 32) else c.

(** [String.prototype.toLowerCase] *)
Fixpoint toLowerCase (s : string) : string :=
  match s with
  | EmptyString => EmptyString
  | String c r => String (lowerChar c) (toLowerCase r)
  end.

Fixpoint trimStart (s : string) : string :=
  match s with
  | EmptyString => EmptyString
  | String c r => if isWhiteSpace c then trimStart r else s
  end.

Fixpoint trimEnd (s : string) : string :=
  match s with
  | EmptyString => EmptyString
  | String c r =>
      match trimEnd r with
      | EmptyString => if isWhiteSpace c then EmptyString else String c EmptyString
      | r' => String c r'
      end
  end.

(** [String.prototype.trim] *)
Definition trim (s : string) : string := trimEnd (trimStart s).

(** A string made of white space only. *)
Fixpoint allWhiteSpace (s : string) : bool :=
  match s with
  | EmptyString => true
  | String c r => isWhiteSpace c && allWhiteSpace r
  end.

(** Two characters that are equal up to letter case. *)
Definition sameLetter (a b : ascii) : bool :=
  Ascii.eqb a b
  || (isUpper a && Ascii.eqb b (ascii_of_nat (code a + 32)))
  || (isUpper b && Ascii.eqb a (ascii_of_nat (code b + 32))).

(** Two strings that are equal up to letter case, character by character. *)
Fixpoint equalIgnoringCase (s t : string) : bool :=
  match s, t with
  | EmptyString, EmptyString => true
  | String a s', String b t' => sameLetter a b && equalIgnoringCase s' t'
  | _, _ => false
  end.

(** [Array.prototype.join] on an array of strings. *)
Fixpoint join (sep : string) (l : list string) : string :=
  match l with
  | [] => ""
  | [x] => x
  | x :: rest => x ++ sep ++ join sep rest
  end.

(** Decimal rendering of an integer number ([Number.prototype.toString]). *)
Definition ofZ (n : Z) : string := NilZero.string_of_int (Z.to_int n).

End JsString.

(* ================================================================== *)
(** ** JavaScript values *)

(** Primitive values: what a JSON scalar parses to, what a missing property
    reads as ([PUndefined]), and what a spreadsheet cell holds. *)
Inductive prim : Type :=
| PUndefined
| PNull
| PBool (b : bool)
| PNum (n : Z)
| PStr (s : string).

(** ToBoolean *)
Definition truthy (v : prim) : bool :=
  match v with
  | PUndefined | PNull => false
  | PBool b => b
  | PNum n => negb (n =? 0)%Z
  | PStr s => negb (s =? "")%string
  end.

(** The operator [a || b] on values (both operands are variables or
    literals wherever the handler uses it, so evaluating [b] eagerly is
    harmless). *)
Definition or_else (a b : prim) : prim := if truthy a then a else b.

Infix "<||>" := or_else (at level 45, left associativity).

(** ToString, as applied by template literals. *)
Definition ToString (v : prim) : string :=
  match v with
  | PUndefined => "undefined"
  | PNull => "null"
  | PBool true => "true"
  | PBool false => "false"
  | PNum n => JsString.ofZ n
  | PStr s => s
  end.

(** Strict equality [a === b] of two strings. *)
Definition strictEqStr (a b : string) : bool := (a =? b)%string.

(** Exceptions: the errors of the language that the handler can run into,
    and [Exception], which the Apps Script services throw. Only the kind
    of the error is modelled after the runtime; the message names the
    expression that failed. *)
Inductive exn : Type :=
| SyntaxError (message : string)
| TypeError (message : string)
| Exception (message : string).

(** [error.toString()] *)
Definition exn_toString (e : exn) : string :=
  match e with
  | SyntaxError m => "SyntaxError: " ++ m
  | TypeError m => "TypeError: " ++ m
  | Exception m => "Exception: " ++ m
  end.

(** Outcome of evaluating an expression that may throw. *)
Inductive result (A : Type) : Type :=
| Return (a : A)
| Throw (e : exn).

Arguments Return {A} a.
Arguments Throw {A} e.

Definition rbind {A B} (c : result A) (k : A -> result B) : result B :=
  match c with
  | Return a => k a
  | Throw e => Throw e
  end.

Notation "x <~ c ;; k" := (rbind c (fun x => k))
  (at level 61, c at next level, right associativity).

(** Method calls on a value. A primitive other than a string has no
    [toLowerCase] method, so calling it throws; [undefined] and [null] have
    no properties at all. *)
Definition call_toLowerCase (v : prim) : result string :=
  match v with
  | PStr s => Return (JsString.toLowerCase s)
  | _ => Throw (TypeError "(...).toLowerCase is not a function")
  end.

Definition call_toString (v : prim) : result string :=
  match v with
  | PUndefined => Throw (TypeError "Cannot read properties of undefined (reading 'toString')")
  | PNull => Throw (TypeError "Cannot read properties of null (reading 'toString')")
  | _ => Return (ToString v)
  end.

(* ================================================================== *)
(** ** The request payload

    [data] is what [JSON.parse(e.postData.contents)] returns. The handler
    reads the properties [force], [merchantName], [date], [time], [total],
    [currency], [tax] and [items] of [data], the [length] and elements of
    [items], and [description], [quantity], [price] of each element. The
    payload type follows that shape: a JSON value whose scalar properties
    are primitives ([PUndefined] for an absent property), whose [items] is
    a primitive or an array, and whose array elements are primitives or
    objects with primitive [description], [quantity] and [price]. A
    top-level primitive is kept as such, since [null] has no properties
    while a number, string or boolean has none of these; a top-level array
    or an object without any of these properties is the record with every
    property absent. *)

Record item_obj : Type := mkItem {
  description : prim;
  quantity : prim;
  price : prim
}.

Inductive item : Type :=
| ItemPrim (p : prim)
| ItemObj (o : item_obj).

Inductive items_value : Type :=
| ItemsPrim (p : prim)
| ItemsArr (elems : list item).

Record receipt : Type := mkReceipt {
  force : prim;
  merchantName : prim;
  date : prim;
  time : prim;
  total : prim;
  currency : prim;
  tax : prim;
  items : items_value
}.

Inductive jdata : Type :=
| JPrim (p : prim)
| JReceipt (r : receipt).

(** Property read [d.f] for one of the primitive-valued properties. *)
Definition prop (d : jdata) (f : receipt -> prim) : result prim :=
  match d with
  | JReceipt r => Return (f r)
  | JPrim PNull => Throw (TypeError "Cannot read properties of null")
  | JPrim PUndefined => Throw (TypeError "Cannot read properties of undefined")
  | JPrim _ => Return PUndefined
  end.

(** Property read [d.items]. *)
Definition prop_items (d : jdata) : result items_value :=
  match d with
  | JReceipt r => Return (items r)
  | JPrim PNull => Throw (TypeError "Cannot read properties of null")
  | JPrim PUndefined => Throw (TypeError "Cannot read properties of undefined")
  | JPrim _ => Return (ItemsPrim PUndefined)
  end.

Definition items_truthy (v : items_value) : bool :=
  match v with
  | ItemsPrim p => truthy p
  | ItemsArr _ => true
  end.

(** [v.length] for a truthy [v]: arrays and strings have a length, other
    primitives read [undefined]. *)
Definition items_length (v : items_value) : prim :=
  match v with
  | ItemsArr l => PNum (Z.of_nat (length l))
  | ItemsPrim (PStr s) => PNum (Z.of_nat (String.length s))
  | ItemsPrim _ => PUndefined
  end.

(** [x > 0] for the values [items_length] produces ([undefined > 0] is
    false). *)
Definition gt_zero (x : prim) : bool :=
  match x with
  | PNum n => (0 <? n)%Z
  | _ => false
  end.

(** Outcome of [JSON.parse(e.postData.contents)]: the parsed value, or the
    exception thrown (malformed text, or no [postData] on the event). *)
Inductive parsed : Type :=
| ParseThrows (error : exn)
| Parsed (data : jdata).

(* ================================================================== *)
(** ** The spreadsheet *)

Definition row : Type := list prim.
Definition sheet : Type := list row.

(** [row[j]] of a row returned by [getValues]: an empty cell reads ['']. *)
Definition cell (r : row) (j : nat) : prim := nth j r (PStr "").

(** [sheet.getRange(i, j).setValue(v)] on the cells of row [i]: the cell in
    column [j] (counted from 0 here) is overwritten, shorter rows are padded
    with empty cells. *)
Fixpoint setCell (r : row) (j : nat) (v : prim) : row :=
  match j, r with
  | O, [] => [v]
  | O, _ :: rest => v :: rest
  | S j', [] => PStr "" :: setCell [] j' v
  | S j', c :: rest => c :: setCell rest j' v
  end.

(** The spreadsheet file: the active sheet, which holds the ledger, and the
    sheet named Debug when it exists. *)
Record spreadsheet : Type := mkSpreadsheet {
  ledger : sheet;
  debugSheet : option sheet
}.

Definition emptySpreadsheet : spreadsheet :=
  {| ledger := []; debugSheet := None |}.

(** Statements run against the spreadsheet and may throw; what was written
    before a throw stays written. *)
Definition M (A : Type) : Type := spreadsheet -> result A * spreadsheet.

Definition ret {A} (a : A) : M A := fun s => (Return a, s).

Definition bind {A B} (c : M A) (k : A -> M B) : M B :=
  fun s =>
    match c s with
    | (Return a, s') => k a s'
    | (Throw e, s') => (Throw e, s')
    end.

Notation "x <- c ;; k" := (bind c (fun x => k))
  (at level 61, c at next level, right associativity).
Notation "c ;;; k" := (bind c (fun _ => k))
  (at level 61, right associativity).

(** Evaluation of an expression inside a statement. *)
Definition eval {A} (c : result A) : M A := fun s => (c, s).

(** [try { body } catch (error) { handler }] *)
Definition try_catch {A} (body : M A) (handler : exn -> M A) : M A :=
  fun s =>
    match body s with
    | (Return a, s') => (Return a, s')
    | (Throw e, s') => handler e s'
    end.

(** [sheet.getLastRow()] on the active sheet *)
Definition getLastRow : M nat := fun s => (Return (length (ledger s)), s).

(** [sheet.appendRow(values)] on the active sheet *)
Definition appendRow (values : row) : M unit :=
  fun s => (Return tt, {| ledger := (ledger s ++ [values])%list; debugSheet := debugSheet s |}).

(** [sheet.getRange(r, 1, 1, 11).setValues([values])] for a row number [r]
    up to one past the last row. *)
Definition setRowValues (r : nat) (values : row) : M unit :=
  fun s => (Return tt,
            {| ledger := (firstn (r - 1) (ledger s) ++ values :: skipn r (ledger s))%list;
               debugSheet := debugSheet s |}).

(* ================================================================== *)
(** ** [findDuplicate] *)

Record rowData : Type := mkRowData {
  rd_merchant : prim;   (* merchant: row[2] *)
  rd_rawDate : prim;    (* rawDate: row[9] || row[0] *)
  rd_rawTotal : prim    (* rawTotal: row[10] || row[3] *)
}.

Definition rowData_of (r : row) : rowData :=
  {| rd_merchant := cell r 2;
     rd_rawDate := cell r 9 <||> cell r 0;
     rd_rawTotal := cell r 10 <||> cell r 3 |}.

(** [(rowData.merchant || '').toLowerCase().trim() ===
     (newReceipt.merchantName || '').toLowerCase().trim()] *)
Definition merchantMatch (rd : rowData) (newReceipt : jdata) : result bool :=
  a <~ call_toLowerCase (rd_merchant rd <||> PStr "") ;;
  m <~ prop newReceipt merchantName ;;
  b <~ call_toLowerCase (m <||> PStr "") ;;
  Return (strictEqStr (JsString.trim a) (JsString.trim b)).

(** [(rowData.rawDate || '').toString().trim() ===
     (newReceipt.date || '').toString().trim()] *)
Definition dateMatch (rd : rowData) (newReceipt : jdata) : result bool :=
  a <~ call_toString (rd_rawDate rd <||> PStr "") ;;
  d <~ prop newReceipt date ;;
  b <~ call_toString (d <||> PStr "") ;;
  Return (strictEqStr (JsString.trim a) (JsString.trim b)).

(** [(rowData.rawTotal || '').toString().trim() ===
     (newReceipt.total || '').toString().trim()] *)
Definition totalMatch (rd : rowData) (newReceipt : jdata) : result bool :=
  a <~ call_toString (rd_rawTotal rd <||> PStr "") ;;
  t <~ prop newReceipt total ;;
  b <~ call_toString (t <||> PStr "") ;;
  Return (strictEqStr (JsString.trim a) (JsString.trim b)).

(** The three [const] declarations of the loop body, in order, and the
    condition [merchantMatch && dateMatch && totalMatch]. *)
Definition rowMatches (r : row) (newReceipt : jdata) : result bool :=
  let rd := rowData_of r in
  mm <~ merchantMatch rd newReceipt ;;
  dm <~ dateMatch rd newReceipt ;;
  tm <~ totalMatch rd newReceipt ;;
  Return (mm && dm && tm).

(** [data: { merchant, date, total }] of the value [findDuplicate] returns *)
Record existing : Type := mkExisting {
  ex_merchant : prim;
  ex_date : prim;
  ex_total : prim
}.

(** [{ row: i + 2, data: {...} }] *)
Record duplicate : Type := mkDuplicate {
  dup_row : nat;
  dup_data : existing
}.

(** The [for] loop over [data], from index [i] on. *)
Fixpoint scanRows (data : list row) (i : nat) (newReceipt : jdata)
  : result (option duplicate) :=
  match data with
  | [] => Return None
  | r :: rest =>
      hit <~ rowMatches r newReceipt ;;
      if hit then
        let rd := rowData_of r in
        Return (Some {| dup_row := i + 2;
                        dup_data := {| ex_merchant := rd_merchant rd;
                                       ex_date := rd_rawDate rd;
                                       ex_total := rd_rawTotal rd |} |})
      else scanRows rest (S i) newReceipt
  end.

(** [findDuplicate(sheet, newReceipt)]; [null] is [None]. The rows read by
    [sheet.getRange(2, 1, lastRow - 1, 11).getValues()] are the rows after
    the first. *)
Definition findDuplicate (sh : sheet) (newReceipt : jdata)
  : result (option duplicate) :=
  let lastRow := length sh in
  if lastRow <=? 1 then Return None
  else scanRows (skipn 1 sh) 0 newReceipt.

(* ================================================================== *)
(** ** [writeDebugLog] *)

Definition DEBUG_HEADER : row :=
  [PStr "Timestamp"; PStr "Result"; PStr "Inc Merchant"; PStr "Inc Date";
   PStr "Inc Total"; PStr "Sheet Row 2 Col J (RawDate)";
   PStr "Sheet Row 2 Col K (RawTotal)"; PStr "Sheet Row 2 Col C (Merchant)"].

(** The clock readings of one request: the one taken by [writeDebugLog] and
    the one taken for the Timestamp column. *)
Record clock : Type := mkClock {
  logTime : string;
  rowTime : string
}.

(** [ss.getSheetByName('Debug')] *)
Definition getDebugSheet : M (option sheet) :=
  fun s => (Return (debugSheet s), s).

Definition debugRows (s : spreadsheet) : sheet :=
  match debugSheet s with
  | Some d => d
  | None => []
  end.

Definition setDebugRows (f : sheet -> sheet) : M unit :=
  fun s => (Return tt, {| ledger := ledger s; debugSheet := Some (f (debugRows s)) |}).

(** [ss.insertSheet('Debug')]: the new sheet has no rows, and it becomes
    the active sheet of the spreadsheet for the rest of the execution. The
    handler's variable [sheet] was bound before and keeps designating the
    ledger, and the next execution starts with the ledger as its active
    sheet again. *)
Definition insertDebugSheet : M unit := setDebugRows (fun _ => []).

(** [debugSheet.appendRow(values)] *)
Definition debugAppendRow (values : row) : M unit :=
  setDebugRows (fun d => (d ++ [values])%list).

(** [debugSheet.getLastRow()] *)
Definition debugGetLastRow : M nat :=
  fun s => (Return (length (debugRows s)), s).

(** [debugSheet.getRange(1, 1).getValue()] *)
Definition debugGetA1 : M prim :=
  fun s => (Return (cell (nth 0 (debugRows s) []) 0), s).

(** [debugSheet.insertRowBefore(1)] *)
Definition debugInsertRowBefore1 : M unit :=
  setDebugRows (fun d => [] :: d).

(** [debugSheet.getRange(1, 1, 1, 8).setValues([values])] *)
Definition debugSetRow1 (values : row) : M unit :=
  setDebugRows (fun d => values :: skipn 1 d).

(** The rows of [mainSheet = ss.getActiveSheet()] inside [writeDebugLog]:
    those of the Debug sheet when this call has inserted it, those of the
    ledger otherwise. *)
Definition activeRows (inserted : bool) (s : spreadsheet) : sheet :=
  if inserted then debugRows s else ledger s.

(** [mainSheet.getLastRow()] *)
Definition activeGetLastRow (inserted : bool) : M nat :=
  fun s => (Return (length (activeRows inserted s)), s).

(** [mainSheet.getRange(2, 1, 1, 11).getValues()[0]] *)
Definition activeGetRow2 (inserted : bool) : M row :=
  fun s => (Return (nth 1 (activeRows inserted s) []), s).

(** [v !== 'Timestamp'] *)
Definition isNotTimestamp (v : prim) : bool :=
  match v with
  | PStr s => negb (s =? "Timestamp")%string
  | _ => true
  end.

(** [writeDebugLog(newReceipt, duplicate, result)]; the argument
    [duplicate] is not used by the body. *)
Definition writeDebugLog (now : string) (newReceipt : jdata)
    (dup : option duplicate) (outcome : string) : M unit :=
  try_catch
    (found <- getDebugSheet ;;
     let inserted := match found with None => true | Some _ => false end in
     (match found with
      | None => insertDebugSheet ;;; debugAppendRow DEBUG_HEADER
      | Some _ => ret tt
      end) ;;;
     n <- debugGetLastRow ;;
     a1 <- debugGetA1 ;;
     (if (n =? 0) || isNotTimestamp a1
      then debugInsertRowBefore1 ;;; debugSetRow1 DEBUG_HEADER
      else ret tt) ;;;
     lastRow <- activeGetLastRow inserted ;;
     row2 <- (if 1 <? lastRow then activeGetRow2 inserted else ret []) ;;
     let sheetMerchant := if 1 <? lastRow then cell row2 2 <||> PStr "" else PStr "" in
     let sheetRawDate := if 1 <? lastRow then cell row2 9 <||> PStr "" else PStr "" in
     let sheetRawTotal := if 1 <? lastRow then cell row2 10 <||> PStr "" else PStr "" in
     m <- eval (prop newReceipt merchantName) ;;
     d <- eval (prop newReceipt date) ;;
     t <- eval (prop newReceipt total) ;;
     debugAppendRow
       [PStr now; PStr outcome;
        m <||> PStr ""; d <||> PStr ""; t <||> PStr "";
        sheetRawDate <||> PStr "(empty)";
        sheetRawTotal <||> PStr "(empty)";
        sheetMerchant <||> PStr "(empty)"])
    (fun _ => ret tt).

(* ================================================================== *)
(** ** [doPost] *)

Definition HEADER : row :=
  [PStr "Date"; PStr "Time"; PStr "Merchant"; PStr "Total"; PStr "Currency";
   PStr "Tax"; PStr "Item Count"; PStr "Items (Description x Qty @ Price)";
   PStr "Timestamp"; PStr "Raw Date"; PStr "Raw Total"].

(** The response object handed to [createCorsResponse]:
    [{ success: true, message, row }],
    [{ isDuplicate: true, row, existingReceipt, message }] or
    [{ success: false, error }]. *)
Inductive response : Type :=
| Accepted (message : string) (newRow : nat)
| Duplicate (rowIndex : nat) (existingReceipt : existing) (message : string)
| Failure (error : string).

(** [createCorsResponse(data)] serialises the object and sets the MIME
    type; the object is kept as it is. *)
Definition createCorsResponse (r : response) : response := r.

(** [`${item.description} x${item.quantity} @ ${data.currency} ${item.price}`] *)
Definition itemText (cur : prim) (d q p : prim) : string :=
  (ToString d ++ " x" ++ ToString q ++ " @ " ++ ToString cur ++ " " ++ ToString p)%string.

(** The arrow function mapped over [data.items]: reading a property of a
    [null] or [undefined] element throws, any other primitive element has
    none of the three properties. *)
Definition renderItem (cur : prim) (it : item) : result string :=
  match it with
  | ItemObj o => Return (itemText cur (description o) (quantity o) (price o))
  | ItemPrim PNull => Throw (TypeError "Cannot read properties of null (reading 'description')")
  | ItemPrim PUndefined => Throw (TypeError "Cannot read properties of undefined (reading 'description')")
  | ItemPrim _ => Return (itemText cur PUndefined PUndefined PUndefined)
  end.

Fixpoint mapItems (cur : prim) (l : list item) : result (list string) :=
  match l with
  | [] => Return []
  | it :: rest =>
      x <~ renderItem cur it ;;
      xs <~ mapItems cur rest ;;
      Return (x :: xs)
  end.

(** The [if (data.items && data.items.length > 0) ... else ...] statement
    that sets [itemsText]. Only an array has a [map] method. *)
Definition formatItems (data : jdata) : result string :=
  its <~ prop_items data ;;
  if items_truthy its && gt_zero (items_length its) then
    match its with
    | ItemsArr l =>
        cur <~ prop data currency ;;
        texts <~ mapItems cur l ;;
        Return (JsString.join "; " texts)
    | ItemsPrim _ => Throw (TypeError "data.items.map is not a function")
    end
  else Return "No items".

(** The array literal [rowData] of [doPost]. *)
Definition buildRow (now : string) (data : jdata) (itemsText : string) : result row :=
  d <~ prop data date ;;
  tm <~ prop data time ;;
  m <~ prop data merchantName ;;
  t <~ prop data total ;;
  c <~ prop data currency ;;
  x <~ prop data tax ;;
  its <~ prop_items data ;;
  Return [d <||> PStr "";
          tm <||> PStr "";
          m <||> PStr "Unknown";
          t <||> PStr "0.00";
          c <||> PStr "USD";
          x <||> PStr "0.00";
          (if items_truthy its then items_length its else PNum 0);
          PStr itemsText;
          PStr now;
          d <||> PStr "";
          t <||> PStr ""].

(** [`Duplicate found: ${duplicate.data.merchant} on ${duplicate.data.date}
     for ${duplicate.data.currency} ${duplicate.data.total}`]; the object
    [duplicate.data] has no [currency] property. *)
Definition duplicateMessage (d : existing) : string :=
  ("Duplicate found: " ++ ToString (ex_merchant d) ++ " on " ++ ToString (ex_date d)
   ++ " for " ++ ToString PUndefined ++ " " ++ ToString (ex_total d))%string.

(** The statements of [doPost] from "Format items as a string" to the
    success response: they follow the duplicate check on both of its
    branches. The calls [setNumberFormat] and [autoResizeColumns] between
    the write and the response change no value and cannot fail here;
    [Faulty.saveReceipt] has them. *)
Definition saveReceipt (clk : clock) (data : jdata) : M response :=
  itemsText <- eval (formatItems data) ;;
  rowValues <- eval (buildRow (rowTime clk) data itemsText) ;;
  lastRow <- getLastRow ;;
  let newRow := lastRow + 1 in
  setRowValues newRow rowValues ;;;
  after <- getLastRow ;;
  ret (createCorsResponse (Accepted "Receipt saved successfully" after)).

(** The body of the [try] block. *)
Definition doPost_try (clk : clock) (e : parsed) : M response :=
  data <- eval (match e with
                | ParseThrows err => Throw err
                | Parsed d => Return d
                end) ;;
  lastRow <- getLastRow ;;
  (if lastRow =? 0 then appendRow HEADER else ret tt) ;;;
  f <- eval (prop data force) ;;
  if negb (truthy f) then
    found <- (fun s => (findDuplicate (ledger s) data, s)) ;;
    match found with
    | Some dup =>
        writeDebugLog (logTime clk) data (Some dup) "DUPLICATE FOUND" ;;;
        ret (createCorsResponse
               (Duplicate (dup_row dup) (dup_data dup) (duplicateMessage (dup_data dup))))
    | None =>
        writeDebugLog (logTime clk) data None "NO DUPLICATE" ;;;
        saveReceipt clk data
    end
  else saveReceipt clk data.

(** [doPost(e)] *)
Definition doPost (clk : clock) (e : parsed) : M response :=
  try_catch (doPost_try clk e)
            (fun error => ret (createCorsResponse (Failure (exn_toString error)))).

(** The response of a request and the spreadsheet it leaves. *)
Definition submit (clk : clock) (e : parsed) (s : spreadsheet) : response * spreadsheet :=
  match doPost clk e s with
  | (Return r, s') => (r, s')
  | (Throw err, s') => (Failure (exn_toString err), s')
  end.

(* ================================================================== *)
(** ** [migrateOldRows] *)

(** [sheet.getRange(r, c).setValue(v)], rows and columns counted from 1. *)
Fixpoint setValue (r c : nat) (v : prim) (sh : sheet) : sheet :=
  match r with
  | 0 => sh
  | S r' =>
      match r', sh with
      | 0, [] => [setCell [] (c - 1) v]
      | 0, rw :: rest => setCell rw (c - 1) v :: rest
      | S _, [] => [] :: setValue r' c v []
      | S _, rw :: rest => rw :: setValue r' c v rest
      end
  end.

(** The [for] loop of [migrateOldRows] over the rows read beforehand. *)
Fixpoint migrateLoop (data : list row) (i : nat) (sh : sheet) : sheet :=
  match data with
  | [] => sh
  | r :: rest =>
      let rowNumber := i + 2 in
      let sh1 := if truthy (cell r 0)
                 then setValue rowNumber 10 (PStr (ToString (cell r 0))) sh
                 else sh in
      let sh2 := if truthy (cell r 3)
                 then setValue rowNumber 11 (PStr (ToString (cell r 3))) sh1
                 else sh1 in
      migrateLoop rest (S i) sh2
  end.

(** [migrateOldRows()] *)
Definition migrateOldRows (s : spreadsheet) : spreadsheet :=
  let lastRow := length (ledger s) in
  if lastRow <=? 1 then s
  else {| ledger := migrateLoop (skipn 1 (ledger s)) 0 (ledger s);
          debugSheet := debugSheet s |}.

(* ================================================================== *)
(** ** Vocabulary of the properties *)

(** A text field of the receipt record: a string, or absent. *)
Definition isText (v : prim) : bool :=
  match v with
  | PUndefined | PStr _ => true
  | _ => false
  end.

(** A field that is absent, or present with the empty text. *)
Definition isBlank (v : prim) : bool :=
  match v with
  | PUndefined => true
  | PStr s => (s =? "")%string
  | _ => false
  end.

(** The [force] flag: a boolean, or absent. *)
Definition isFlag (v : prim) : bool :=
  match v with
  | PUndefined | PBool _ => true
  | _ => false
  end.

Definition isItemObj (it : item) : bool :=
  match it with
  | ItemObj _ => true
  | ItemPrim _ => false
  end.

(** The [items] field: a sequence of item objects, or absent. *)
Definition isItemSeq (v : items_value) : bool :=
  match v with
  | ItemsPrim PUndefined => true
  | ItemsPrim _ => false
  | ItemsArr l => forallb isItemObj l
  end.

(** A payload that has the shape of the receipt record: every scalar field
    is text or absent, [force] is a boolean or absent, [items] is a
    sequence of item objects or absent. *)
Definition isReceiptRecord (r : receipt) : bool :=
  isText (merchantName r) && isText (date r) && isText (time r)
  && isText (total r) && isText (currency r) && isText (tax r)
  && isFlag (force r) && isItemSeq (items r).

(** The untransformed input text of a field, the empty string when the
    field is absent. *)
Definition inputText (v : prim) : prim :=
  match v with
  | PStr s => PStr s
  | _ => PStr ""
  end.

(** A sheet whose data rows hold text in the Merchant column. *)
Definition isStr (v : prim) : bool :=
  match v with
  | PStr _ => true
  | _ => false
  end.

(** A value [v] on which [(v || '').toLowerCase()] can be evaluated: a
    falsy value, replaced by [''], or a string. The other values, the
    numbers except zero and [true], have no [toLowerCase]. *)
Definition canLowerCase (v : prim) : bool :=
  negb (truthy v) || isStr v.

Definition merchantsAreText (sh : sheet) : bool :=
  forallb (fun r => isStr (cell r 2)) (skipn 1 sh).

(** Row number [i] (counted from 1) of a sheet. *)
Definition rowAt (sh : sheet) (i : nat) : row := nth (i - 1) sh [].

(** The [data] object [findDuplicate] returns for a row. *)
Definition existing_of (r : row) : existing :=
  {| ex_merchant := rd_merchant (rowData_of r);
     ex_date := rd_rawDate (rowData_of r);
     ex_total := rd_rawTotal (rowData_of r) |}.

(** Data row number [i] of the sheet satisfies the three match predicates
    for the candidate. *)
Definition matchesAt (sh : sheet) (newReceipt : jdata) (i : nat) : Prop :=
  2 <= i <= length sh /\ rowMatches (rowAt sh i) newReceipt = Return true.

(** The ledger as the duplicate check and the append see it: with the
    header row when the sheet was empty at the start of the request. *)
Definition withHeader (sh : sheet) : sheet :=
  if length sh =? 0 then [HEADER] else sh.

(** The row [migrateOldRows] leaves in place of a data row. *)
Definition migrateRow (r : row) : row :=
  let r1 := if truthy (cell r 0) then setCell r 9 (PStr (ToString (cell r 0))) else r in
  if truthy (cell r 3) then setCell r1 10 (PStr (ToString (cell r 3))) else r1.

(** Spreadsheets the handler and the migration can produce from an empty
    spreadsheet. *)
Inductive reachable : spreadsheet -> Prop :=
| reach_empty : reachable emptySpreadsheet
| reach_submit : forall clk e s,
    reachable s -> reachable (snd (submit clk e s))
| reach_migrate : forall s,
    reachable s -> reachable (migrateOldRows s).

(** The header row occurs in the sheet exactly once, as row 1. *)
Definition headerOnceAtTop (sh : sheet) : Prop :=
  exists rest, sh = HEADER :: rest /\ ~ In HEADER rest.

(** What the [try] block returns or throws and what it leaves behind, by
    cases on the path taken through it. *)
Inductive try_path (clk : clock) (e : parsed) (s : spreadsheet)
  : result response -> spreadsheet -> Prop :=
| path_parse_error err :
    e = ParseThrows err ->
    try_path clk e s (Throw err) s
| path_thrown data err dbg :
    e = Parsed data ->
    (prop data force = Throw err
     \/ (exists f, prop data force = Return f /\ truthy f = false
                   /\ findDuplicate (withHeader (ledger s)) data = Throw err)
     \/ (exists f, prop data force = Return f
                   /\ (truthy f = true
                       \/ findDuplicate (withHeader (ledger s)) data = Return None)
                   /\ formatItems data = Throw err)) ->
    try_path clk e s (Throw err)
             {| ledger := withHeader (ledger s); debugSheet := dbg |}
| path_duplicate data f dup dbg :
    e = Parsed data ->
    prop data force = Return f -> truthy f = false ->
    findDuplicate (withHeader (ledger s)) data = Return (Some dup) ->
    try_path clk e s
             (Return (Duplicate (dup_row dup) (dup_data dup) (duplicateMessage (dup_data dup))))
             {| ledger := withHeader (ledger s); debugSheet := dbg |}
| path_saved data f txt values dbg :
    e = Parsed data ->
    prop data force = Return f ->
    (truthy f = true \/ findDuplicate (withHeader (ledger s)) data = Return None) ->
    formatItems data = Return txt ->
    buildRow (rowTime clk) data txt = Return values ->
    try_path clk e s
             (Return (Accepted "Receipt saved successfully" (length (withHeader (ledger s)) + 1)))
             {| ledger := (withHeader (ledger s) ++ [values])%list; debugSheet := dbg |}.

(** The response and final spreadsheet of a request, by cases. *)
Inductive submit_path (clk : clock) (e : parsed) (s : spreadsheet)
  : response -> spreadsheet -> Prop :=
| submit_failure err s' :
    try_path clk e s (Throw err) s' ->
    doPost_try clk e s = (Throw err, s') ->
    submit_path clk e s (Failure (exn_toString err)) s'
| submit_duplicate data f dup dbg :
    e = Parsed data ->
    prop data force = Return f -> truthy f = false ->
    findDuplicate (withHeader (ledger s)) data = Return (Some dup) ->
    submit_path clk e s
                (Duplicate (dup_row dup) (dup_data dup) (duplicateMessage (dup_data dup)))
                {| ledger := withHeader (ledger s); debugSheet := dbg |}
| submit_saved data f txt values dbg :
    e = Parsed data ->
    prop data force = Return f ->
    (truthy f = true \/ findDuplicate (withHeader (ledger s)) data = Return None) ->
    formatItems data = Return txt ->
    buildRow (rowTime clk) data txt = Return values ->
    submit_path clk e s
                (Accepted "Receipt saved successfully" (length (withHeader (ledger s)) + 1))
                {| ledger := (withHeader (ledger s) ++ [values])%list; debugSheet := dbg |}.

(** Sample data used by the examples. *)
Module Sample.

Definition absent : prim := PUndefined.

Definition receiptOf (m d t : prim) : receipt :=
  {| force := absent; merchantName := m; date := d; time := absent;
     total := t; currency := absent; tax := absent;
     items := ItemsPrim absent |}.

(** [{merchantName:"Acme", date:"2024-01-01", total:"10.00"}] *)
Definition acme : receipt :=
  receiptOf (PStr "Acme") (PStr "2024-01-01") (PStr "10.00").

(** The same receipt with total ["10.01"] *)
Definition acme1001 : receipt :=
  receiptOf (PStr "Acme") (PStr "2024-01-01") (PStr "10.01").

(** [{merchantName:"  acme ", date:"2024-01-01", total:"10.00"}] *)
Definition acmePadded : receipt :=
  receiptOf (PStr "  acme ") (PStr "2024-01-01") (PStr "10.00").

(** [{merchantName:"Acme", date:"2024-01-01"}]: no total *)
Definition acmeNoTotal : receipt :=
  receiptOf (PStr "Acme") (PStr "2024-01-01") absent.

(** [{date:"2024-01-01", total:"10.00"}]: no merchant name *)
Definition noMerchant : receipt :=
  receiptOf absent (PStr "2024-01-01") (PStr "10.00").

Definition forced (r : receipt) : receipt :=
  {| force := PBool true; merchantName := merchantName r; date := date r;
     time := time r; total := total r; currency := currency r;
     tax := tax r; items := items r |}.

Definition clk1 : clock := {| logTime := "2024-01-02T10:00:00.000Z"; rowTime := "2024-01-02T10:00:00.100Z" |}.
Definition clk2 : clock := {| logTime := "2024-01-02T10:05:00.000Z"; rowTime := "2024-01-02T10:05:00.100Z" |}.

(** The spreadsheet after [r] was submitted to an empty one. *)
Definition after (r : receipt) : spreadsheet :=
  snd (submit clk1 (Parsed (JReceipt r)) emptySpreadsheet).

(** The ledger after [acme] was submitted three times with [force]. *)
Definition threeAcme : sheet :=
  let r := Parsed (JReceipt (forced acme)) in
  let s1 := snd (submit clk1 r emptySpreadsheet) in
  let s2 := snd (submit clk1 r s1) in
  ledger (snd (submit clk2 r s2)).

(** [{merchantName:7, date:"2024-01-01", total:"10.00"}]: the merchant
    name is a number *)
Definition merchant7 : receipt :=
  receiptOf (PNum 7) (PStr "2024-01-01") (PStr "10.00").

(** The spreadsheet after [merchant7] and then [acme] twice were submitted
    with [force]. *)
Definition sevenThenAcme : spreadsheet :=
  let s1 := snd (submit clk1 (Parsed (JReceipt (forced merchant7))) emptySpreadsheet) in
  let s2 := snd (submit clk1 (Parsed (JReceipt (forced acme))) s1) in
  snd (submit clk2 (Parsed (JReceipt (forced acme))) s2).

End Sample.

(* ================================================================== *)
(** ** The first revision of the handler

    The second script of [google_apps_script.js] is the handler before
    duplicate detection: nine columns, no raw-text columns, no Debug
    sheet, and every request that gets through is appended with
    [appendRow]. Its [if]/[else] on [data.items] is the one of the current
    revision ([formatItems]). *)

Module FirstRevision.

Definition HEADER : row :=
  [PStr "Date"; PStr "Time"; PStr "Merchant"; PStr "Total"; PStr "Currency";
   PStr "Tax"; PStr "Item Count"; PStr "Items (Description x Qty @ Price)";
   PStr "Timestamp"].

(** The array literal [rowData]. *)
Definition buildRow (now : string) (data : jdata) (itemsText : string) : result row :=
  d <~ prop data date ;;
  tm <~ prop data time ;;
  m <~ prop data merchantName ;;
  t <~ prop data total ;;
  c <~ prop data currency ;;
  x <~ prop data tax ;;
  its <~ prop_items data ;;
  Return [d <||> PStr "";
          tm <||> PStr "";
          m <||> PStr "Unknown";
          t <||> PStr "0.00";
          c <||> PStr "USD";
          x <||> PStr "0.00";
          (if items_truthy its then items_length its else PNum 0);
          PStr itemsText;
          PStr now].

(** The body of the [try] block. *)
Definition doPost_try (now : string) (e : parsed) : M response :=
  data <- eval (match e with
                | ParseThrows err => Throw err
                | Parsed d => Return d
                end) ;;
  lastRow <- getLastRow ;;
  (if lastRow =? 0 then appendRow HEADER else ret tt) ;;;
  itemsText <- eval (formatItems data) ;;
  rowValues <- eval (buildRow now data itemsText) ;;
  appendRow rowValues ;;;
  after <- getLastRow ;;
  ret (Accepted "Receipt saved successfully" after).

(** [doPost(e)] *)
Definition doPost (now : string) (e : parsed) : M response :=
  try_catch (doPost_try now e)
            (fun error => ret (Failure (exn_toString error))).

(** The response of a request and the spreadsheet it leaves. *)
Definition submit (now : string) (e : parsed) (s : spreadsheet) : response * spreadsheet :=
  match doPost now e s with
  | (Return r, s') => (r, s')
  | (Throw err, s') => (Failure (exn_toString err), s')
  end.

(** The ledger as the append sees it. *)
Definition withHeader (sh : sheet) : sheet :=
  if length sh =? 0 then [HEADER] else sh.

End FirstRevision.

(* ================================================================== *)
(** ** Vocabulary of the further properties *)

(** One step of the spreadsheet's history: a request or a run of the
    migration; [evolves] is any number of steps. *)
Inductive evolves : spreadsheet -> spreadsheet -> Prop :=
| evolves_refl : forall s, evolves s s
| evolves_submit : forall clk e s s',
    evolves s s' -> evolves s (snd (submit clk e s'))
| evolves_migrate : forall s s',
    evolves s s' -> evolves s (migrateOldRows s').

(** An element of [items] that has no properties to read. *)
Definition isNullish (it : item) : bool :=
  match it with
  | ItemPrim PNull | ItemPrim PUndefined => true
  | _ => false
  end.

(** The values of [items] on which formatting throws: a non-empty string,
    or a non-empty array with a [null] element. *)
Definition badItems (v : items_value) : bool :=
  match v with
  | ItemsPrim (PStr s) => negb (s =? "")%string
  | ItemsPrim _ => false
  | ItemsArr l => existsb isNullish l
  end.

(** The text the item at one position of [items] is rendered as. *)
Definition itemTextOf (cur : prim) (it : item) : string :=
  match it with
  | ItemObj o => itemText cur (description o) (quantity o) (price o)
  | ItemPrim _ => itemText cur PUndefined PUndefined PUndefined
  end.

(** The text of a field that is a string, the empty text otherwise. *)
Definition textOf (v : prim) : string :=
  match v with
  | PStr s => s
  | _ => EmptyString
  end.

(** The three normal forms the matcher compares. *)
Record matchKey : Type := mkKey {
  key_merchant : string;
  key_date : string;
  key_total : string
}.

Definition matchKey_eqb (a b : matchKey) : bool :=
  (key_merchant a =? key_merchant b)%string
  && (key_date a =? key_date b)%string
  && (key_total a =? key_total b)%string.

(** The key of a candidate whose three fields are text or absent. *)
Definition keyOf (rc : receipt) : matchKey :=
  {| key_merchant := JsString.trim (JsString.toLowerCase (textOf (merchantName rc)));
     key_date := JsString.trim (textOf (date rc));
     key_total := JsString.trim (textOf (total rc)) |}.

(** The key of a stored row whose Merchant cell is text. *)
Definition rowKey (r : row) : matchKey :=
  {| key_merchant := JsString.trim (JsString.toLowerCase (textOf (cell r 2)));
     key_date := JsString.trim (ToString (rd_rawDate (rowData_of r) <||> PStr EmptyString));
     key_total := JsString.trim (ToString (rd_rawTotal (rowData_of r) <||> PStr EmptyString)) |}.

(** A row whose raw columns are empty or spell the same text as the Date
    and Total columns. *)
Definition rawAgrees (r : row) : Prop :=
  (truthy (cell r 9) = false \/ ToString (cell r 9) = ToString (cell r 0))
  /\ (truthy (cell r 10) = false \/ ToString (cell r 10) = ToString (cell r 3)).

(** The row number a search reports, if any. *)
Definition reportedRow (found : result (option duplicate)) : result (option nat) :=
  match found with
  | Return (Some dup) => Return (Some (dup_row dup))
  | Return None => Return None
  | Throw err => Throw err
  end.

(** The Debug sheet once [writeDebugLog] has made sure of its header row. *)
Definition debugWithHeader (d : option sheet) : sheet :=
  match d with
  | None => [DEBUG_HEADER]
  | Some rows =>
      if (length rows =? 0) || isNotTimestamp (cell (nth 0 rows []) 0)
      then DEBUG_HEADER :: rows
      else rows
  end.

(** The sheet that [writeDebugLog] reads as [mainSheet], given the Debug
    sheet and the ledger it finds: the Debug sheet it has just inserted,
    which holds the header row only, or the ledger. *)
Definition mainSheetOf (d : option sheet) (l : sheet) : sheet :=
  match d with
  | None => [DEBUG_HEADER]
  | Some _ => l
  end.

(** The row [writeDebugLog] appends for a candidate record when the rows of
    [mainSheet] are [main]. *)
Definition debugRowOf (now outcome : string) (rc : receipt) (main : sheet) : row :=
  let row2 := if 1 <? length main then nth 1 main [] else [] in
  [PStr now; PStr outcome;
   merchantName rc <||> PStr EmptyString;
   date rc <||> PStr EmptyString;
   total rc <||> PStr EmptyString;
   (cell row2 9 <||> PStr EmptyString) <||> PStr "(empty)";
   (cell row2 10 <||> PStr EmptyString) <||> PStr "(empty)";
   (cell row2 2 <||> PStr EmptyString) <||> PStr "(empty)"].

(* ================================================================== *)
(** ** The handler when the spreadsheet service can fail

    Every method of [SpreadsheetApp], of a spreadsheet, of a sheet and of
    a range is a call of the spreadsheet service, and any of them may
    throw. The module [Faulty] embeds [doPost], [findDuplicate] and
    [writeDebugLog] once more with each of these calls in its place, the
    formatting calls included, under a schedule that tells for the calls
    of one execution, in the order in which they are made, which of them
    throw. A call that throws is taken to leave every cell as it was.
    [JSON.parse], [console.log] and the calls of [ContentService] in
    [createCorsResponse] are not calls of the spreadsheet service and are
    not scheduled. *)

(** A call that changes no cell value and whose result, a spreadsheet, a
    sheet or a range, stands for a place the model already knows:
    [getActiveSpreadsheet], [getActiveSheet], [getRange], [setFontWeight],
    [setBackground], [setFontColor], [setNumberFormat],
    [autoResizeColumns]. *)
Definition noValueChange : M unit := ret tt.

(** [sheet.getRange(2, 1, lastRow - 1, 11).getValues()] (the part
    [getValues]) *)
Definition getDataRows : M sheet :=
  fun s => (Return (skipn 1 (ledger s)), s).

Module Faulty.

(** For each call of one execution in turn: [None] when the call goes
    through, [Some err] when it throws [err]. The calls past the end of
    the list go through. *)
Definition schedule : Type := list (option exn).

(** Statements: the spreadsheet and the rest of the schedule are threaded
    through, and both survive an exception. *)
Definition MF (A : Type) : Type :=
  schedule -> spreadsheet -> result A * spreadsheet * schedule.

Definition ret {A} (a : A) : MF A := fun q s => (Return a, s, q).

Definition bind {A B} (c : MF A) (k : A -> MF B) : MF B :=
  fun q s =>
    match c q s with
    | (Return a, s', q') => k a q' s'
    | (Throw e, s', q') => (Throw e, s', q')
    end.

Declare Scope faulty_scope.
Delimit Scope faulty_scope with faulty.
Notation "x <- c ;; k" := (bind c (fun x => k))
  (at level 61, c at next level, right associativity) : faulty_scope.
Notation "c ;;; k" := (bind c (fun _ => k))
  (at level 61, right associativity) : faulty_scope.
Local Open Scope faulty_scope.

(** Evaluation of an expression inside a statement. *)
Definition eval {A} (c : result A) : MF A := fun q s => (c, s, q).

(** [try { body } catch (error) { handler }] *)
Definition try_catch {A} (body : MF A) (handler : exn -> MF A) : MF A :=
  fun q s =>
    match body q s with
    | (Return a, s', q') => (Return a, s', q')
    | (Throw e, s', q') => handler e q' s'
    end.

(** One call of the spreadsheet service: it throws when the schedule says
    so, and otherwise does what [op] does. *)
Definition service {A} (op : M A) : MF A :=
  fun q s =>
    match q with
    | Some err :: q' => (Throw err, s, q')
    | None :: q' => (op s, q')
    | [] => (op s, [])
    end.

(** [findDuplicate(sheet, newReceipt)] *)
Definition findDuplicate (newReceipt : jdata) : MF (option duplicate) :=
  lastRow <- service getLastRow ;;
  if lastRow <=? 1 then ret None
  else
    service noValueChange ;;;
    data <- service getDataRows ;;
    eval (scanRows data 0 newReceipt).

(** The four calls that format a header row: [getRange(1, 1, 1, n)], then
    [setFontWeight], [setBackground] and [setFontColor] on that range. *)
Definition formatHeaderRow : MF unit :=
  service noValueChange ;;;
  service noValueChange ;;;
  service noValueChange ;;;
  service noValueChange.

(** [writeDebugLog(newReceipt, duplicate, result)] *)
Definition writeDebugLog (now : string) (newReceipt : jdata)
    (dup : option duplicate) (outcome : string) : MF unit :=
  try_catch
    (service noValueChange ;;;
     found <- service getDebugSheet ;;
     let inserted := match found with None => true | Some _ => false end in
     (match found with
      | None =>
          service insertDebugSheet ;;;
          service (debugAppendRow DEBUG_HEADER) ;;;
          formatHeaderRow
      | Some _ => ret tt
      end) ;;;
     n <- service debugGetLastRow ;;
     missing <- (if n =? 0 then ret true
                 else service noValueChange ;;;
                      a1 <- service debugGetA1 ;;
                      ret (isNotTimestamp a1)) ;;
     (if missing : bool
      then service debugInsertRowBefore1 ;;;
           service noValueChange ;;;
           service (debugSetRow1 DEBUG_HEADER) ;;;
           formatHeaderRow
      else ret tt) ;;;
     service noValueChange ;;;
     service (activeGetLastRow inserted) ;;;
     lastRow <- service (activeGetLastRow inserted) ;;
     row2 <- (if 1 <? lastRow
              then service noValueChange ;;; service (activeGetRow2 inserted)
              else ret []) ;;
     let sheetMerchant := if 1 <? lastRow then cell row2 2 <||> PStr "" else PStr "" in
     let sheetRawDate := if 1 <? lastRow then cell row2 9 <||> PStr "" else PStr "" in
     let sheetRawTotal := if 1 <? lastRow then cell row2 10 <||> PStr "" else PStr "" in
     m <- eval (prop newReceipt merchantName) ;;
     d <- eval (prop newReceipt date) ;;
     t <- eval (prop newReceipt total) ;;
     service (debugAppendRow
                [PStr now; PStr outcome;
                 m <||> PStr ""; d <||> PStr ""; t <||> PStr "";
                 sheetRawDate <||> PStr "(empty)";
                 sheetRawTotal <||> PStr "(empty)";
                 sheetMerchant <||> PStr "(empty)"]) ;;;
     service noValueChange)
    (fun _ => ret tt).

(** From [let itemsText] to the success response. *)
Definition saveReceipt (clk : clock) (data : jdata) : MF response :=
  itemsText <- eval (formatItems data) ;;
  rowValues <- eval (buildRow (rowTime clk) data itemsText) ;;
  lastRow <- service getLastRow ;;
  let newRow := lastRow + 1 in
  service noValueChange ;;;
  service (setRowValues newRow rowValues) ;;;
  service noValueChange ;;;
  service noValueChange ;;;
  service noValueChange ;;;
  after <- service getLastRow ;;
  ret (createCorsResponse (Accepted "Receipt saved successfully" after)).

(** The body of the [try] block. *)
Definition doPost_try (clk : clock) (e : parsed) : MF response :=
  data <- eval (match e with
                | ParseThrows err => Throw err
                | Parsed d => Return d
                end) ;;
  service noValueChange ;;;
  service noValueChange ;;;
  lastRow <- service getLastRow ;;
  (if lastRow =? 0
   then service (appendRow HEADER) ;;;
        formatHeaderRow
   else ret tt) ;;;
  f <- eval (prop data force) ;;
  if negb (truthy f) then
    found <- findDuplicate data ;;
    match found with
    | Some dup =>
        writeDebugLog (logTime clk) data (Some dup) "DUPLICATE FOUND" ;;;
        ret (createCorsResponse
               (Duplicate (dup_row dup) (dup_data dup) (duplicateMessage (dup_data dup))))
    | None =>
        writeDebugLog (logTime clk) data None "NO DUPLICATE" ;;;
        saveReceipt clk data
    end
  else saveReceipt clk data.

(** [doPost(e)] *)
Definition doPost (clk : clock) (e : parsed) : MF response :=
  try_catch (doPost_try clk e)
            (fun error => ret (createCorsResponse (Failure (exn_toString error)))).

(** The response of a request and the spreadsheet it leaves, when the
    service follows the schedule [q]. *)
Definition submit (q : schedule) (clk : clock) (e : parsed) (s : spreadsheet)
    : response * spreadsheet :=
  match doPost clk e q s with
  | (Return r, s', _) => (r, s')
  | (Throw err, s', _) => (Failure (exn_toString err), s')
  end.

End Faulty.

(** A statement that leaves the ledger sheet as it is, whatever the
    service does, and that takes its calls from the schedule in order. *)
Definition keepsLedger {A} (c : Faulty.MF A) : Prop :=
  forall q s, exists r dbg q',
    incl q' q
    /\ c q s = (r, {| ledger := ledger s; debugSheet := dbg |}, q').

(** The same for a call when it goes through. *)
Definition opKeepsLedger {A} (op : M A) : Prop :=
  forall s, exists r dbg, op s = (r, {| ledger := ledger s; debugSheet := dbg |}).

(** The row that [doPost] builds for the request [e], when it can. *)
Definition rowOfRequest (clk : clock) (e : parsed) : option row :=
  match e with
  | ParseThrows _ => None
  | Parsed data =>
      match formatItems data with
      | Throw _ => None
      | Return txt =>
          match buildRow (rowTime clk) data txt with
          | Throw _ => None
          | Return values => Some values
          end
      end
  end.

(* ================================================================== *)
(** * Properties *)

(** ** Strings *)

Section StringFacts.
Import JsString.

Lemma trimStart_app_ws (w s : string) :
  allWhiteSpace w = true -> trimStart (w ++ s) = trimStart s.
Proof.
  induction w as [|c w IH]; simpl; intros H; [reflexivity|].
  apply andb_prop in H. destruct H as [Hc Hw].
  rewrite Hc. now apply IH.
Qed.

Lemma trimStart_ws (w : string) :
  allWhiteSpace w = true -> trimStart w = "".
Proof.
  induction w as [|c w IH]; simpl; intros H; [reflexivity|].
  apply andb_prop in H. destruct H as [Hc Hw].
  rewrite Hc. now apply IH.
Qed.

Lemma trimEnd_ws (w : string) :
  allWhiteSpace w = true -> trimEnd w = "".
Proof.
  induction w as [|c w IH]; simpl; intros H; [reflexivity|].
  apply andb_prop in H. destruct H as [Hc Hw].
  rewrite (IH Hw), Hc. reflexivity.
Qed.

Lemma trimEnd_app_ws (s w : string) :
  allWhiteSpace w = true -> trimEnd (s ++ w) = trimEnd s.
Proof.
  intros Hw. induction s as [|c s IH]; simpl.
  - now apply trimEnd_ws.
  - rewrite IH. reflexivity.
Qed.

Lemma trimStart_app_nonblank (s w : string) :
  trimStart s <> "" -> trimStart (s ++ w) = trimStart s ++ w.
Proof.
  induction s as [|c s IH]; simpl; intros H.
  - congruence.
  - destruct (isWhiteSpace c); [now apply IH | reflexivity].
Qed.

(** White space around a string does not survive [trim]. *)
Lemma trim_padding (w1 s w2 : string) :
  allWhiteSpace w1 = true -> allWhiteSpace w2 = true ->
  trim (w1 ++ s ++ w2) = trim s.
Proof.
  intros H1 H2. unfold trim. rewrite (trimStart_app_ws _ _ H1).
  destruct (string_dec (trimStart s) "") as [E|E].
  - rewrite E. simpl.
    assert (Hs : allWhiteSpace s = true).
    { clear - E. induction s as [|c s IH]; simpl in *; [reflexivity|].
      destruct (isWhiteSpace c); [now apply IH | discriminate]. }
    assert (Hall : allWhiteSpace (s ++ w2) = true).
    { clear - Hs H2. induction s as [|c s IH]; simpl in *; [assumption|].
      apply andb_prop in Hs. destruct Hs as [-> Hs]. now apply IH. }
    rewrite (trimStart_ws _ Hall). reflexivity.
  - rewrite (trimStart_app_nonblank _ _ E). now apply trimEnd_app_ws.
Qed.

Lemma lowerChar_lowered (a : ascii) :
  isUpper a = true -> lowerChar (ascii_of_nat (code a + 32)) = lowerChar a.
Proof.
  destruct a as [[] [] [] [] [] [] [] []]; intros H;
    try discriminate H; reflexivity.
Qed.

Lemma sameLetter_lowerChar (a b : ascii) :
  sameLetter a b = true -> lowerChar a = lowerChar b.
Proof.
  unfold sameLetter. intros H.
  apply orb_prop in H. destruct H as [H|H].
  - apply orb_prop in H. destruct H as [H|H].
    + apply Ascii.eqb_eq in H. now subst.
    + apply andb_prop in H. destruct H as [Hu Hb].
      apply Ascii.eqb_eq in Hb. subst b. symmetry. now apply lowerChar_lowered.
  - apply andb_prop in H. destruct H as [Hu Ha].
    apply Ascii.eqb_eq in Ha. subst a. now apply lowerChar_lowered.
Qed.

(** Strings equal up to letter case have the same lower-case form. *)
Lemma equalIgnoringCase_toLowerCase (s t : string) :
  equalIgnoringCase s t = true -> toLowerCase s = toLowerCase t.
Proof.
  revert t. induction s as [|a s IH]; intros [|b t]; simpl; intros H;
    try discriminate H; [reflexivity|].
  apply andb_prop in H. destruct H as [Hab Hst].
  rewrite (sameLetter_lowerChar _ _ Hab), (IH _ Hst). reflexivity.
Qed.

Lemma toLowerCase_app (s t : string) :
  toLowerCase (s ++ t) = toLowerCase s ++ toLowerCase t.
Proof.
  induction s as [|c s IH]; simpl; [reflexivity | now rewrite IH].
Qed.

Lemma isWhiteSpace_lowerChar (c : ascii) :
  isWhiteSpace c = true -> lowerChar c = c.
Proof.
  destruct c as [[] [] [] [] [] [] [] []]; intros H;
    try discriminate H; reflexivity.
Qed.

Lemma toLowerCase_ws (w : string) :
  allWhiteSpace w = true -> toLowerCase w = w.
Proof.
  induction w as [|c w IH]; simpl; intros H; [reflexivity|].
  apply andb_prop in H. destruct H as [Hc Hw].
  rewrite (isWhiteSpace_lowerChar _ Hc), (IH Hw). reflexivity.
Qed.

End StringFacts.

(* ================================================================== *)
(** ** The embedding on a few inputs *)

Example trim_acme : JsString.trim "  acme " = "acme".
Proof. reflexivity. Qed.

Example toLowerCase_acme : JsString.toLowerCase "Acme" = "acme".
Proof. reflexivity. Qed.

Example no_items_text :
  formatItems (JReceipt Sample.acme) = Return "No items".
Proof. reflexivity. Qed.

Example one_item_text :
  formatItems
    (JReceipt {| force := PUndefined; merchantName := PStr "Cafe";
                 date := PUndefined; time := PUndefined; total := PStr "3.50";
                 currency := PStr "USD"; tax := PUndefined;
                 items := ItemsArr [ItemObj {| description := PStr "Coffee";
                                               quantity := PNum 1;
                                               price := PStr "3.50" |}] |})
  = Return "Coffee x1 @ USD 3.50".
Proof. reflexivity. Qed.

Example first_submission :
  submit Sample.clk1 (Parsed (JReceipt Sample.acme)) emptySpreadsheet
  = (Accepted "Receipt saved successfully" 2,
     {| ledger :=
          [HEADER;
           [PStr "2024-01-01"; PStr EmptyString; PStr "Acme"; PStr "10.00";
            PStr "USD"; PStr "0.00"; PNum 0; PStr "No items";
            PStr "2024-01-02T10:00:00.100Z"; PStr "2024-01-01"; PStr "10.00"]];
        debugSheet :=
          Some [DEBUG_HEADER;
                [PStr "2024-01-02T10:00:00.000Z"; PStr "NO DUPLICATE"; PStr "Acme";
                 PStr "2024-01-01"; PStr "10.00"; PStr "(empty)"; PStr "(empty)";
                 PStr "(empty)"]] |}).
Proof. vm_compute. reflexivity. Qed.

(* ================================================================== *)
(** ** The handler, statement by statement *)

Ltac break_if :=
  match goal with
  | |- context [if ?c then _ else _] => destruct c eqn:?
  end.

Ltac run_M :=
  cbv beta iota delta
    [bind ret eval try_catch getLastRow appendRow setRowValues getDebugSheet
     setDebugRows insertDebugSheet debugAppendRow debugGetLastRow debugGetA1
     debugInsertRowBefore1 debugSetRow1 activeGetLastRow activeGetRow2
     activeRows createCorsResponse];
  cbn [ledger debugSheet fst snd].

(** [writeDebugLog] never throws and leaves the ledger sheet as it is. *)
Lemma writeDebugLog_frame now d dup outcome s :
  exists dbg,
    writeDebugLog now d dup outcome s
    = (Return tt, {| ledger := ledger s; debugSheet := dbg |}).
Proof.
  unfold writeDebugLog. destruct s as [l dbg0]. run_M.
  destruct dbg0 as [dbg0|]; run_M; unfold debugRows; cbn [ledger debugSheet];
    repeat break_if; run_M;
    destruct d as [[| |b|n|x]|r]; cbn [prop]; run_M; eexists; reflexivity.
Qed.

Lemma setRowValues_append (values : row) (l : sheet) :
  (firstn (length l + 1 - 1) l ++ values :: skipn (length l + 1) l)%list
  = (l ++ [values])%list.
Proof.
  replace (length l + 1 - 1) with (length l) by lia.
  rewrite firstn_all, skipn_all2 by lia. reflexivity.
Qed.

(** The statements after the duplicate check: either an expression throws
    and nothing is written, or one row is written after the last one. *)
Lemma saveReceipt_spec clk data s :
  saveReceipt clk data s =
  match formatItems data with
  | Throw e => (Throw e, s)
  | Return txt =>
      match buildRow (rowTime clk) data txt with
      | Throw e => (Throw e, s)
      | Return values =>
          (Return (Accepted "Receipt saved successfully" (length (ledger s) + 1)),
           {| ledger := (ledger s ++ [values])%list; debugSheet := debugSheet s |})
      end
  end.
Proof.
  unfold saveReceipt. run_M.
  destruct (formatItems data) as [txt|e]; [|reflexivity].
  destruct (buildRow (rowTime clk) data txt) as [values|e]; [|reflexivity].
  rewrite setRowValues_append, length_app. reflexivity.
Qed.

Lemma withHeader_nonempty sh : sh <> [] -> withHeader sh = sh.
Proof. destruct sh; [congruence | reflexivity]. Qed.

Lemma withHeader_length sh : 1 <= length (withHeader sh).
Proof. destruct sh; simpl; lia. Qed.

Lemma buildRow_total now data txt f :
  prop data force = Return f -> exists values, buildRow now data txt = Return values.
Proof.
  destruct data as [[| |b|n|x]|r]; cbn; intros H; try discriminate H;
    eexists; reflexivity.
Qed.

Lemma header_step (k : M response) s :
  (lastRow <- getLastRow ;;
   (if lastRow =? 0 then appendRow HEADER else ret tt) ;;; k) s
  = k {| ledger := withHeader (ledger s); debugSheet := debugSheet s |}.
Proof. destruct s as [[|h l] d]; reflexivity. Qed.

Lemma doPost_try_cases clk e s :
  try_path clk e s (fst (doPost_try clk e s)) (snd (doPost_try clk e s)).
Proof.
  destruct (doPost_try clk e s) as [out s'] eqn:E. cbn [fst snd].
  unfold doPost_try in E.
  destruct e as [err|data].
  { cbn in E. injection E as <- <-. now apply path_parse_error. }
  change (bind (eval (Return data)) ?k s) with (k data s) in E. cbv beta in E.
  rewrite header_step in E.
  destruct s as [l dbg0]. cbn [ledger debugSheet] in *.
  set (s1 := {| ledger := withHeader l; debugSheet := dbg0 |}) in *.
  destruct (prop data force) as [f|err] eqn:Hf.
  2:{ cbn in E. injection E as <- <-. eapply path_thrown; [reflexivity | now left]. }
  change (bind (eval (Return f)) ?k s1) with (k f s1) in E. cbv beta in E.
  assert (Hsave : forall s2, ledger s2 = withHeader l ->
            (truthy f = true \/ findDuplicate (withHeader l) data = Return None) ->
            saveReceipt clk data s2 = (out, s') ->
            try_path clk (Parsed data) {| ledger := l; debugSheet := dbg0 |} out s').
  { intros s2 Hl Hwhy E2. rewrite saveReceipt_spec in E2.
    destruct (formatItems data) as [txt|err] eqn:Hfmt.
    - destruct (buildRow_total (rowTime clk) data txt f Hf) as [values Hrow].
      rewrite Hrow in E2. rewrite Hl in E2. injection E2 as <- <-.
      eapply path_saved; eauto.
    - injection E2 as <- <-.
      destruct s2 as [l2 d2]. cbn in Hl. subst l2.
      eapply path_thrown; [reflexivity | right; right; exists f; auto]. }
  destruct (truthy f) eqn:Ht; cbn [negb] in E.
  - now apply (Hsave s1 eq_refl (or_introl eq_refl)).
  - unfold bind at 1 in E. cbn [ledger s1] in E.
    destruct (findDuplicate (withHeader l) data) as [[dup|]|err] eqn:Hfind.
    + unfold bind at 1 in E.
      destruct (writeDebugLog_frame (logTime clk) data (Some dup) "DUPLICATE FOUND" s1)
        as [dbg Hlog].
      rewrite Hlog in E. cbn [ledger s1 ret createCorsResponse] in E.
      injection E as <- <-.
      eapply path_duplicate; eauto.
    + unfold bind at 1 in E.
      destruct (writeDebugLog_frame (logTime clk) data None "NO DUPLICATE" s1)
        as [dbg Hlog].
      rewrite Hlog in E.
      now apply (Hsave {| ledger := ledger s1; debugSheet := dbg |} eq_refl (or_intror eq_refl)).
    + injection E as <- <-. eapply path_thrown; [reflexivity|].
      right; left. exists f. auto.
Qed.

(** [doPost] turns what the [try] block throws into a failure response;
    it never throws itself. *)
Lemma submit_from_try clk e s :
  submit clk e s =
  match doPost_try clk e s with
  | (Return r, s') => (r, s')
  | (Throw err, s') => (Failure (exn_toString err), s')
  end.
Proof.
  unfold submit, doPost, try_catch.
  destruct (doPost_try clk e s) as [[r|err] s']; reflexivity.
Qed.

Lemma doPost_never_throws clk e s :
  exists r, fst (doPost clk e s) = Return r.
Proof.
  unfold doPost, try_catch.
  destruct (doPost_try clk e s) as [[r|err] s']; eexists; reflexivity.
Qed.

Lemma submit_cases clk e s :
  submit_path clk e s (fst (submit clk e s)) (snd (submit clk e s)).
Proof.
  rewrite submit_from_try.
  pose proof (doPost_try_cases clk e s) as P.
  destruct (doPost_try clk e s) as [[r|err] s'] eqn:E; cbn [fst snd] in *.
  - inversion P; subst.
    + eapply submit_duplicate; eauto.
    + eapply submit_saved; eauto.
  - now apply submit_failure.
Qed.

(** The ledger after a failed request: as before, or with the header row
    the request added to an empty sheet. *)
Lemma try_path_thrown_ledger clk e s err s' :
  try_path clk e s (Throw err) s' ->
  ledger s' = ledger s \/ (ledger s = [] /\ ledger s' = [HEADER]).
Proof.
  intros P. inversion P; subst; cbn [ledger].
  - now left.
  - destruct (ledger s) as [|h l]; [right; split; reflexivity | now left].
Qed.

(* ================================================================== *)
(** ** The duplicate matcher *)

(** A hit of the scan is a matching row, and every row scanned before it
    was evaluated and did not match. *)
Lemma scanRows_found data : forall i R dup,
  scanRows data i R = Return (Some dup) ->
  exists k,
    k < length data /\ dup_row dup = i + k + 2
    /\ dup_data dup = existing_of (nth k data [])
    /\ rowMatches (nth k data []) R = Return true
    /\ forall j, j < k -> rowMatches (nth j data []) R = Return false.
Proof.
  induction data as [|r rest IH]; intros i R dup H; cbn in H.
  - discriminate H.
  - destruct (rowMatches r R) as [[|]|e] eqn:Hm; cbn in H.
    + injection H as <-. exists 0. cbn.
      repeat split; try lia; try exact Hm.
    + destruct (IH _ _ _ H) as (k & Hk & Hrow & Hdata & Hhit & Hbefore).
      exists (S k). cbn. repeat split; try lia; try assumption.
      intros [|j] Hj; [exact Hm | apply Hbefore; lia].
    + discriminate H.
Qed.

Lemma scanRows_none data : forall i R,
  scanRows data i R = Return None ->
  forall j, j < length data -> rowMatches (nth j data []) R = Return false.
Proof.
  induction data as [|r rest IH]; intros i R H j Hj; cbn in *; [lia|].
  destruct (rowMatches r R) as [[|]|e] eqn:Hm; cbn in H; try discriminate H.
  destruct j as [|j]; [exact Hm | apply (IH _ _ H); lia].
Qed.

(** The scan stops at the first row that matches. *)
Lemma scanRows_first data : forall i R k,
  k < length data ->
  rowMatches (nth k data []) R = Return true ->
  (forall j, j < k -> rowMatches (nth j data []) R = Return false) ->
  scanRows data i R
  = Return (Some {| dup_row := i + k + 2; dup_data := existing_of (nth k data []) |}).
Proof.
  induction data as [|r rest IH]; intros i R k Hk Hhit Hbefore; cbn in Hk; [lia|].
  destruct k as [|k]; cbn in *.
  - rewrite Hhit. cbn. rewrite Nat.add_0_r. reflexivity.
  - rewrite (Hbefore 0) by lia. cbn.
    rewrite (IH (S i) R k); try lia; try assumption.
    + replace (S i + k + 2) with (i + S k + 2) by lia. reflexivity.
    + intros j Hj. apply (Hbefore (S j)). lia.
Qed.

Lemma or_else_str s : PStr s <||> PStr "" = PStr s.
Proof.
  unfold or_else. cbn. destruct (String.eqb_spec s ""); [now subst | reflexivity].
Qed.

Lemma or_else_text v : isText v = true -> v <||> PStr "" = inputText v.
Proof.
  destruct v; cbn; intros H; try discriminate H; try reflexivity.
  apply or_else_str.
Qed.

Lemma call_toString_or_else v : exists x, call_toString (v <||> PStr "") = Return x.
Proof.
  unfold or_else. destruct (truthy v) eqn:Hv.
  - destruct v; cbn in *; try discriminate Hv; eexists; reflexivity.
  - eexists; reflexivity.
Qed.

(** With text in the Merchant cell and a candidate whose merchant name is
    text, evaluating the three predicates does not throw. *)
Lemma rowMatches_total r rc :
  isStr (cell r 2) = true -> isText (merchantName rc) = true ->
  exists b, rowMatches r (JReceipt rc) = Return b.
Proof.
  intros Hcell Hname. unfold rowMatches, merchantMatch, dateMatch, totalMatch.
  cbn [rowData_of rd_merchant rd_rawDate rd_rawTotal prop rbind].
  destruct (cell r 2) as [| | | |m]; try discriminate Hcell.
  rewrite or_else_str, (or_else_text _ Hname).
  destruct (merchantName rc) as [| | | |m']; try discriminate Hname; cbn [inputText call_toLowerCase rbind];
    destruct (call_toString_or_else (cell r 9 <||> cell r 0)) as [x1 ->];
    destruct (call_toString_or_else (date rc)) as [x2 ->];
    destruct (call_toString_or_else (cell r 10 <||> cell r 3)) as [x3 ->];
    destruct (call_toString_or_else (total rc)) as [x4 ->];
    cbn [rbind]; eexists; reflexivity.
Qed.

Lemma rowMatches_true r R :
  rowMatches r R = Return true ->
  merchantMatch (rowData_of r) R = Return true
  /\ dateMatch (rowData_of r) R = Return true
  /\ totalMatch (rowData_of r) R = Return true.
Proof.
  unfold rowMatches.
  destruct (merchantMatch (rowData_of r) R) as [[|]|]; cbn;
    destruct (dateMatch (rowData_of r) R) as [[|]|]; cbn;
      destruct (totalMatch (rowData_of r) R) as [[|]|]; cbn;
        intros H; try discriminate H; auto.
Qed.

Lemma nth_skipn_1 (sh : sheet) k : nth k (skipn 1 sh) [] = rowAt sh (k + 2).
Proof.
  unfold rowAt. replace (k + 2 - 1) with (S k) by lia.
  destruct sh; [destruct k|]; reflexivity.
Qed.

Lemma length_skipn_1 (sh : sheet) : length (skipn 1 sh) = length sh - 1.
Proof. destruct sh; cbn; lia. Qed.

(** What [findDuplicate] returns when it reports a row. *)
Lemma findDuplicate_found sh R dup :
  findDuplicate sh R = Return (Some dup) ->
  matchesAt sh R (dup_row dup)
  /\ dup_data dup = existing_of (rowAt sh (dup_row dup))
  /\ forall j, 2 <= j < dup_row dup -> rowMatches (rowAt sh j) R = Return false.
Proof.
  unfold findDuplicate. destruct (length sh <=? 1) eqn:Hlen; [discriminate|].
  apply Nat.leb_gt in Hlen. intros H.
  destruct (scanRows_found _ _ _ _ H) as (k & Hk & Hrow & Hdata & Hhit & Hbefore).
  rewrite length_skipn_1 in Hk. rewrite nth_skipn_1 in Hhit, Hdata.
  cbn in Hrow. rewrite Hrow. repeat split; try lia; try assumption.
  intros j Hj. replace j with ((j - 2) + 2) by lia.
  rewrite <- nth_skipn_1. apply Hbefore. lia.
Qed.

Lemma findDuplicate_none sh R :
  findDuplicate sh R = Return None ->
  forall j, 2 <= j <= length sh -> rowMatches (rowAt sh j) R = Return false.
Proof.
  unfold findDuplicate. intros H j Hj.
  destruct (length sh <=? 1) eqn:Hlen.
  - apply Nat.leb_le in Hlen. lia.
  - replace j with ((j - 2) + 2) by lia. rewrite <- nth_skipn_1.
    apply (scanRows_none _ _ _ H). rewrite length_skipn_1. lia.
Qed.

Lemma scanRows_total data rc :
  forallb (fun r => isStr (cell r 2)) data = true ->
  isText (merchantName rc) = true ->
  forall i, exists found, scanRows data i (JReceipt rc) = Return found.
Proof.
  intros Hdata Hname. induction data as [|r rest IH]; intros i; cbn.
  - eexists; reflexivity.
  - cbn in Hdata. apply andb_prop in Hdata. destruct Hdata as [Hr Hrest].
    destruct (rowMatches_total r rc Hr Hname) as [[|] ->]; cbn.
    + eexists; reflexivity.
    + apply (IH Hrest).
Qed.

Lemma findDuplicate_total sh rc :
  merchantsAreText sh = true -> isText (merchantName rc) = true ->
  exists found, findDuplicate sh (JReceipt rc) = Return found.
Proof.
  unfold findDuplicate, merchantsAreText. intros Hsh Hname.
  destruct (length sh <=? 1); [eexists; reflexivity|].
  now apply scanRows_total.
Qed.

(** On a ledger whose Merchant cells hold text, for a candidate receipt
    whose merchant name is text or absent, the scan cannot throw: as soon
    as some data row satisfies the three match predicates,
    [findDuplicate] returns a row, that row satisfies them, and no
    matching row has a lower row number. *)
Theorem findDuplicate_returns_lowest_match sh rc i :
  merchantsAreText sh = true ->
  isText (merchantName rc) = true ->
  matchesAt sh (JReceipt rc) i ->
  exists dup,
    findDuplicate sh (JReceipt rc) = Return (Some dup)
    /\ matchesAt sh (JReceipt rc) (dup_row dup)
    /\ forall j, matchesAt sh (JReceipt rc) j -> dup_row dup <= j.
Proof.
  intros Hsh Hname Hi.
  destruct (findDuplicate_total sh rc Hsh Hname) as [[dup|] Hfind].
  - exists dup. destruct (findDuplicate_found _ _ _ Hfind) as (Hhit & _ & Hbefore).
    split; [exact Hfind|]. split; [assumption|].
    intros j Hmj. destruct Hmj as [Hj Hmj].
    destruct (Nat.le_gt_cases (dup_row dup) j) as [|Hlt]; [assumption|].
    rewrite (Hbefore j) in Hmj by lia. discriminate Hmj.
  - destruct Hi as [Hi Hmi].
    rewrite (findDuplicate_none _ _ Hfind i Hi) in Hmi. discriminate Hmi.
Qed.

Lemma findDuplicate_returns_lowest_match_witness :
  exists dup,
    findDuplicate Sample.threeAcme (JReceipt Sample.acme) = Return (Some dup)
    /\ matchesAt Sample.threeAcme (JReceipt Sample.acme) (dup_row dup)
    /\ forall j, matchesAt Sample.threeAcme (JReceipt Sample.acme) j -> dup_row dup <= j.
Proof.
  apply (findDuplicate_returns_lowest_match Sample.threeAcme Sample.acme 4).
  - reflexivity.
  - reflexivity.
  - split; [cbn; lia | reflexivity].
Defined.

(** Three identical receipts stored through [force], then a fourth without
    [force]: the row reported is the first one, row 2. *)
Example fourth_submission_reports_first_row :
  fst (submit Sample.clk2 (Parsed (JReceipt Sample.acme))
              {| ledger := Sample.threeAcme; debugSheet := None |})
  = Duplicate 2 {| ex_merchant := PStr "Acme"; ex_date := PStr "2024-01-01";
                   ex_total := PStr "10.00" |}
              "Duplicate found: Acme on 2024-01-01 for undefined 10.00".
Proof. vm_compute. reflexivity. Qed.




Lemma call_toLowerCase_throws v :
  canLowerCase v = false ->
  call_toLowerCase (v <||> PStr "")
  = Throw (TypeError "(...).toLowerCase is not a function").
Proof.
  unfold canLowerCase, or_else. destruct (truthy v) eqn:Hv; cbn [negb orb].
  - destruct v; intros H; try discriminate H; reflexivity.
  - discriminate.
Qed.






(** The request itself is then answered with a failure. *)
Example submission_below_numeric_merchant_fails :
  fst (submit Sample.clk2 (Parsed (JReceipt Sample.acme)) Sample.sevenThenAcme)
  = Failure "TypeError: (...).toLowerCase is not a function".
Proof. vm_compute. reflexivity. Qed.

(** C5. The three match predicates compare normal forms that ignore white
    space around each compared field, on the stored side and on the
    candidate side, and ignore letter case in the merchant name. The
    example of the specification is an instance: candidate "Acme",
    "2024-01-01", "10.00" matches a stored row whose merchant is
    "  acme ". *)
Theorem match_ignores_case_and_padding
    (m m' d t : string) (a1 a2 b1 b2 c1 c2 a1' a2' b1' b2' c1' c2' : string) rc :
  forallb JsString.allWhiteSpace [a1; a2; b1; b2; c1; c2; a1'; a2'; b1'; b2'; c1'; c2'] = true ->
  JsString.equalIgnoringCase m m' = true ->
  merchantName rc = PStr (a1' ++ m' ++ a2') ->
  date rc = PStr (b1' ++ d ++ b2') ->
  total rc = PStr (c1' ++ t ++ c2') ->
  let stored := {| rd_merchant := PStr (a1 ++ m ++ a2);
                   rd_rawDate := PStr (b1 ++ d ++ b2);
                   rd_rawTotal := PStr (c1 ++ t ++ c2) |} in
  merchantMatch stored (JReceipt rc) = Return true
  /\ dateMatch stored (JReceipt rc) = Return true
  /\ totalMatch stored (JReceipt rc) = Return true
  /\ (forall r, rowData_of r = stored -> rowMatches r (JReceipt rc) = Return true)
  /\ rowMatches (rowAt (ledger (Sample.after Sample.acmePadded)) 2)
                (JReceipt Sample.acme) = Return true.
Proof.
  intros Hws Hcase Hm Hd Ht stored. cbn [forallb] in Hws.
  repeat (apply andb_prop in Hws; destruct Hws as [? Hws]).
  assert (Hrow : forall r, rowData_of r = stored ->
            merchantMatch stored (JReceipt rc) = Return true ->
            dateMatch stored (JReceipt rc) = Return true ->
            totalMatch stored (JReceipt rc) = Return true ->
            rowMatches r (JReceipt rc) = Return true).
  { intros r Hr Em Ed Et. unfold rowMatches. rewrite Hr, Em, Ed, Et. reflexivity. }
  cut (merchantMatch stored (JReceipt rc) = Return true
       /\ dateMatch stored (JReceipt rc) = Return true
       /\ totalMatch stored (JReceipt rc) = Return true).
  { intros (Em & Ed & Et). repeat split; try assumption.
    intros r Hr. now apply Hrow. }
  clear Hrow.
  unfold merchantMatch, dateMatch, totalMatch, stored.
  cbn [rd_merchant rd_rawDate rd_rawTotal prop rbind].
  rewrite Hm, Hd, Ht, !or_else_str.
  cbn [call_toLowerCase call_toString ToString rbind].
  unfold strictEqStr.
  rewrite !toLowerCase_app.
  rewrite (toLowerCase_ws a1), (toLowerCase_ws a2),
    (toLowerCase_ws a1'), (toLowerCase_ws a2') by assumption.
  rewrite !trim_padding by assumption.
  rewrite (equalIgnoringCase_toLowerCase _ _ Hcase).
  rewrite !String.eqb_refl. repeat split; reflexivity.
Qed.

Lemma match_ignores_case_and_padding_witness :
  let stored := {| rd_merchant := PStr ("  " ++ "acme" ++ " ");
                   rd_rawDate := PStr ("" ++ "2024-01-01" ++ " ");
                   rd_rawTotal := PStr (" " ++ "10.00" ++ "") |} in
  merchantMatch stored (JReceipt Sample.acme) = Return true
  /\ dateMatch stored (JReceipt Sample.acme) = Return true
  /\ totalMatch stored (JReceipt Sample.acme) = Return true
  /\ (forall r, rowData_of r = stored ->
                rowMatches r (JReceipt Sample.acme) = Return true)
  /\ rowMatches (rowAt (ledger (Sample.after Sample.acmePadded)) 2)
                (JReceipt Sample.acme) = Return true.
Proof.
  apply (match_ignores_case_and_padding
           "acme" "Acme" "2024-01-01" "10.00"
           "  " " " "" " " " " "" "" "" "" "" "" "" Sample.acme);
    reflexivity.
Defined.

(** Submitting "Acme" after "  acme " was stored reports row 2. *)
Example padded_merchant_is_a_duplicate :
  fst (submit Sample.clk2 (Parsed (JReceipt Sample.acme)) (Sample.after Sample.acmePadded))
  = Duplicate 2 {| ex_merchant := PStr "  acme "; ex_date := PStr "2024-01-01";
                   ex_total := PStr "10.00" |}
              "Duplicate found:   acme  on 2024-01-01 for undefined 10.00".
Proof. vm_compute. reflexivity. Qed.

(* ================================================================== *)
(** ** The ledger writer *)

Lemma findDuplicate_some_length sh R dup :
  findDuplicate sh R = Return (Some dup) -> 1 < length sh.
Proof.
  unfold findDuplicate. destruct (length sh <=? 1) eqn:Hlen; [discriminate|].
  intros _. now apply Nat.leb_gt in Hlen.
Qed.

Lemma withHeader_of_found sh R dup :
  findDuplicate (withHeader sh) R = Return (Some dup) -> withHeader sh = sh.
Proof.
  intros H. apply findDuplicate_some_length in H.
  destruct sh; [cbn in H; lia | reflexivity].
Qed.

(** What a duplicate response says about the ledger the request found. *)
Lemma submit_duplicate_inv clk e s k ex msg :
  fst (submit clk e s) = Duplicate k ex msg ->
  exists data dup,
    e = Parsed data
    /\ findDuplicate (ledger s) data = Return (Some dup)
    /\ k = dup_row dup /\ ex = dup_data dup
    /\ ledger (snd (submit clk e s)) = ledger s.
Proof.
  intros H. pose proof (submit_cases clk e s) as P. rewrite H in P.
  inversion P as [ | data f dup dbg He Hf Ht Hfind Hr Hs | ]; subst.
  cbn [ledger]. clear Hs P H.
  pose proof (withHeader_of_found _ _ _ Hfind) as Hw. rewrite Hw in *.
  exists data, dup. repeat split; try assumption; reflexivity.
Qed.

(** C6. A duplicate response is given only for a data row on which the
    merchant, date and total predicates all evaluate to true. In
    particular, once the receipt with total "10.00" is stored, the same
    receipt is reported as a duplicate of row 2, while the candidate that
    differs only by its total "10.01" is accepted and stored as row 3. *)
Theorem duplicate_requires_all_three clk e s k ex msg :
  fst (submit clk e s) = Duplicate k ex msg ->
  (exists data,
      e = Parsed data
      /\ 2 <= k <= length (ledger s)
      /\ merchantMatch (rowData_of (rowAt (ledger s) k)) data = Return true
      /\ dateMatch (rowData_of (rowAt (ledger s) k)) data = Return true
      /\ totalMatch (rowData_of (rowAt (ledger s) k)) data = Return true)
  /\ (exists ex0 msg0,
         fst (submit Sample.clk2 (Parsed (JReceipt Sample.acme)) (Sample.after Sample.acme))
         = Duplicate 2 ex0 msg0)
  /\ fst (submit Sample.clk2 (Parsed (JReceipt Sample.acme1001)) (Sample.after Sample.acme))
     = Accepted "Receipt saved successfully" 3.
Proof.
  intros H. split; [|split].
  - destruct (submit_duplicate_inv _ _ _ _ _ _ H) as (data & dup & He & Hfind & Hk & _ & _).
    destruct (findDuplicate_found _ _ _ Hfind) as ([Hrange Hhit] & _ & _).
    apply rowMatches_true in Hhit. subst k. exists data. tauto.
  - do 2 eexists. vm_compute. reflexivity.
  - vm_compute. reflexivity.
Qed.

Lemma duplicate_requires_all_three_witness :
  (exists data,
      Parsed (JReceipt Sample.acme) = Parsed data
      /\ 2 <= 2 <= length (ledger (Sample.after Sample.acme))
      /\ merchantMatch (rowData_of (rowAt (ledger (Sample.after Sample.acme)) 2)) data = Return true
      /\ dateMatch (rowData_of (rowAt (ledger (Sample.after Sample.acme)) 2)) data = Return true
      /\ totalMatch (rowData_of (rowAt (ledger (Sample.after Sample.acme)) 2)) data = Return true)
  /\ (exists ex0 msg0,
         fst (submit Sample.clk2 (Parsed (JReceipt Sample.acme)) (Sample.after Sample.acme))
         = Duplicate 2 ex0 msg0)
  /\ fst (submit Sample.clk2 (Parsed (JReceipt Sample.acme1001)) (Sample.after Sample.acme))
     = Accepted "Receipt saved successfully" 3.
Proof.
  apply (duplicate_requires_all_three
           Sample.clk2 (Parsed (JReceipt Sample.acme)) (Sample.after Sample.acme) 2
           {| ex_merchant := PStr "Acme"; ex_date := PStr "2024-01-01";
              ex_total := PStr "10.00" |}
           "Duplicate found: Acme on 2024-01-01 for undefined 10.00").
  vm_compute. reflexivity.
Defined.

(** C7. Whenever the response is a duplicate warning, the ledger sheet after
    the request is the ledger sheet before it: no row was appended and no
    row was modified. (The request does log one diagnostic row in the
    separate Debug sheet, see [duplicate_is_logged].) *)
Theorem duplicate_leaves_ledger_untouched clk e s k ex msg :
  fst (submit clk e s) = Duplicate k ex msg ->
  ledger (snd (submit clk e s)) = ledger s.
Proof.
  intros H.
  destruct (submit_duplicate_inv _ _ _ _ _ _ H) as (data & dup & _ & _ & _ & _ & Hl).
  exact Hl.
Qed.

Lemma duplicate_leaves_ledger_untouched_witness :
  ledger (snd (submit Sample.clk2 (Parsed (JReceipt Sample.acme)) (Sample.after Sample.acme)))
  = ledger (Sample.after Sample.acme).
Proof.
  apply (duplicate_leaves_ledger_untouched
           Sample.clk2 (Parsed (JReceipt Sample.acme)) (Sample.after Sample.acme) 2
           {| ex_merchant := PStr "Acme"; ex_date := PStr "2024-01-01";
              ex_total := PStr "10.00" |}
           "Duplicate found: Acme on 2024-01-01 for undefined 10.00").
  vm_compute. reflexivity.
Defined.

(** The Debug sheet, which is not part of the ledger, gains a row on a
    duplicate response. *)
Example duplicate_is_logged :
  let s := Sample.after Sample.acme in
  let s' := snd (submit Sample.clk2 (Parsed (JReceipt Sample.acme)) s) in
  length (debugRows s) = 2 /\ length (debugRows s') = 3
  /\ nth 1 (nth 2 (debugRows s') []) PNull = PStr "DUPLICATE FOUND".
Proof. vm_compute. repeat split; reflexivity. Qed.

(** *** Requests that go through *)

Lemma try_path_thrown_inv clk data s err s' :
  try_path clk (Parsed data) s (Throw err) s' ->
  prop data force = Throw err
  \/ (exists f, prop data force = Return f /\ truthy f = false
                /\ findDuplicate (withHeader (ledger s)) data = Throw err)
  \/ (exists f, prop data force = Return f
                /\ (truthy f = true
                    \/ findDuplicate (withHeader (ledger s)) data = Return None)
                /\ formatItems data = Throw err).
Proof.
  intros P. inversion P as [err0 He | data0 err0 dbg He Hwhy | | ]; subst.
  - discriminate He.
  - injection He as <-. exact Hwhy.
Qed.

Lemma submit_saved_fwd clk data s f txt :
  prop data force = Return f ->
  (truthy f = true \/ findDuplicate (withHeader (ledger s)) data = Return None) ->
  formatItems data = Return txt ->
  exists values dbg,
    buildRow (rowTime clk) data txt = Return values
    /\ submit clk (Parsed data) s
       = (Accepted "Receipt saved successfully" (length (withHeader (ledger s)) + 1),
          {| ledger := (withHeader (ledger s) ++ [values])%list; debugSheet := dbg |}).
Proof.
  intros Hf Hwhy Hfmt. pose proof (submit_cases clk (Parsed data) s) as P.
  destruct (submit clk (Parsed data) s) as [r s'] eqn:E. cbn [fst snd] in P.
  inversion P as [err s0 Hthrown _ | data0 f0 dup dbg He Hf0 Ht0 Hfind
                 | data0 f0 txt0 values dbg He Hf0 Hwhy0 Hfmt0 Hrow]; subst.
  - apply try_path_thrown_inv in Hthrown.
    destruct Hthrown as [H | [(f1 & Hf1 & Ht1 & H) | (f1 & Hf1 & _ & H)]];
      try congruence.
    rewrite Hf in Hf1. injection Hf1 as <-.
    destruct Hwhy; congruence.
  - injection He as <-. rewrite Hf in Hf0. injection Hf0 as <-.
    destruct Hwhy; congruence.
  - injection He as <-. rewrite Hfmt in Hfmt0. injection Hfmt0 as <-.
    exists values, dbg. split; [assumption | reflexivity].
Qed.

Lemma submit_duplicate_fwd clk data s f dup :
  prop data force = Return f -> truthy f = false ->
  findDuplicate (withHeader (ledger s)) data = Return (Some dup) ->
  exists dbg,
    submit clk (Parsed data) s
    = (Duplicate (dup_row dup) (dup_data dup) (duplicateMessage (dup_data dup)),
       {| ledger := withHeader (ledger s); debugSheet := dbg |}).
Proof.
  intros Hf Ht Hfind. pose proof (submit_cases clk (Parsed data) s) as P.
  destruct (submit clk (Parsed data) s) as [r s'] eqn:E. cbn [fst snd] in P.
  inversion P as [err s0 Hthrown _ | data0 f0 dup0 dbg He Hf0 Ht0 Hfind0
                 | data0 f0 txt0 values dbg He Hf0 Hwhy0 Hfmt0 Hrow]; subst.
  - apply try_path_thrown_inv in Hthrown.
    destruct Hthrown as [H | [(f1 & Hf1 & Ht1 & H) | (f1 & Hf1 & Hwhy & H)]];
      try congruence.
    rewrite Hf in Hf1. injection Hf1 as <-.
    destruct Hwhy; congruence.
  - injection He as <-. rewrite Hfind in Hfind0. injection Hfind0 as <-.
    exists dbg. reflexivity.
  - injection He as <-. rewrite Hf in Hf0. injection Hf0 as <-.
    destruct Hwhy0; congruence.
Qed.

Lemma mapItems_objects cur l :
  forallb isItemObj l = true -> exists texts, mapItems cur l = Return texts.
Proof.
  induction l as [|it rest IH]; cbn; intros H.
  - eexists; reflexivity.
  - apply andb_prop in H. destruct H as [Hit Hrest].
    destruct it as [p|o]; [discriminate Hit|]. cbn.
    destruct (IH Hrest) as [texts ->]. cbn. eexists; reflexivity.
Qed.

(** Formatting the items of a receipt record does not throw. *)
Lemma formatItems_record rc :
  isItemSeq (items rc) = true -> exists txt, formatItems (JReceipt rc) = Return txt.
Proof.
  unfold formatItems. cbn [prop_items prop rbind].
  destruct (items rc) as [p|l]; cbn [isItemSeq items_truthy items_length].
  - destruct p; intros H; try discriminate H. cbn. eexists; reflexivity.
  - intros H. cbn [andb]. destruct (gt_zero (PNum (Z.of_nat (length l)))).
    + destruct (mapItems_objects (currency rc) l H) as [texts ->]. cbn.
      eexists; reflexivity.
    + eexists; reflexivity.
Qed.

Lemma isReceiptRecord_fields rc :
  isReceiptRecord rc = true ->
  isText (merchantName rc) = true /\ isText (date rc) = true
  /\ isText (total rc) = true /\ isItemSeq (items rc) = true.
Proof.
  unfold isReceiptRecord. intros H.
  repeat (apply andb_prop in H; destruct H as [H ?]). auto.
Qed.

Lemma buildRow_receipt now rc txt :
  buildRow now (JReceipt rc) txt =
  Return [date rc <||> PStr ""; time rc <||> PStr ""; merchantName rc <||> PStr "Unknown";
          total rc <||> PStr "0.00"; currency rc <||> PStr "USD"; tax rc <||> PStr "0.00";
          (if items_truthy (items rc) then items_length (items rc) else PNum 0);
          PStr txt; PStr now; date rc <||> PStr ""; total rc <||> PStr ""].
Proof. reflexivity. Qed.

Lemma or_else_idem v w : (v <||> w) <||> (v <||> w) = v <||> w.
Proof. unfold or_else. destruct (truthy v) eqn:Hv; [rewrite Hv|]; destruct (truthy w); reflexivity. Qed.

Lemma or_else_absorb v w : (v <||> w) <||> w = v <||> w.
Proof. unfold or_else. destruct (truthy v) eqn:Hv; [rewrite Hv|]; destruct (truthy w); reflexivity. Qed.

Lemma or_else_truthy v w : truthy v = true -> v <||> w = v.
Proof. unfold or_else. now intros ->. Qed.

(** A receipt with a merchant name and a total matches the row that was
    written for it. *)
Lemma rowMatches_own_row now rc txt values :
  buildRow now (JReceipt rc) txt = Return values ->
  isText (merchantName rc) = true ->
  truthy (merchantName rc) = true -> truthy (total rc) = true ->
  rowMatches values (JReceipt rc) = Return true.
Proof.
  rewrite buildRow_receipt. intros H Hm Htm Htt. injection H as <-.
  unfold rowMatches, merchantMatch, dateMatch, totalMatch, rowData_of, cell.
  cbn [nth rd_merchant rd_rawDate rd_rawTotal prop rbind].
  rewrite or_else_idem, or_else_absorb.
  rewrite !(or_else_truthy (merchantName rc)) by assumption.
  rewrite !(or_else_truthy (total rc)) by assumption.
  destruct (merchantName rc) as [| | | |m]; try discriminate Hm; try discriminate Htm.
  cbn [call_toLowerCase rbind]. unfold strictEqStr. rewrite String.eqb_refl.
  destruct (call_toString_or_else (date rc)) as [x ->].
  destruct (call_toString_or_else (total rc)) as [y Hy].
  rewrite (or_else_truthy (total rc)) in Hy by assumption. rewrite Hy.
  cbn [rbind]. rewrite !String.eqb_refl. reflexivity.
Qed.

Lemma findDuplicate_first sh R i :
  2 <= i <= length sh ->
  rowMatches (rowAt sh i) R = Return true ->
  (forall j, 2 <= j < i -> rowMatches (rowAt sh j) R = Return false) ->
  findDuplicate sh R
  = Return (Some {| dup_row := i; dup_data := existing_of (rowAt sh i) |}).
Proof.
  intros Hi Hhit Hbefore. unfold findDuplicate.
  destruct (length sh <=? 1) eqn:Hlen; [apply Nat.leb_le in Hlen; lia|].
  rewrite (scanRows_first (skipn 1 sh) 0 R (i - 2)).
  - rewrite nth_skipn_1. replace (i - 2 + 2) with i by lia.
    replace (0 + (i - 2) + 2) with i by lia. reflexivity.
  - rewrite length_skipn_1. lia.
  - rewrite nth_skipn_1. replace (i - 2 + 2) with i by lia. exact Hhit.
  - intros j Hj. rewrite nth_skipn_1. apply Hbefore. lia.
Qed.

Lemma rowAt_app_old (sh : sheet) (r : row) j :
  1 <= j <= length sh -> rowAt (sh ++ [r])%list j = rowAt sh j.
Proof. intros Hj. unfold rowAt. apply app_nth1. lia. Qed.

Lemma rowAt_app_new (sh : sheet) (r : row) :
  rowAt (sh ++ [r])%list (length sh + 1) = r.
Proof.
  unfold rowAt. replace (length sh + 1 - 1) with (length sh) by lia.
  rewrite app_nth2 by lia. now rewrite Nat.sub_diag.
Qed.

(** Where both the merchant name and the total are supplied, a receipt
    submitted twice in a row is accepted and then reported as a duplicate
    of the row the first request wrote. *)
Lemma resubmission_detected clkA clkB rc s :
  isReceiptRecord rc = true ->
  truthy (force rc) = false ->
  truthy (merchantName rc) = true -> truthy (total rc) = true ->
  findDuplicate (withHeader (ledger s)) (JReceipt rc) = Return None ->
  let n := length (withHeader (ledger s)) + 1 in
  fst (submit clkA (Parsed (JReceipt rc)) s) = Accepted "Receipt saved successfully" n
  /\ exists ex msg,
      fst (submit clkB (Parsed (JReceipt rc)) (snd (submit clkA (Parsed (JReceipt rc)) s)))
      = Duplicate n ex msg.
Proof.
  intros Hrec Hforce Hm Ht Hnone n.
  destruct (isReceiptRecord_fields _ Hrec) as (Hmt & _ & _ & Hitems).
  destruct (formatItems_record rc Hitems) as [txt Hfmt].
  destruct (submit_saved_fwd clkA (JReceipt rc) s (force rc) txt eq_refl
              (or_intror Hnone) Hfmt) as (values & dbg & Hrow & Hsub).
  rewrite Hsub. cbn [fst snd]. split; [reflexivity|].
  set (sh := withHeader (ledger s)) in *.
  assert (Hlen : 1 <= length sh) by apply withHeader_length.
  assert (Hfind : findDuplicate (withHeader (sh ++ [values])%list) (JReceipt rc)
                  = Return (Some {| dup_row := n; dup_data := existing_of values |})).
  { rewrite withHeader_nonempty by (destruct sh; discriminate).
    rewrite (findDuplicate_first (sh ++ [values])%list (JReceipt rc) n).
    - unfold n. now rewrite rowAt_app_new.
    - rewrite length_app. cbn. unfold n. lia.
    - unfold n. rewrite rowAt_app_new.
      now apply (rowMatches_own_row (rowTime clkA) rc txt).
    - intros j Hj. unfold n in Hj. rewrite rowAt_app_old by lia.
      apply (findDuplicate_none _ _ Hnone). lia. }
  destruct (submit_duplicate_fwd clkB (JReceipt rc)
              {| ledger := (sh ++ [values])%list; debugSheet := dbg |}
              (force rc) _ eq_refl Hforce Hfind) as [dbg' Hsub'].
  rewrite Hsub'. cbn [fst dup_row]. eauto.
Qed.

(** C1. The sequence "accepted, then duplicate" fails for a receipt whose
    total is absent and for a receipt whose merchant name is absent: from
    an empty ledger both requests are accepted, as rows 2 and 3. *)
Theorem resubmission_with_absent_field_is_accepted_twice :
  (fst (submit Sample.clk1 (Parsed (JReceipt Sample.acmeNoTotal)) emptySpreadsheet)
   = Accepted "Receipt saved successfully" 2
   /\ fst (submit Sample.clk2 (Parsed (JReceipt Sample.acmeNoTotal))
                  (Sample.after Sample.acmeNoTotal))
      = Accepted "Receipt saved successfully" 3)
  /\ (fst (submit Sample.clk1 (Parsed (JReceipt Sample.noMerchant)) emptySpreadsheet)
      = Accepted "Receipt saved successfully" 2
      /\ fst (submit Sample.clk2 (Parsed (JReceipt Sample.noMerchant))
                     (Sample.after Sample.noMerchant))
         = Accepted "Receipt saved successfully" 3).
Proof. vm_compute. repeat split; reflexivity. Qed.



(** C9. For every receipt record with [force] set, on any spreadsheet, two
    submissions in a row are both accepted; each appends one row, and the
    row number returned by the second is the one after the row number
    returned by the first. *)
Theorem forced_twice_appends_two_rows clkA clkB rc s :
  isReceiptRecord rc = true ->
  force rc = PBool true ->
  let e := Parsed (JReceipt rc) in
  let s1 := snd (submit clkA e s) in
  let s2 := snd (submit clkB e s1) in
  exists n1 n2 row1 row2,
    fst (submit clkA e s) = Accepted "Receipt saved successfully" n1
    /\ fst (submit clkB e s1) = Accepted "Receipt saved successfully" n2
    /\ n1 < n2
    /\ ledger s1 = (withHeader (ledger s) ++ [row1])%list
    /\ ledger s2 = (withHeader (ledger s) ++ [row1; row2])%list
    /\ rowAt (ledger s2) n1 = row1 /\ rowAt (ledger s2) n2 = row2.
Proof.
  intros Hrec Hforce e s1 s2.
  destruct (isReceiptRecord_fields _ Hrec) as (_ & _ & _ & Hitems).
  destruct (formatItems_record rc Hitems) as [txt Hfmt].
  assert (Hwhy : truthy (force rc) = true) by now rewrite Hforce.
  destruct (submit_saved_fwd clkA (JReceipt rc) s (force rc) txt eq_refl
              (or_introl Hwhy) Hfmt) as (row1 & dbg1 & _ & Hsub1).
  subst s2 s1 e. rewrite Hsub1. cbn [fst snd].
  destruct (submit_saved_fwd clkB (JReceipt rc)
              {| ledger := (withHeader (ledger s) ++ [row1])%list; debugSheet := dbg1 |}
              (force rc) txt eq_refl (or_introl Hwhy) Hfmt)
    as (row2 & dbg2 & _ & Hsub2).
  rewrite Hsub2. cbn [fst snd ledger].
  set (sh := withHeader (ledger s)).
  assert (Hsh : withHeader (sh ++ [row1])%list = (sh ++ [row1])%list).
  { apply withHeader_nonempty. destruct sh; discriminate. }
  rewrite Hsh.
  exists (length sh + 1), (length (sh ++ [row1])%list + 1), row1, row2.
  rewrite length_app. cbn [length].
  split; [reflexivity|]. split; [reflexivity|]. split; [lia|].
  split; [reflexivity|]. split; [now rewrite <- app_assoc|]. split.
  - rewrite rowAt_app_old by (rewrite length_app; cbn; lia).
    apply rowAt_app_new.
  - replace (length sh + 1) with (length (sh ++ [row1])%list)
      by (rewrite length_app; reflexivity).
    apply rowAt_app_new.
Qed.

Lemma forced_twice_appends_two_rows_witness :
  let e := Parsed (JReceipt (Sample.forced Sample.acme)) in
  let s1 := snd (submit Sample.clk1 e emptySpreadsheet) in
  let s2 := snd (submit Sample.clk2 e s1) in
  exists n1 n2 row1 row2,
    fst (submit Sample.clk1 e emptySpreadsheet) = Accepted "Receipt saved successfully" n1
    /\ fst (submit Sample.clk2 e s1) = Accepted "Receipt saved successfully" n2
    /\ n1 < n2
    /\ ledger s1 = (withHeader (ledger emptySpreadsheet) ++ [row1])%list
    /\ ledger s2 = (withHeader (ledger emptySpreadsheet) ++ [row1; row2])%list
    /\ rowAt (ledger s2) n1 = row1 /\ rowAt (ledger s2) n2 = row2.
Proof.
  apply (forced_twice_appends_two_rows
           Sample.clk1 Sample.clk2 (Sample.forced Sample.acme) emptySpreadsheet);
    reflexivity.
Defined.

(* ================================================================== *)
(** ** Failures *)

(** The claim that a failure response leaves the store unchanged does not
    hold: the JSON text [null] sent to an empty spreadsheet is answered by
    a failure, after the header row was written. *)
Lemma failure_after_header_was_written :
  ~ (forall clk e s msg,
        fst (submit clk e s) = Failure msg ->
        ledger (snd (submit clk e s)) = ledger s).
Proof.
  intros H.
  specialize (H Sample.clk1 (Parsed (JPrim PNull)) emptySpreadsheet
                "TypeError: Cannot read properties of null" eq_refl).
  vm_compute in H. discriminate H.
Qed.

(** As long as no call of the spreadsheet service fails: whenever the
    response is a failure, the [try] block threw an exception, [doPost]
    caught it, and the error text of the response is that exception
    converted to a string. No receipt row was appended and no existing row
    was modified: the ledger is as before, except that a request which
    found the sheet empty may have left the header row in it. A payload
    that does not parse leaves the whole spreadsheet as it was. *)
Theorem failure_is_caught_and_writes_no_receipt clk e s msg :
  fst (submit clk e s) = Failure msg ->
  (exists err,
      fst (doPost_try clk e s) = Throw err
      /\ msg = exn_toString err
      /\ fst (doPost clk e s) = Return (Failure (exn_toString err)))
  /\ (ledger (snd (submit clk e s)) = ledger s
      \/ (ledger s = [] /\ ledger (snd (submit clk e s)) = [HEADER]))
  /\ (forall err, e = ParseThrows err -> snd (submit clk e s) = s).
Proof.
  intros H. pose proof (submit_cases clk e s) as P. rewrite H in P.
  inversion P as [err s' Hthrown Htry Hmsg Hs | | ]; subst.
  split; [|split].
  - exists err. rewrite Htry. cbn [fst]. repeat split.
    unfold doPost, try_catch. rewrite Htry. reflexivity.
  - eapply try_path_thrown_ledger; eassumption.
  - intros err0 ->. reflexivity.
Qed.

Lemma failure_is_caught_and_writes_no_receipt_witness :
  (exists err,
      fst (doPost_try Sample.clk1 (Parsed (JPrim PNull)) emptySpreadsheet) = Throw err
      /\ "TypeError: Cannot read properties of null" = exn_toString err
      /\ fst (doPost Sample.clk1 (Parsed (JPrim PNull)) emptySpreadsheet)
         = Return (Failure (exn_toString err)))
  /\ (ledger (snd (submit Sample.clk1 (Parsed (JPrim PNull)) emptySpreadsheet))
      = ledger emptySpreadsheet
      \/ (ledger emptySpreadsheet = []
          /\ ledger (snd (submit Sample.clk1 (Parsed (JPrim PNull)) emptySpreadsheet))
             = [HEADER]))
  /\ (forall err, Parsed (JPrim PNull) = ParseThrows err ->
                  snd (submit Sample.clk1 (Parsed (JPrim PNull)) emptySpreadsheet)
                  = emptySpreadsheet).
Proof.
  apply (failure_is_caught_and_writes_no_receipt
           Sample.clk1 (Parsed (JPrim PNull)) emptySpreadsheet
           "TypeError: Cannot read properties of null").
  reflexivity.
Defined.

(** Failures of a well-shaped request body on a ledger that already has
    rows: a merchant name that is a number has no [toLowerCase]. *)
Example failure_on_numeric_merchant :
  let r := Sample.receiptOf (PNum 7) (PStr "2024-01-01") (PStr "10.00") in
  submit Sample.clk2 (Parsed (JReceipt r)) (Sample.after Sample.acme)
  = (Failure "TypeError: (...).toLowerCase is not a function", Sample.after Sample.acme).
Proof. vm_compute. reflexivity. Qed.

(* ================================================================== *)
(** ** The migration *)

Lemma cell_setCell_same j : forall r v, cell (setCell r j v) j = v.
Proof.
  unfold cell. induction j as [|j IH]; intros [|c r] v; cbn; auto.
Qed.

Lemma cell_nil k : cell [] k = PStr "".
Proof. unfold cell. destruct k; reflexivity. Qed.

Lemma cell_setCell_other j : forall r v k, j <> k -> cell (setCell r j v) k = cell r k.
Proof.
  induction j as [|j IH]; intros [|c r] v [|k] Hjk; try congruence;
    try reflexivity.
  - unfold cell. cbn. destruct k; reflexivity.
  - change (cell (setCell [] j v) k = cell [] (S k)).
    rewrite IH by congruence. now rewrite !cell_nil.
  - change (cell (setCell r j v) k = cell r k). apply IH. congruence.
Qed.

Lemma setValue_app (pre : sheet) r rest c v :
  setValue (length pre + 1) c v (pre ++ r :: rest)%list
  = (pre ++ setCell r (c - 1) v :: rest)%list.
Proof.
  induction pre as [|p pre IH]; [reflexivity|].
  cbn [length app]. rewrite <- IH.
  replace (S (length pre) + 1) with (S (length pre + 1)) by lia.
  replace (length pre + 1) with (S (length pre)) by lia. reflexivity.
Qed.

(** The loop rewrites each data row in place. *)
Lemma migrateLoop_app data : forall (pre : sheet) i,
  length pre = i + 1 ->
  migrateLoop data i (pre ++ data)%list = (pre ++ map migrateRow data)%list.
Proof.
  induction data as [|r rest IH]; intros pre i Hlen; [reflexivity|].
  cbn [migrateLoop map].
  replace (i + 2) with (length pre + 1) by lia.
  assert (Hstep :
    (if truthy (cell r 3)
     then setValue (length pre + 1) 11 (PStr (ToString (cell r 3)))
            (if truthy (cell r 0)
             then setValue (length pre + 1) 10 (PStr (ToString (cell r 0))) (pre ++ r :: rest)%list
             else (pre ++ r :: rest)%list)
     else (if truthy (cell r 0)
           then setValue (length pre + 1) 10 (PStr (ToString (cell r 0))) (pre ++ r :: rest)%list
           else (pre ++ r :: rest)%list))
    = ((pre ++ [migrateRow r]) ++ rest)%list).
  { unfold migrateRow. rewrite <- app_assoc. cbn [app].
    destruct (truthy (cell r 0)), (truthy (cell r 3));
      rewrite ?setValue_app; reflexivity. }
  rewrite Hstep, IH by (rewrite length_app; cbn; lia).
  now rewrite <- app_assoc.
Qed.

Lemma migrateOldRows_ledger s :
  ledger (migrateOldRows s)
  = (firstn 1 (ledger s) ++ map migrateRow (skipn 1 (ledger s)))%list.
Proof.
  unfold migrateOldRows. destruct (ledger s) as [|h [|r rest]] eqn:E; cbn [length Nat.leb].
  - now rewrite E.
  - now rewrite E.
  - cbn [ledger skipn firstn]. apply (migrateLoop_app (r :: rest) [h] 0). reflexivity.
Qed.

(** The migration leaves the header and the number of rows as they are and
    replaces each data row [r] by [migrateRow r]. *)
Lemma migrateOldRows_rows s i :
  2 <= i <= length (ledger s) ->
  rowAt (ledger (migrateOldRows s)) i = migrateRow (rowAt (ledger s) i).
Proof.
  intros Hi. rewrite migrateOldRows_ledger. unfold rowAt.
  destruct (ledger s) as [|h rest]; cbn in Hi; [lia|].
  cbn [firstn skipn app]. replace (i - 1) with (S (i - 2)) by lia. cbn [nth].
  change (@nil prim) with (migrateRow []) at 1. apply map_nth.
Qed.

Lemma migrateRow_cell r k :
  k <> 9 -> k <> 10 -> cell (migrateRow r) k = cell r k.
Proof.
  intros H9 H10. unfold migrateRow.
  destruct (truthy (cell r 0)), (truthy (cell r 3));
    rewrite ?cell_setCell_other by congruence; reflexivity.
Qed.

(** The raw columns after the migration: the text of the Date and Total
    columns where these are not empty, the previous content otherwise. *)
Lemma migrateRow_raw r :
  cell (migrateRow r) 9
  = (if truthy (cell r 0) then PStr (ToString (cell r 0)) else cell r 9)
  /\ cell (migrateRow r) 10
     = (if truthy (cell r 3) then PStr (ToString (cell r 3)) else cell r 10).
Proof.
  unfold migrateRow.
  destruct (truthy (cell r 0)), (truthy (cell r 3));
    rewrite ?cell_setCell_same, ?cell_setCell_other by congruence;
    rewrite ?cell_setCell_same; split; reflexivity.
Qed.

(** The claim about the migration does not hold: for the receipt stored
    without a total, Raw Total holds the empty input text after [submit]
    and "0.00" after the migration. *)
Lemma migration_replaces_empty_raw_total :
  let s := Sample.after Sample.acmeNoTotal in
  cell (rowAt (ledger s) 2) 10 = inputText (total Sample.acmeNoTotal)
  /\ cell (rowAt (ledger (migrateOldRows s)) 2) 10 = PStr "0.00"
  /\ cell (rowAt (ledger (migrateOldRows s)) 2) 10 <> inputText (total Sample.acmeNoTotal).
Proof. vm_compute. repeat split; discriminate. Qed.

Lemma submit_accepted_inv clk e s msg n :
  fst (submit clk e s) = Accepted msg n ->
  exists data txt values,
    e = Parsed data
    /\ buildRow (rowTime clk) data txt = Return values
    /\ n = length (withHeader (ledger s)) + 1
    /\ ledger (snd (submit clk e s)) = (withHeader (ledger s) ++ [values])%list.
Proof.
  intros H. pose proof (submit_cases clk e s) as P. rewrite H in P.
  inversion P as [ | | data f txt values dbg He Hf Hwhy Hfmt Hrow Hr Hs]; subst.
  exists data, txt, values. repeat split; assumption || reflexivity.
Qed.

(** C3, amended. The row written for an accepted receipt holds in Raw Date
    and Raw Total exactly the text of the candidate's date and total, the
    empty string when absent. The migration replaces a row's Raw Date and
    Raw Total by the text of its Date and Total columns wherever those are
    not empty; on the row just written this keeps Raw Date equal to the
    input date and keeps Raw Total equal to the input total when a total
    was given, while an absent or empty total leaves "0.00" in Raw Total. *)
Theorem raw_columns_of_written_row clk rc s msg n :
  isText (date rc) = true -> isText (total rc) = true ->
  fst (submit clk (Parsed (JReceipt rc)) s) = Accepted msg n ->
  let s' := snd (submit clk (Parsed (JReceipt rc)) s) in
  (cell (rowAt (ledger s') n) 9 = inputText (date rc)
   /\ cell (rowAt (ledger s') n) 10 = inputText (total rc))
  /\ (forall i, 2 <= i <= length (ledger s') ->
        let r := rowAt (ledger s') i in
        let r' := rowAt (ledger (migrateOldRows s')) i in
        cell r' 9 = (if truthy (cell r 0) then PStr (ToString (cell r 0)) else cell r 9)
        /\ cell r' 10 = (if truthy (cell r 3) then PStr (ToString (cell r 3)) else cell r 10))
  /\ (cell (rowAt (ledger (migrateOldRows s')) n) 9 = inputText (date rc)
      /\ cell (rowAt (ledger (migrateOldRows s')) n) 10
         = (if isBlank (total rc) then PStr "0.00" else inputText (total rc))).
Proof.
  intros Hd Ht H s'.
  destruct (submit_accepted_inv _ _ _ _ _ H) as (data & txt & values & He & Hrow & Hn & Hl).
  injection He as <-. fold s' in Hl.
  assert (Hlen : 1 <= length (withHeader (ledger s))) by apply withHeader_length.
  assert (Hrn : rowAt (ledger s') n = values).
  { rewrite Hl, Hn. apply rowAt_app_new. }
  assert (Hin : 2 <= n <= length (ledger s')).
  { rewrite Hl, length_app. cbn. lia. }
  rewrite buildRow_receipt in Hrow. injection Hrow as Hvalues.
  assert (H9 : cell values 9 = inputText (date rc)).
  { rewrite <- Hvalues. unfold cell. cbn [nth]. now apply or_else_text. }
  assert (H10 : cell values 10 = inputText (total rc)).
  { rewrite <- Hvalues. unfold cell. cbn [nth]. now apply or_else_text. }
  split; [|split].
  - rewrite Hrn. now split.
  - intros i Hi r r'. subst r r'. rewrite (migrateOldRows_rows s' i Hi).
    apply migrateRow_raw.
  - rewrite (migrateOldRows_rows s' n Hin), Hrn.
    destruct (migrateRow_raw values) as [-> ->]. rewrite H9, H10.
    rewrite <- Hvalues. unfold cell. cbn [nth].
    clear - Hd Ht.
    destruct (date rc) as [| | | |d]; try discriminate Hd;
      destruct (total rc) as [| | | |t]; try discriminate Ht;
      unfold or_else; cbn;
      try (destruct (d =? "")%string eqn:Ed; [apply String.eqb_eq in Ed; subst d|]);
      try (destruct (t =? "")%string eqn:Et; [apply String.eqb_eq in Et; subst t|]);
      cbn; rewrite ?Ed, ?Et; cbn; split; reflexivity.
Qed.

Lemma raw_columns_of_written_row_witness :
  let s' := snd (submit Sample.clk1 (Parsed (JReceipt Sample.acmeNoTotal)) emptySpreadsheet) in
  (cell (rowAt (ledger s') 2) 9 = inputText (date Sample.acmeNoTotal)
   /\ cell (rowAt (ledger s') 2) 10 = inputText (total Sample.acmeNoTotal))
  /\ (forall i, 2 <= i <= length (ledger s') ->
        let r := rowAt (ledger s') i in
        let r' := rowAt (ledger (migrateOldRows s')) i in
        cell r' 9 = (if truthy (cell r 0) then PStr (ToString (cell r 0)) else cell r 9)
        /\ cell r' 10 = (if truthy (cell r 3) then PStr (ToString (cell r 3)) else cell r 10))
  /\ (cell (rowAt (ledger (migrateOldRows s')) 2) 9 = inputText (date Sample.acmeNoTotal)
      /\ cell (rowAt (ledger (migrateOldRows s')) 2) 10
         = (if isBlank (total Sample.acmeNoTotal) then PStr "0.00"
            else inputText (total Sample.acmeNoTotal))).
Proof.
  apply (raw_columns_of_written_row
           Sample.clk1 Sample.acmeNoTotal emptySpreadsheet
           "Receipt saved successfully" 2);
    reflexivity.
Defined.

(* ================================================================== *)
(** ** The header row *)

(** A row written for a receipt is never the header row: its Item Count
    cell holds a number, or nothing. *)
Lemma buildRow_item_count now data txt values :
  buildRow now data txt = Return values -> isStr (cell values 6) = false.
Proof.
  destruct data as [[| |b|n|x]|rc]; cbn; intros H; try discriminate H;
    injection H as <-; try reflexivity.
  unfold cell. cbn [nth].
  destruct (items rc) as [[| |b|n|x]|l]; cbn; try reflexivity.
  - now destruct b.
  - now destruct (n =? 0)%Z.
  - now destruct (x =? "")%string.
Qed.

Lemma header_item_count r : isStr (cell r 6) = false -> r <> HEADER.
Proof. intros H ->. discriminate H. Qed.

(** The rows a request adds to the ledger. *)
Lemma submit_ledger clk e s :
  ledger (snd (submit clk e s)) = ledger s
  \/ ledger (snd (submit clk e s)) = withHeader (ledger s)
  \/ exists values,
       isStr (cell values 6) = false
       /\ ledger (snd (submit clk e s)) = (withHeader (ledger s) ++ [values])%list.
Proof.
  pose proof (submit_cases clk e s) as P.
  destruct (submit clk e s) as [r s'] eqn:E. cbn [fst snd] in *.
  inversion P as [err s0 Hthrown _ | data f dup dbg He Hf Ht Hfind
                 | data f txt values dbg He Hf Hwhy Hfmt Hrow]; subst.
  - destruct (try_path_thrown_ledger _ _ _ _ _ Hthrown) as [H | [H0 H1]].
    + now left.
    + right; left. rewrite H1, H0. reflexivity.
  - right; left. reflexivity.
  - right; right. exists values. split; [|reflexivity].
    eapply buildRow_item_count; eassumption.
Qed.

(** The invariant behind "exactly once, as row 1": the sheet is empty, or
    it starts with the header row and no later row has the header's text
    in the Item Count column. *)
Lemma reachable_ledger_shape s :
  reachable s ->
  ledger s = []
  \/ exists rest, ledger s = HEADER :: rest
                  /\ Forall (fun r => isStr (cell r 6) = false) rest.
Proof.
  induction 1 as [ | clk e s Hs IH | s Hs IH].
  - now left.
  - destruct (submit_ledger clk e s) as [H | [H | (values & Hv & H)]]; rewrite H.
    + exact IH.
    + destruct IH as [-> | (rest & -> & Hrest)].
      * right. exists []. split; [reflexivity | constructor].
      * right. exists rest. split; [reflexivity | assumption].
    + right. destruct IH as [-> | (rest & -> & Hrest)].
      * exists [values]. split; [reflexivity | repeat constructor; assumption].
      * exists (rest ++ [values])%list. split; [reflexivity|].
        apply Forall_app. split; [assumption | repeat constructor; assumption].
  - rewrite migrateOldRows_ledger.
    destruct IH as [-> | (rest & -> & Hrest)]; [now left|].
    right. exists (map migrateRow rest). split; [reflexivity|].
    apply Forall_map. eapply Forall_impl; [|exact Hrest].
    intros r Hr. cbn beta. now rewrite migrateRow_cell by lia.
Qed.

Lemma not_in_header (rest : list row) :
  Forall (fun r => isStr (cell r 6) = false) rest -> ~ In HEADER rest.
Proof.
  intros H Hin. rewrite Forall_forall in H. specialize (H _ Hin). discriminate H.
Qed.

(** C8. In every spreadsheet reachable from the empty one by requests and
    migrations, the ledger is either still empty or has the header row
    exactly once, as row 1. A request that finds rows in the ledger only
    appends rows that are not the header row; a request that finds the
    ledger empty leaves it empty or makes the header row its first row,
    followed by rows that are not the header row. *)
Theorem header_row_exactly_once s :
  reachable s ->
  (ledger s = [] \/ headerOnceAtTop (ledger s))
  /\ forall clk e,
       let s' := snd (submit clk e s) in
       exists added,
         ~ In HEADER added
         /\ ((ledger s <> [] /\ ledger s' = (ledger s ++ added)%list)
             \/ (ledger s = []
                 /\ (ledger s' = [] \/ ledger s' = HEADER :: added))).
Proof.
  intros Hs. split.
  - destruct (reachable_ledger_shape s Hs) as [H | (rest & H & Hrest)]; [now left|].
    right. exists rest. split; [assumption | now apply not_in_header].
  - intros clk e s'. subst s'.
    destruct (submit_ledger clk e s) as [H | [H | (values & Hv & H)]]; rewrite H;
      destruct (ledger s) as [|h l] eqn:El.
    + exists []. split; [intros []|]. right. split; [reflexivity | now left].
    + exists []. split; [intros []|]. left. split; [discriminate | now rewrite app_nil_r].
    + exists []. split; [intros []|]. right. split; [reflexivity | now right].
    + exists []. split; [intros []|]. left. split; [discriminate | now rewrite app_nil_r].
    + exists [values]. split.
      * intros [Hin | []]. now apply (header_item_count values Hv).
      * right. split; [reflexivity | now right].
    + exists [values]. split.
      * intros [Hin | []]. now apply (header_item_count values Hv).
      * left. split; [discriminate | reflexivity].
Qed.

Lemma header_row_exactly_once_witness :
  (ledger (Sample.after Sample.acme) = [] \/ headerOnceAtTop (ledger (Sample.after Sample.acme)))
  /\ forall clk e,
       let s' := snd (submit clk e (Sample.after Sample.acme)) in
       exists added,
         ~ In HEADER added
         /\ ((ledger (Sample.after Sample.acme) <> []
              /\ ledger s' = (ledger (Sample.after Sample.acme) ++ added)%list)
             \/ (ledger (Sample.after Sample.acme) = []
                 /\ (ledger s' = [] \/ ledger s' = HEADER :: added))).
Proof.
  apply (header_row_exactly_once (Sample.after Sample.acme)).
  apply reach_submit. apply reach_empty.
Defined.

(* ================================================================== *)
(** * Further properties of the handler *)

(** ** Answers *)

(** X1. On a ledger with at most one row (empty, or the header alone)
    [findDuplicate] returns [null] without looking at the candidate, and
    no request, whatever its payload, is answered with a duplicate
    warning. *)
Theorem short_ledger_never_reports_duplicate clk e s :
  length (ledger s) <= 1 ->
  (forall R, findDuplicate (ledger s) R = Return None)
  /\ forall k ex msg, fst (submit clk e s) <> Duplicate k ex msg.
Proof.
  intros Hlen. split.
  - intros R. unfold findDuplicate.
    destruct (length (ledger s) <=? 1) eqn:E; [reflexivity|].
    apply Nat.leb_gt in E. lia.
  - intros k ex msg H.
    destruct (submit_duplicate_inv _ _ _ _ _ _ H) as (data & dup & _ & Hfind & _).
    apply findDuplicate_some_length in Hfind. lia.
Qed.

Lemma short_ledger_never_reports_duplicate_witness :
  (forall R, findDuplicate (ledger emptySpreadsheet) R = Return None)
  /\ forall k ex msg,
       fst (submit Sample.clk1 (Parsed (JReceipt Sample.acme)) emptySpreadsheet)
       <> Duplicate k ex msg.
Proof.
  apply (short_ledger_never_reports_duplicate
           Sample.clk1 (Parsed (JReceipt Sample.acme)) emptySpreadsheet).
  cbn. lia.
Defined.

Lemma buildRow_length now data txt values :
  buildRow now data txt = Return values -> length values = 11.
Proof.
  destruct data as [[| |b|n|x]|rc]; cbn; intros H; try discriminate H;
    injection H as <-; reflexivity.
Qed.

Lemma buildRow_timestamp now data txt values :
  buildRow now data txt = Return values -> cell values 8 = PStr now.
Proof.
  destruct data as [[| |b|n|x]|rc]; cbn; intros H; try discriminate H;
    injection H as <-; reflexivity.
Qed.

(** X2. A success response means exactly one row of eleven cells was
    written, directly below the rows that were there (below the new header
    row when the sheet was empty); the row number in the response is the
    number of that row, which is the last one, its Timestamp cell holds
    the clock reading, and the message is the fixed success text. *)
Theorem accepted_appends_one_row clk e s msg n :
  fst (submit clk e s) = Accepted msg n ->
  exists values,
    ledger (snd (submit clk e s)) = (withHeader (ledger s) ++ [values])%list
    /\ length values = 11
    /\ cell values 8 = PStr (rowTime clk)
    /\ n = length (ledger (snd (submit clk e s)))
    /\ rowAt (ledger (snd (submit clk e s))) n = values
    /\ msg = "Receipt saved successfully".
Proof.
  intros H. pose proof (submit_cases clk e s) as P. rewrite H in P.
  inversion P as [ | | data f txt values dbg He Hf Hwhy Hfmt Hrow Hr Hs]; subst.
  exists values. cbn [ledger]. rewrite length_app. cbn [length].
  repeat split.
  - eapply buildRow_length; eassumption.
  - eapply buildRow_timestamp; eassumption.
  - apply rowAt_app_new.
Qed.

Lemma accepted_appends_one_row_witness :
  exists values,
    ledger (snd (submit Sample.clk1 (Parsed (JReceipt Sample.acme)) emptySpreadsheet))
    = (withHeader (ledger emptySpreadsheet) ++ [values])%list
    /\ length values = 11
    /\ cell values 8 = PStr (rowTime Sample.clk1)
    /\ 2 = length (ledger (snd (submit Sample.clk1 (Parsed (JReceipt Sample.acme))
                                       emptySpreadsheet)))
    /\ rowAt (ledger (snd (submit Sample.clk1 (Parsed (JReceipt Sample.acme))
                                  emptySpreadsheet))) 2 = values
    /\ "Receipt saved successfully" = "Receipt saved successfully".
Proof.
  apply (accepted_appends_one_row
           Sample.clk1 (Parsed (JReceipt Sample.acme)) emptySpreadsheet
           "Receipt saved successfully" 2).
  reflexivity.
Defined.

(** X3. A duplicate warning describes the row it names: [existingReceipt]
    holds that row's merchant and its raw date and raw total (the Date and
    Total cells where the raw cells are empty), and the message is built
    from these three values with the word "undefined" where the currency
    was meant to be, because the object returned by [findDuplicate] has no
    [currency] property. *)
Theorem duplicate_describes_reported_row clk e s k ex msg :
  fst (submit clk e s) = Duplicate k ex msg ->
  let r := rowAt (ledger s) k in
  ex_merchant ex = cell r 2
  /\ ex_date ex = cell r 9 <||> cell r 0
  /\ ex_total ex = cell r 10 <||> cell r 3
  /\ msg = ("Duplicate found: " ++ ToString (ex_merchant ex) ++ " on "
            ++ ToString (ex_date ex) ++ " for undefined "
            ++ ToString (ex_total ex))%string.
Proof.
  intros H r. pose proof (submit_cases clk e s) as P. rewrite H in P.
  inversion P as [ | data f dup dbg He Hf Ht Hfind Hk Hs | ]; subst.
  pose proof (withHeader_of_found _ _ _ Hfind) as Hw. rewrite Hw in Hfind.
  destruct (findDuplicate_found _ _ _ Hfind) as (_ & Hdata & _).
  subst r. rewrite Hdata. repeat split.
Qed.

Lemma duplicate_describes_reported_row_witness :
  let ex := {| ex_merchant := PStr "Acme"; ex_date := PStr "2024-01-01";
               ex_total := PStr "10.00" |} in
  let r := rowAt (ledger (Sample.after Sample.acme)) 2 in
  ex_merchant ex = cell r 2
  /\ ex_date ex = cell r 9 <||> cell r 0
  /\ ex_total ex = cell r 10 <||> cell r 3
  /\ "Duplicate found: Acme on 2024-01-01 for undefined 10.00"
     = ("Duplicate found: " ++ ToString (ex_merchant ex) ++ " on "
        ++ ToString (ex_date ex) ++ " for undefined "
        ++ ToString (ex_total ex))%string.
Proof.
  apply (duplicate_describes_reported_row
           Sample.clk2 (Parsed (JReceipt Sample.acme)) (Sample.after Sample.acme) 2
           {| ex_merchant := PStr "Acme"; ex_date := PStr "2024-01-01";
              ex_total := PStr "10.00" |}
           "Duplicate found: Acme on 2024-01-01 for undefined 10.00").
  vm_compute. reflexivity.
Defined.

(** ** The items of a receipt *)

Lemma renderItem_cases cur it :
  (isNullish it = true /\ exists err, renderItem cur it = Throw err)
  \/ (isNullish it = false /\ renderItem cur it = Return (itemTextOf cur it)).
Proof.
  destruct it as [[| |b|n|x]|o]; cbn;
    try (left; split; [reflexivity | eexists; reflexivity]);
    right; split; reflexivity.
Qed.

Lemma mapItems_cases cur l :
  (existsb isNullish l = true /\ exists err, mapItems cur l = Throw err)
  \/ (existsb isNullish l = false
      /\ mapItems cur l = Return (map (itemTextOf cur) l)).
Proof.
  induction l as [|it rest IH]; cbn.
  - right. split; reflexivity.
  - destruct (renderItem_cases cur it) as [[Hn [err ->]] | [Hn ->]]; rewrite Hn; cbn.
    + left. split; [reflexivity | eexists; reflexivity].
    + destruct IH as [[Hr [err ->]] | [Hr ->]]; rewrite Hr; cbn.
      * left. split; [reflexivity | eexists; reflexivity].
      * right. split; reflexivity.
Qed.

(** What the [if]/[else] on [data.items] yields for a record: it throws
    exactly on the values singled out by [badItems], and otherwise gives
    the joined item texts for a non-empty array and "No items" for
    everything else. *)
Lemma formatItems_cases rc :
  (badItems (items rc) = true /\ exists err, formatItems (JReceipt rc) = Throw err)
  \/ (badItems (items rc) = false
      /\ formatItems (JReceipt rc)
         = Return (match items rc with
                   | ItemsArr (it :: rest) =>
                       JsString.join "; " (map (itemTextOf (currency rc)) (it :: rest))
                   | _ => "No items"
                   end)).
Proof.
  unfold formatItems. cbn [prop_items prop rbind].
  destruct (items rc) as [p|l]; cbn [badItems items_truthy items_length].
  - destruct p as [| |b|n|x]; cbn; try (right; split; reflexivity).
    + destruct b; right; split; reflexivity.
    + destruct (n =? 0)%Z; right; split; reflexivity.
    + destruct x as [|c x]; cbn.
      * right; split; reflexivity.
      * left. split; [reflexivity | eexists; reflexivity].
  - destruct l as [|it rest].
    + right. split; reflexivity.
    + assert (Hpos : gt_zero (PNum (Z.of_nat (length (it :: rest)))) = true).
      { cbn [gt_zero length]. apply Z.ltb_lt. lia. }
      rewrite Hpos. cbn [andb].
      destruct (mapItems_cases (currency rc) (it :: rest)) as [[Hb [err ->]] | [Hb ->]];
        rewrite Hb; cbn [rbind].
      * left. split; [reflexivity | eexists; reflexivity].
      * right. split; reflexivity.
Qed.

Lemma submit_accepted_format clk data s msg n :
  fst (submit clk (Parsed data) s) = Accepted msg n ->
  exists txt values,
    formatItems data = Return txt
    /\ buildRow (rowTime clk) data txt = Return values
    /\ rowAt (ledger (snd (submit clk (Parsed data) s))) n = values.
Proof.
  intros H. pose proof (submit_cases clk (Parsed data) s) as P. rewrite H in P.
  inversion P as [ | | data0 f txt values dbg He Hf Hwhy Hfmt Hrow Hres Hs]; subst.
  injection He as <-. exists txt, values. cbn [ledger].
  repeat split; try assumption. apply rowAt_app_new.
Qed.

(** X4. The Item Count and Items cells of the row written for a record.
    A non-empty array gives its length and the texts of its elements, in
    order, joined by "; "; an empty array or an absent [items] gives 0 and
    "No items". Each item text is built with [data.currency] as sent, so
    an absent currency is printed as "undefined" although the Currency
    cell of the same row holds the default "USD". *)
Theorem item_cells_of_written_row clk rc s msg n :
  fst (submit clk (Parsed (JReceipt rc)) s) = Accepted msg n ->
  let r := rowAt (ledger (snd (submit clk (Parsed (JReceipt rc)) s))) n in
  cell r 4 = currency rc <||> PStr "USD"
  /\ match items rc with
     | ItemsArr (it :: rest) =>
         cell r 6 = PNum (Z.of_nat (length (it :: rest)))
         /\ cell r 7 = PStr (JsString.join "; " (map (itemTextOf (currency rc)) (it :: rest)))
     | ItemsArr [] => cell r 6 = PNum 0 /\ cell r 7 = PStr "No items"
     | ItemsPrim p =>
         cell r 6 = (if truthy p then PUndefined else PNum 0)
         /\ cell r 7 = PStr "No items"
     end.
Proof.
  intros H r.
  destruct (submit_accepted_format _ _ _ _ _ H) as (txt & values & Hfmt & Hrow & Hr).
  subst r. rewrite Hr. clear Hr H.
  rewrite buildRow_receipt in Hrow. injection Hrow as <-.
  unfold cell. cbn [nth]. split; [reflexivity|].
  destruct (formatItems_cases rc) as [[_ [err Herr]] | [Hbad Hok]]; [congruence|].
  rewrite Hfmt in Hok. injection Hok as ->.
  destruct (items rc) as [p|[|it rest]]; cbn [items_truthy items_length].
  - split; [|reflexivity].
    destruct p as [| |b|z|x]; cbn in *; try reflexivity.
    rewrite Hbad. reflexivity.
  - split; reflexivity.
  - split; reflexivity.
Qed.

Lemma item_cells_of_written_row_witness :
  let rc := {| force := PUndefined; merchantName := PStr "Cafe";
               date := PStr "2024-01-01"; time := PUndefined; total := PStr "5.50";
               currency := PUndefined; tax := PUndefined;
               items := ItemsArr [ItemObj {| description := PStr "Coffee";
                                             quantity := PNum 1; price := PStr "3.50" |};
                                  ItemObj {| description := PStr "Tea";
                                             quantity := PNum 2; price := PStr "1.00" |}] |} in
  let r := rowAt (ledger (snd (submit Sample.clk1 (Parsed (JReceipt rc)) emptySpreadsheet))) 2 in
  cell r 4 = PStr "USD"
  /\ cell r 6 = PNum 2
  /\ cell r 7 = PStr "Coffee x1 @ undefined 3.50; Tea x2 @ undefined 1.00".
Proof.
  intros rc r.
  apply (item_cells_of_written_row
           Sample.clk1 rc emptySpreadsheet "Receipt saved successfully" 2).
  reflexivity.
Defined.

(** X5. For the payloads of type [receipt], that is an object whose
    [items] is absent, a primitive, or an array of primitives and of
    objects with primitive [description], [quantity] and [price], and
    whose other fields are primitives: with [force] set, such a record is
    refused exactly when formatting its items throws, which is when
    [items] is a non-empty string (which has no [map]) or an array with a
    [null] element. Every other forced record of that type is accepted,
    whatever the ledger holds. An [items] that is an object other than an
    array is outside the type and outside this statement. *)
Theorem forced_request_fails_iff_bad_items clk rc s :
  truthy (force rc) = true ->
  ((exists msg, fst (submit clk (Parsed (JReceipt rc)) s) = Failure msg)
   <-> badItems (items rc) = true)
  /\ (badItems (items rc) = false ->
      fst (submit clk (Parsed (JReceipt rc)) s)
      = Accepted "Receipt saved successfully" (length (withHeader (ledger s)) + 1)).
Proof.
  intros Hforce.
  destruct (formatItems_cases rc) as [[Hbad [err Herr]] | [Hbad Hok]]; rewrite Hbad.
  - split; [|discriminate]. split; [reflexivity|]. intros _.
    pose proof (submit_cases clk (Parsed (JReceipt rc)) s) as P.
    destruct (fst (submit clk (Parsed (JReceipt rc)) s)) as [msg n|k ex msg|msg].
    + inversion P as [ | | data f txt values dbg He Hf Hwhy Hfmt Hrow]; subst.
      injection He as <-. congruence.
    + inversion P as [ | data f dup dbg He Hf Ht Hfind | ]; subst.
      injection He as <-. cbn in Hf. injection Hf as <-. congruence.
    + eauto.
  - destruct (submit_saved_fwd clk (JReceipt rc) s (force rc) _ eq_refl
                (or_introl Hforce) Hok) as (values & dbg & _ & Hsub).
    rewrite Hsub. cbn [fst]. split; [|reflexivity].
    split; [intros [msg Hmsg]; discriminate Hmsg | discriminate].
Qed.

Lemma forced_request_fails_iff_bad_items_witness :
  let rc := {| force := PBool true; merchantName := PStr "Cafe";
               date := PUndefined; time := PUndefined; total := PStr "5.50";
               currency := PUndefined; tax := PUndefined;
               items := ItemsArr [ItemPrim PNull] |} in
  ((exists msg, fst (submit Sample.clk1 (Parsed (JReceipt rc)) emptySpreadsheet) = Failure msg)
   <-> badItems (items rc) = true)
  /\ (badItems (items rc) = false ->
      fst (submit Sample.clk1 (Parsed (JReceipt rc)) emptySpreadsheet)
      = Accepted "Receipt saved successfully"
                 (length (withHeader (ledger emptySpreadsheet)) + 1)).
Proof.
  intros rc.
  apply (forced_request_fails_iff_bad_items Sample.clk1 rc emptySpreadsheet).
  reflexivity.
Defined.

(** ** The key of the duplicate check *)

Lemma call_toString_or_else_eq v :
  call_toString (v <||> PStr "") = Return (ToString (v <||> PStr "")).
Proof.
  unfold or_else. destruct (truthy v) eqn:Hv; [|reflexivity].
  destruct v; cbn in *; try discriminate Hv; reflexivity.
Qed.

Lemma inputText_textOf v : inputText v = PStr (textOf v).
Proof. destruct v; reflexivity. Qed.

(** For a candidate with text fields, each predicate compares the stored
    side with one component of the candidate's key. *)
Lemma predicates_of_text_candidate rd rc :
  isText (merchantName rc) = true -> isText (date rc) = true ->
  isText (total rc) = true ->
  merchantMatch rd (JReceipt rc)
  = (a <~ call_toLowerCase (rd_merchant rd <||> PStr "") ;;
     Return (JsString.trim a =? key_merchant (keyOf rc))%string)
  /\ dateMatch rd (JReceipt rc)
     = Return (JsString.trim (ToString (rd_rawDate rd <||> PStr ""))
               =? key_date (keyOf rc))%string
  /\ totalMatch rd (JReceipt rc)
     = Return (JsString.trim (ToString (rd_rawTotal rd <||> PStr ""))
               =? key_total (keyOf rc))%string.
Proof.
  intros Hm Hd Ht. unfold merchantMatch, dateMatch, totalMatch, keyOf.
  cbn [prop rbind key_merchant key_date key_total].
  rewrite !call_toString_or_else_eq. cbn [rbind].
  rewrite (or_else_text _ Hm), (or_else_text _ Hd), (or_else_text _ Ht).
  rewrite !inputText_textOf. cbn [call_toLowerCase ToString].
  repeat split.
Qed.

Lemma rowMatches_same_key r rc1 rc2 :
  isReceiptRecord rc1 = true -> isReceiptRecord rc2 = true ->
  keyOf rc1 = keyOf rc2 ->
  rowMatches r (JReceipt rc1) = rowMatches r (JReceipt rc2).
Proof.
  intros H1 H2 Hkey.
  destruct (isReceiptRecord_fields _ H1) as (Hm1 & Hd1 & Ht1 & _).
  destruct (isReceiptRecord_fields _ H2) as (Hm2 & Hd2 & Ht2 & _).
  unfold rowMatches.
  destruct (predicates_of_text_candidate (rowData_of r) rc1 Hm1 Hd1 Ht1) as (-> & -> & ->).
  destruct (predicates_of_text_candidate (rowData_of r) rc2 Hm2 Hd2 Ht2) as (-> & -> & ->).
  now rewrite Hkey.
Qed.

Lemma scanRows_same_key data rc1 rc2 :
  isReceiptRecord rc1 = true -> isReceiptRecord rc2 = true ->
  keyOf rc1 = keyOf rc2 ->
  forall i, scanRows data i (JReceipt rc1) = scanRows data i (JReceipt rc2).
Proof.
  intros H1 H2 Hkey. induction data as [|r rest IH]; intros i; cbn; [reflexivity|].
  rewrite (rowMatches_same_key r rc1 rc2 H1 H2 Hkey).
  destruct (rowMatches r (JReceipt rc2)) as [[|]|err]; cbn; [reflexivity | apply IH | reflexivity].
Qed.

(** X6. The duplicate check looks at nothing but the key of a record: the
    merchant name in lower case and trimmed, and the trimmed date and
    total. On a row whose Merchant cell is text the three predicates hold
    together exactly when the row's key equals the candidate's key, and two
    records with the same key (whatever their time, currency, tax, items or
    force flag) get the same answer from [findDuplicate] on every sheet. *)
Theorem duplicate_check_depends_on_key rc1 rc2 :
  isReceiptRecord rc1 = true -> isReceiptRecord rc2 = true ->
  (forall r, isStr (cell r 2) = true ->
             rowMatches r (JReceipt rc1) = Return (matchKey_eqb (rowKey r) (keyOf rc1)))
  /\ (keyOf rc1 = keyOf rc2 ->
      forall sh, findDuplicate sh (JReceipt rc1) = findDuplicate sh (JReceipt rc2)).
Proof.
  intros H1 H2. split.
  - intros r Hr. destruct (isReceiptRecord_fields _ H1) as (Hm & Hd & Ht & _).
    unfold rowMatches.
    destruct (predicates_of_text_candidate (rowData_of r) rc1 Hm Hd Ht) as (-> & -> & ->).
    unfold matchKey_eqb, rowKey. cbn [rowData_of rd_merchant key_merchant key_date key_total].
    destruct (cell r 2) as [| | | |m]; try discriminate Hr.
    rewrite or_else_str. reflexivity.
  - intros Hkey sh. unfold findDuplicate.
    destruct (length sh <=? 1); [reflexivity|].
    now apply scanRows_same_key.
Qed.

Lemma duplicate_check_depends_on_key_witness :
  (forall r, isStr (cell r 2) = true ->
             rowMatches r (JReceipt Sample.acme)
             = Return (matchKey_eqb (rowKey r) (keyOf Sample.acme)))
  /\ (keyOf Sample.acme = keyOf (Sample.forced Sample.acmePadded) ->
      forall sh, findDuplicate sh (JReceipt Sample.acme)
                 = findDuplicate sh (JReceipt (Sample.forced Sample.acmePadded))).
Proof.
  apply (duplicate_check_depends_on_key Sample.acme (Sample.forced Sample.acmePadded));
    reflexivity.
Defined.

Example acme_keys_agree : keyOf Sample.acme = keyOf (Sample.forced Sample.acmePadded).
Proof. reflexivity. Qed.

(** ** The Debug sheet *)

Lemma debugWithHeader_A1 d :
  cell (nth 0 (debugWithHeader d) []) 0 = PStr "Timestamp".
Proof.
  destruct d as [rows|]; [|reflexivity]. unfold debugWithHeader.
  destruct (length rows =? 0) eqn:Hlen; cbn [orb]; [reflexivity|].
  destruct (isNotTimestamp (cell (nth 0 rows []) 0)) eqn:Hts; [reflexivity|].
  unfold isNotTimestamp in Hts.
  destruct (cell (nth 0 rows []) 0) as [| | | |x]; try discriminate Hts.
  apply negb_false_iff, String.eqb_eq in Hts. now subst.
Qed.

(** [writeDebugLog] for a candidate record, as one equation. *)
Lemma writeDebugLog_record now rc dup outcome s :
  writeDebugLog now (JReceipt rc) dup outcome s
  = (Return tt,
     {| ledger := ledger s;
        debugSheet := Some (debugWithHeader (debugSheet s)
                            ++ [debugRowOf now outcome rc
                                  (mainSheetOf (debugSheet s) (ledger s))])%list |}).
Proof.
  unfold writeDebugLog, debugRowOf, debugWithHeader, mainSheetOf.
  destruct s as [l dbg0].
  cbn [ledger debugSheet].
  destruct dbg0 as [rows|].
  - run_M. unfold debugRows. cbn [ledger debugSheet].
    destruct ((length rows =? 0) || isNotTimestamp (cell (nth 0 rows []) 0));
      run_M; unfold debugRows; cbn [ledger debugSheet skipn prop];
      destruct (1 <? length l); reflexivity.
  - run_M. unfold debugRows. cbn [ledger debugSheet].
    change ((length ([] ++ [DEBUG_HEADER])%list =? 0)
            || isNotTimestamp (cell (nth 0 ([] ++ [DEBUG_HEADER])%list []) 0))
      with false.
    run_M. cbn [ledger debugSheet prop app].
    destruct (1 <? length l); reflexivity.
Qed.

(** [writeDebugLog] for any candidate: nothing is logged for [null], whose
    properties cannot be read; any other primitive has none of the three
    properties and is logged like the record with every field absent. *)
Lemma writeDebugLog_any now d dup outcome s :
  writeDebugLog now d dup outcome s
  = (Return tt,
     {| ledger := ledger s;
        debugSheet :=
          Some (debugWithHeader (debugSheet s)
                ++ match d with
                   | JReceipt rc =>
                       [debugRowOf now outcome rc
                          (mainSheetOf (debugSheet s) (ledger s))]
                   | JPrim PNull | JPrim PUndefined => []
                   | JPrim _ =>
                       [debugRowOf now outcome
                          (Sample.receiptOf PUndefined PUndefined PUndefined)
                          (mainSheetOf (debugSheet s) (ledger s))]
                   end)%list |}).
Proof.
  destruct d as [p|rc]; [|apply writeDebugLog_record].
  unfold writeDebugLog, debugRowOf, debugWithHeader, mainSheetOf.
  destruct s as [l dbg0].
  cbn [ledger debugSheet].
  destruct dbg0 as [rows|].
  - run_M. unfold debugRows. cbn [ledger debugSheet].
    destruct ((length rows =? 0) || isNotTimestamp (cell (nth 0 rows []) 0));
      run_M; unfold debugRows; cbn [ledger debugSheet skipn];
      destruct p as [| |b|n|x]; cbn [prop]; rewrite ?app_nil_r;
      destruct (1 <? length l); reflexivity.
  - run_M. unfold debugRows. cbn [ledger debugSheet].
    change ((length ([] ++ [DEBUG_HEADER])%list =? 0)
            || isNotTimestamp (cell (nth 0 ([] ++ [DEBUG_HEADER])%list []) 0))
      with false.
    run_M. cbn [ledger debugSheet app].
    destruct p as [| |b|n|x]; cbn [prop];
      destruct (1 <? length l); reflexivity.
Qed.

(** X7. [writeDebugLog] never throws and never touches the ledger sheet.
    It leaves a Debug sheet that starts with the Timestamp header: the
    sheet is created when missing, a header row is put above the existing
    rows when the first cell is not "Timestamp", and in every case the rows
    that were there are kept in their order. Below them it appends at most
    one row, which for a candidate record holds the clock reading, the
    outcome text, the candidate's merchant name, date and total, and three
    cells read from row 2 of the active sheet. When the Debug sheet
    existed, that sheet is the ledger and the cells are the raw date, raw
    total and merchant of ledger row 2 ("(empty)" when the ledger has no
    such row or the cell is empty). When this call created the Debug
    sheet, the new sheet is the active one, it has no row 2, and the three
    cells are "(empty)" whatever the ledger holds. *)
Theorem writeDebugLog_keeps_the_log now d dup outcome s :
  exists header logged,
    writeDebugLog now d dup outcome s
    = (Return tt,
       {| ledger := ledger s;
          debugSheet := Some (header ++ debugRows s ++ logged)%list |})
    /\ (header = [] \/ header = [DEBUG_HEADER])
    /\ cell (nth 0 (header ++ debugRows s ++ logged)%list []) 0 = PStr "Timestamp"
    /\ length logged <= 1
    /\ (forall rc, d = JReceipt rc ->
          match debugSheet s with
          | Some _ =>
              logged = [[PStr now; PStr outcome;
                         merchantName rc <||> PStr ""; date rc <||> PStr "";
                         total rc <||> PStr "";
                         (cell (rowAt (ledger s) 2) 9 <||> PStr "") <||> PStr "(empty)";
                         (cell (rowAt (ledger s) 2) 10 <||> PStr "") <||> PStr "(empty)";
                         (cell (rowAt (ledger s) 2) 2 <||> PStr "") <||> PStr "(empty)"]]
          | None =>
              logged = [[PStr now; PStr outcome;
                         merchantName rc <||> PStr ""; date rc <||> PStr "";
                         total rc <||> PStr "";
                         PStr "(empty)"; PStr "(empty)"; PStr "(empty)"]]
          end).
Proof.
  assert (Hhead : exists header,
             debugWithHeader (debugSheet s) = (header ++ debugRows s)%list
             /\ (header = [] \/ header = [DEBUG_HEADER])).
  { unfold debugWithHeader, debugRows. destruct (debugSheet s) as [rows|].
    - destruct ((length rows =? 0) || isNotTimestamp (cell (nth 0 rows []) 0)).
      + exists [DEBUG_HEADER]. split; [reflexivity | now right].
      + exists []. split; [reflexivity | now left].
    - exists [DEBUG_HEADER]. split; [reflexivity | now right]. }
  destruct Hhead as (header & Hhead & Hcases).
  pose proof (debugWithHeader_A1 (debugSheet s)) as HA1. rewrite Hhead in HA1.
  assert (Hnonempty : (header ++ debugRows s)%list <> []).
  { intros E. rewrite E in HA1. discriminate HA1. }
  eexists header, _. rewrite writeDebugLog_any, Hhead, <- app_assoc.
  split; [reflexivity|]. split; [assumption|]. split; [|split].
  - rewrite app_assoc. destruct (header ++ debugRows s)%list; [congruence | exact HA1].
  - destruct d as [[| |b|n|x]|rc]; cbn; lia.
  - intros rc ->. unfold debugRowOf, mainSheetOf, rowAt. cbn [Nat.sub].
    destruct (debugSheet s) as [rows|]; [|reflexivity].
    destruct (1 <? length (ledger s)) eqn:Hrows; [reflexivity|].
    apply Nat.ltb_ge in Hrows.
    rewrite (nth_overflow (ledger s) []) by lia. reflexivity.
Qed.

Lemma writeDebugLog_keeps_the_log_witness :
  exists header logged,
    writeDebugLog "t1" (JReceipt Sample.acme) None "NO DUPLICATE" (Sample.after Sample.acme)
    = (Return tt,
       {| ledger := ledger (Sample.after Sample.acme);
          debugSheet := Some (header ++ debugRows (Sample.after Sample.acme) ++ logged)%list |})
    /\ (header = [] \/ header = [DEBUG_HEADER])
    /\ cell (nth 0 (header ++ debugRows (Sample.after Sample.acme) ++ logged)%list []) 0
       = PStr "Timestamp"
    /\ length logged <= 1
    /\ (forall rc, JReceipt Sample.acme = JReceipt rc ->
          match debugSheet (Sample.after Sample.acme) with
          | Some _ =>
              logged = [[PStr "t1"; PStr "NO DUPLICATE";
                         merchantName rc <||> PStr ""; date rc <||> PStr "";
                         total rc <||> PStr "";
                         (cell (rowAt (ledger (Sample.after Sample.acme)) 2) 9 <||> PStr "")
                           <||> PStr "(empty)";
                         (cell (rowAt (ledger (Sample.after Sample.acme)) 2) 10 <||> PStr "")
                           <||> PStr "(empty)";
                         (cell (rowAt (ledger (Sample.after Sample.acme)) 2) 2 <||> PStr "")
                           <||> PStr "(empty)"]]
          | None =>
              logged = [[PStr "t1"; PStr "NO DUPLICATE";
                         merchantName rc <||> PStr ""; date rc <||> PStr "";
                         total rc <||> PStr "";
                         PStr "(empty)"; PStr "(empty)"; PStr "(empty)"]]
          end).
Proof.
  exact (writeDebugLog_keeps_the_log
           "t1" (JReceipt Sample.acme) None "NO DUPLICATE" (Sample.after Sample.acme)).
Defined.

(** [doPost] for a record, as one equation. *)
Lemma submit_record_unfold clk rc s :
  submit clk (Parsed (JReceipt rc)) s =
  let s1 := {| ledger := withHeader (ledger s); debugSheet := debugSheet s |} in
  let logged outcome :=
    {| ledger := withHeader (ledger s);
       debugSheet := Some (debugWithHeader (debugSheet s)
                           ++ [debugRowOf (logTime clk) outcome rc
                                 (mainSheetOf (debugSheet s) (withHeader (ledger s)))])%list |} in
  let finish s2 :=
    match saveReceipt clk (JReceipt rc) s2 with
    | (Return r, s') => (r, s')
    | (Throw err, s') => (Failure (exn_toString err), s')
    end in
  if truthy (force rc) then finish s1
  else match findDuplicate (withHeader (ledger s)) (JReceipt rc) with
       | Throw err => (Failure (exn_toString err), s1)
       | Return (Some dup) =>
           (Duplicate (dup_row dup) (dup_data dup) (duplicateMessage (dup_data dup)),
            logged "DUPLICATE FOUND")
       | Return None => finish (logged "NO DUPLICATE")
       end.
Proof.
  unfold submit, doPost, doPost_try, try_catch.
  change (bind (eval (Return (JReceipt rc))) ?k s) with (k (JReceipt rc) s). cbv beta.
  rewrite header_step. cbn [prop].
  change (bind (eval (Return (force rc))) ?k ?s1) with (k (force rc) s1). cbv beta.
  cbv zeta. destruct (truthy (force rc)); cbn [negb].
  - destruct (saveReceipt clk (JReceipt rc) _) as [[r|err] s']; reflexivity.
  - unfold bind at 1. cbn [ledger].
    destruct (findDuplicate (withHeader (ledger s)) (JReceipt rc)) as [[dup|]|err].
    + unfold bind at 1. rewrite writeDebugLog_record. reflexivity.
    + unfold bind at 1. rewrite writeDebugLog_record. cbn [ledger debugSheet].
      destruct (saveReceipt clk (JReceipt rc) _) as [[r|err] s']; reflexivity.
    + reflexivity.
Qed.

Lemma saveReceipt_debugSheet clk data s :
  debugSheet (snd (saveReceipt clk data s)) = debugSheet s.
Proof.
  rewrite saveReceipt_spec.
  destruct (formatItems data) as [txt|err]; [|reflexivity].
  destruct (buildRow (rowTime clk) data txt) as [values|err]; reflexivity.
Qed.

(** X8. What a request for a record leaves in the Debug sheet. With
    [force] set nothing is logged. Without it, once the duplicate check
    has returned, exactly one row is logged below the (possibly repaired)
    header and the previous rows: "DUPLICATE FOUND" or "NO DUPLICATE" with
    the candidate's fields, followed by the three cells of row 2 of the
    ledger when the Debug sheet existed before the request, and by
    "(empty)" three times when the request created it. The row stays
    logged when the request then fails while formatting the items; nothing
    is logged when the check itself throws. *)
Theorem debug_sheet_after_request clk rc s :
  let s' := snd (submit clk (Parsed (JReceipt rc)) s) in
  (truthy (force rc) = true -> debugSheet s' = debugSheet s)
  /\ (truthy (force rc) = false ->
      match findDuplicate (withHeader (ledger s)) (JReceipt rc) with
      | Throw _ => debugSheet s' = debugSheet s
      | Return found =>
          debugSheet s'
          = Some (debugWithHeader (debugSheet s)
                  ++ [debugRowOf (logTime clk)
                        (match found with
                         | Some _ => "DUPLICATE FOUND"
                         | None => "NO DUPLICATE"
                         end)
                        rc (mainSheetOf (debugSheet s) (withHeader (ledger s)))])%list
      end)
  /\ (forall now outcome,
        debugRowOf now outcome rc (mainSheetOf None (withHeader (ledger s)))
        = [PStr now; PStr outcome;
           merchantName rc <||> PStr ""; date rc <||> PStr ""; total rc <||> PStr "";
           PStr "(empty)"; PStr "(empty)"; PStr "(empty)"]).
Proof.
  intros s'. subst s'. rewrite submit_record_unfold. cbv zeta.
  split; [|split]; [intros Hf; rewrite Hf | intros Hf; rewrite Hf | reflexivity].
  - pose proof (saveReceipt_debugSheet clk (JReceipt rc)
                  {| ledger := withHeader (ledger s); debugSheet := debugSheet s |}) as H.
    destruct (saveReceipt clk (JReceipt rc) _) as [[r|err] s2]; exact H.
  - destruct (findDuplicate (withHeader (ledger s)) (JReceipt rc)) as [[dup|]|err].
    + reflexivity.
    + match goal with
      | |- context [saveReceipt clk (JReceipt rc) ?s2] =>
          pose proof (saveReceipt_debugSheet clk (JReceipt rc) s2) as H;
          destruct (saveReceipt clk (JReceipt rc) s2) as [[r|err] s3]; exact H
      end.
    + reflexivity.
Qed.

Lemma debug_sheet_after_request_witness :
  let s := Sample.after Sample.acme in
  debugSheet (snd (submit Sample.clk2 (Parsed (JReceipt (Sample.forced Sample.acme))) s))
  = debugSheet s
  /\ debugSheet (snd (submit Sample.clk2 (Parsed (JReceipt Sample.acme)) s))
     = Some (debugWithHeader (debugSheet s)
             ++ [debugRowOf (logTime Sample.clk2) "DUPLICATE FOUND" Sample.acme
                   (mainSheetOf (debugSheet s) (withHeader (ledger s)))])%list.
Proof.
  intros s. split.
  - apply (proj1 (debug_sheet_after_request
                    Sample.clk2 (Sample.forced Sample.acme) (Sample.after Sample.acme))).
    reflexivity.
  - apply (proj1 (proj2 (debug_sheet_after_request
                           Sample.clk2 Sample.acme (Sample.after Sample.acme)))).
    reflexivity.
Defined.

(** The request that creates the Debug sheet reads row 2 of the new sheet,
    not of the ledger: the ledger holds the Acme receipt in its row 2, and
    the three cells logged for the next request are "(empty)". *)
Example first_log_reads_the_new_sheet :
  let s := Sample.after (Sample.forced Sample.acme) in
  rowAt (ledger s) 2
  = [PStr "2024-01-01"; PStr ""; PStr "Acme"; PStr "10.00"; PStr "USD";
     PStr "0.00"; PNum 0; PStr "No items"; PStr "2024-01-02T10:00:00.100Z";
     PStr "2024-01-01"; PStr "10.00"]
  /\ debugSheet s = None
  /\ debugSheet (snd (submit Sample.clk2 (Parsed (JReceipt Sample.acme)) s))
     = Some [DEBUG_HEADER;
             [PStr "2024-01-02T10:05:00.000Z"; PStr "DUPLICATE FOUND";
              PStr "Acme"; PStr "2024-01-01"; PStr "10.00";
              PStr "(empty)"; PStr "(empty)"; PStr "(empty)"]].
Proof. vm_compute. repeat split. Qed.

(* ================================================================== *)
(** * Further properties of the migration *)

Lemma setCell_length j : forall r v,
  length (setCell r j v) = Nat.max (length r) (S j).
Proof.
  induction j as [|j IH]; intros [|c r] v; cbn [setCell length].
  - reflexivity.
  - lia.
  - rewrite IH. cbn [length]. lia.
  - rewrite IH. lia.
Qed.

Lemma setCell_same_value j : forall r v,
  j < length r -> cell r j = v -> setCell r j v = r.
Proof.
  unfold cell. induction j as [|j IH]; intros [|c r] v Hlen Hv; cbn in *; try lia.
  - now subst.
  - f_equal. apply IH; [lia | assumption].
Qed.

Lemma migrateRow_length r : length r <= length (migrateRow r).
Proof.
  unfold migrateRow.
  destruct (truthy (cell r 0)), (truthy (cell r 3)); rewrite ?setCell_length; lia.
Qed.

(** Running the loop body a second time on a row changes nothing. *)
Lemma migrateRow_idempotent r : migrateRow (migrateRow r) = migrateRow r.
Proof.
  destruct (migrateRow_raw r) as [H9 H10].
  pose proof (migrateRow_cell r 0) as H0. pose proof (migrateRow_cell r 3) as H3.
  unfold migrateRow at 1. rewrite H0, H3 by lia.
  assert (L9 : truthy (cell r 0) = true -> 9 < length (migrateRow r)).
  { intros Ht. unfold migrateRow. rewrite Ht.
    destruct (truthy (cell r 3)); rewrite ?setCell_length; lia. }
  assert (L10 : truthy (cell r 3) = true -> 10 < length (migrateRow r)).
  { intros Ht. unfold migrateRow. rewrite Ht. rewrite setCell_length. lia. }
  destruct (truthy (cell r 0)) eqn:Ha, (truthy (cell r 3)) eqn:Hd.
  - rewrite (setCell_same_value 9 (migrateRow r)) by auto.
    apply setCell_same_value; auto.
  - apply setCell_same_value; auto.
  - apply setCell_same_value; auto.
  - reflexivity.
Qed.

Lemma migrateOldRows_eq s :
  migrateOldRows s
  = {| ledger := (firstn 1 (ledger s) ++ map migrateRow (skipn 1 (ledger s)))%list;
       debugSheet := debugSheet s |}.
Proof.
  pose proof (migrateOldRows_ledger s) as H. rewrite <- H.
  unfold migrateOldRows. destruct s as [l d]. cbn [ledger debugSheet].
  destruct (length l <=? 1); reflexivity.
Qed.

(** X9. The migration is idempotent: a second run leaves the spreadsheet
    exactly as the first run left it. *)
Theorem migrateOldRows_idempotent s :
  migrateOldRows (migrateOldRows s) = migrateOldRows s.
Proof.
  rewrite (migrateOldRows_eq (migrateOldRows s)), (migrateOldRows_eq s).
  cbn [ledger debugSheet]. f_equal.
  destruct (ledger s) as [|h rest]; [reflexivity|].
  cbn [firstn skipn app]. f_equal.
  rewrite map_map. apply map_ext. apply migrateRow_idempotent.
Qed.

Lemma migrateOldRows_length s :
  length (ledger (migrateOldRows s)) = length (ledger s).
Proof.
  rewrite migrateOldRows_ledger, length_app, length_map.
  rewrite <- (firstn_skipn 1 (ledger s)) at 3. now rewrite length_app.
Qed.

Lemma migrateOldRows_first_row s :
  rowAt (ledger (migrateOldRows s)) 1 = rowAt (ledger s) 1.
Proof.
  rewrite migrateOldRows_ledger. unfold rowAt.
  destruct (ledger s) as [|h rest]; reflexivity.
Qed.

Lemma migrateOldRows_other_cells s i k :
  1 <= i <= length (ledger s) -> k <> 9 -> k <> 10 ->
  cell (rowAt (ledger (migrateOldRows s)) i) k = cell (rowAt (ledger s) i) k.
Proof.
  intros Hi Hk9 Hk10. destruct (Nat.eq_dec i 1) as [-> | Hne].
  - now rewrite migrateOldRows_first_row.
  - rewrite migrateOldRows_rows by lia. now apply migrateRow_cell.
Qed.

(** X10. What the migration leaves alone: the number of rows, the header
    row, every cell outside the Raw Date and Raw Total columns, and the
    Debug sheet. A ledger with at most one row is returned unchanged, and
    in a data row the raw cell is rewritten only where the Date
    (respectively Total) cell is not empty. *)
Theorem migrateOldRows_frame s :
  length (ledger (migrateOldRows s)) = length (ledger s)
  /\ rowAt (ledger (migrateOldRows s)) 1 = rowAt (ledger s) 1
  /\ debugSheet (migrateOldRows s) = debugSheet s
  /\ (length (ledger s) <= 1 -> migrateOldRows s = s)
  /\ forall i k, 1 <= i <= length (ledger s) ->
       (k <> 9 /\ k <> 10
        \/ k = 9 /\ truthy (cell (rowAt (ledger s) i) 0) = false
        \/ k = 10 /\ truthy (cell (rowAt (ledger s) i) 3) = false) ->
       cell (rowAt (ledger (migrateOldRows s)) i) k = cell (rowAt (ledger s) i) k.
Proof.
  split; [|split; [|split; [|split]]].
  - apply migrateOldRows_length.
  - apply migrateOldRows_first_row.
  - rewrite migrateOldRows_eq. reflexivity.
  - intros Hlen. unfold migrateOldRows.
    destruct (length (ledger s) <=? 1) eqn:E; [reflexivity|].
    apply Nat.leb_gt in E. lia.
  - intros i k Hi Hk.
    destruct Hk as [[Hk9 Hk10] | Hraw]; [now apply migrateOldRows_other_cells|].
    destruct (Nat.eq_dec i 1) as [-> | Hne].
    + rewrite migrateOldRows_first_row. reflexivity.
    + rewrite migrateOldRows_rows by lia.
      destruct (migrateRow_raw (rowAt (ledger s) i)) as [H9 H10].
      destruct Hraw as [[-> Hf] | [-> Hf]].
      * now rewrite H9, Hf.
      * now rewrite H10, Hf.
Qed.

Lemma migrateOldRows_frame_witness :
  let s := Sample.after Sample.acmeNoTotal in
  cell (rowAt (ledger (migrateOldRows s)) 2) 2 = cell (rowAt (ledger s) 2) 2
  /\ migrateOldRows emptySpreadsheet = emptySpreadsheet.
Proof.
  intros s. split.
  - apply (proj2 (proj2 (proj2 (proj2 (migrateOldRows_frame s))))).
    + cbn. lia.
    + left. split; discriminate.
  - apply (proj1 (proj2 (proj2 (proj2 (migrateOldRows_frame emptySpreadsheet))))).
    cbn. lia.
Defined.

Lemma ofZ_nonempty n : JsString.ofZ n <> "".
Proof.
  unfold JsString.ofZ, NilZero.string_of_int.
  destruct (Z.to_int n) as [d|d]; [|discriminate].
  destruct d; discriminate.
Qed.

(** The text of a value that is not empty when read by [||] is not the
    empty text. *)
Lemma truthy_ToString v : truthy v = true -> truthy (PStr (ToString v)) = true.
Proof.
  destruct v as [| |b|n|x]; cbn; intros H; try discriminate H.
  - now subst.
  - apply negb_true_iff, String.eqb_neq, ofZ_nonempty.
  - exact H.
Qed.

(** The text the matcher compares for a raw cell [raw] with display cell
    [shown], before and after the migration rewrote the raw cell. *)
Lemma migrated_raw_text raw shown :
  truthy raw = false \/ ToString raw = ToString shown ->
  ToString (((if truthy shown then PStr (ToString shown) else raw) <||> shown) <||> PStr "")
  = ToString ((raw <||> shown) <||> PStr "").
Proof.
  intros Hagree. destruct (truthy shown) eqn:Hs; [|reflexivity].
  pose proof (truthy_ToString _ Hs) as Hts.
  rewrite (or_else_truthy (PStr (ToString shown)) shown Hts).
  rewrite (or_else_truthy _ (PStr "") Hts). cbn [ToString].
  destruct (truthy raw) eqn:Hr.
  - rewrite (or_else_truthy raw shown Hr), (or_else_truthy raw _ Hr).
    destruct Hagree as [H|H]; [discriminate H | now symmetry].
  - unfold or_else at 2. rewrite Hr. now rewrite (or_else_truthy shown _ Hs).
Qed.

Lemma rowMatches_of_texts r1 r2 R :
  cell r1 2 = cell r2 2 ->
  ToString (rd_rawDate (rowData_of r1) <||> PStr "")
  = ToString (rd_rawDate (rowData_of r2) <||> PStr "") ->
  ToString (rd_rawTotal (rowData_of r1) <||> PStr "")
  = ToString (rd_rawTotal (rowData_of r2) <||> PStr "") ->
  rowMatches r1 R = rowMatches r2 R.
Proof.
  intros Hm Hd Ht. unfold rowMatches, merchantMatch, dateMatch, totalMatch.
  rewrite !call_toString_or_else_eq.
  cbn [rowData_of rd_merchant] in *. rewrite Hm, Hd, Ht. reflexivity.
Qed.

(** A row whose raw cells agree with its Date and Total cells matches the
    same candidates before and after the migration. *)
Lemma rowMatches_migrateRow r R :
  rawAgrees r -> rowMatches (migrateRow r) R = rowMatches r R.
Proof.
  intros [Hj Hk]. apply rowMatches_of_texts.
  - apply migrateRow_cell; lia.
  - cbn [rowData_of rd_rawDate]. destruct (migrateRow_raw r) as [-> _].
    rewrite migrateRow_cell by lia. now apply migrated_raw_text.
  - cbn [rowData_of rd_rawTotal]. destruct (migrateRow_raw r) as [_ ->].
    rewrite migrateRow_cell by lia. now apply migrated_raw_text.
Qed.

Lemma rawAgrees_migrateRow r : rawAgrees r -> rawAgrees (migrateRow r).
Proof.
  intros [Hj Hk]. unfold rawAgrees.
  destruct (migrateRow_raw r) as [-> ->].
  rewrite !migrateRow_cell by lia. split.
  - destruct (truthy (cell r 0)); [right; reflexivity | assumption].
  - destruct (truthy (cell r 3)); [right; reflexivity | assumption].
Qed.

Lemma rawAgrees_buildRow now data txt values :
  buildRow now data txt = Return values -> rawAgrees values.
Proof.
  destruct data as [[| |b|n|x]|rc]; cbn; intros H; try discriminate H;
    injection H as <-; unfold rawAgrees, cell; cbn [nth];
    try (split; left; reflexivity).
  split; [right; reflexivity|].
  unfold or_else. destruct (truthy (total rc)) eqn:Ht.
  - right. reflexivity.
  - left. reflexivity.
Qed.

Lemma scanRows_migrated data R :
  Forall rawAgrees data ->
  forall i, reportedRow (scanRows (map migrateRow data) i R)
            = reportedRow (scanRows data i R).
Proof.
  induction 1 as [|r rest Hr Hrest IH]; intros i; cbn [map scanRows]; [reflexivity|].
  rewrite (rowMatches_migrateRow r R Hr).
  destruct (rowMatches r R) as [[|]|err]; cbn [rbind]; [reflexivity | apply IH | reflexivity].
Qed.

(** X11. On a ledger whose data rows have raw cells that are empty or
    spell the same text as the Date and Total cells (rows written before
    the raw columns existed, and rows written by [doPost]), the migration
    changes nothing for the duplicate check: every candidate is reported
    against the same row number, or found new, or makes the check throw,
    exactly as before the run. *)
Theorem migration_keeps_reported_row s R :
  Forall rawAgrees (skipn 1 (ledger s)) ->
  reportedRow (findDuplicate (ledger (migrateOldRows s)) R)
  = reportedRow (findDuplicate (ledger s) R).
Proof.
  intros Hrows. unfold findDuplicate. rewrite migrateOldRows_length.
  destruct (length (ledger s) <=? 1); [reflexivity|].
  rewrite migrateOldRows_ledger.
  destruct (ledger s) as [|h rest]; [reflexivity|].
  cbn [firstn skipn app] in *. now apply scanRows_migrated.
Qed.

Lemma migration_keeps_reported_row_witness :
  reportedRow (findDuplicate (ledger (migrateOldRows (Sample.after Sample.acmeNoTotal)))
                             (JReceipt Sample.acme))
  = reportedRow (findDuplicate (ledger (Sample.after Sample.acmeNoTotal))
                               (JReceipt Sample.acme)).
Proof.
  apply (migration_keeps_reported_row (Sample.after Sample.acmeNoTotal) (JReceipt Sample.acme)).
  constructor; [|constructor].
  split; [right; reflexivity | left; reflexivity].
Defined.

Lemma submit_ledger_rows clk e s :
  ledger (snd (submit clk e s)) = ledger s
  \/ ledger (snd (submit clk e s)) = withHeader (ledger s)
  \/ exists data txt values,
       buildRow (rowTime clk) data txt = Return values
       /\ ledger (snd (submit clk e s)) = (withHeader (ledger s) ++ [values])%list.
Proof.
  pose proof (submit_cases clk e s) as P.
  destruct (submit clk e s) as [r s'] eqn:E. cbn [fst snd] in *.
  inversion P as [err s0 Hthrown _ | data f dup dbg He Hf Ht Hfind
                 | data f txt values dbg He Hf Hwhy Hfmt Hrow]; subst.
  - destruct (try_path_thrown_ledger _ _ _ _ _ Hthrown) as [H | [H0 H1]].
    + now left.
    + right; left. rewrite H1, H0. reflexivity.
  - right; left. reflexivity.
  - right; right. exists data, txt, values. split; [assumption | reflexivity].
Qed.

(** X12. In every spreadsheet reachable from the empty one by requests and
    runs of the migration, each data row has a Raw Date that is empty or
    spells the text of its Date cell, and a Raw Total that is empty or
    spells the text of its Total cell; so on every such spreadsheet a run
    of the migration leaves unchanged, for every candidate, whether the
    duplicate check reports a row and the number of the row it reports
    (or the exception it throws). The raw date and raw total fields of
    the reported record are not covered: the migration may replace a
    number by its text there. *)
Theorem reachable_rows_have_agreeing_raw_cells s :
  reachable s ->
  Forall rawAgrees (skipn 1 (ledger s))
  /\ forall R, reportedRow (findDuplicate (ledger (migrateOldRows s)) R)
               = reportedRow (findDuplicate (ledger s) R).
Proof.
  intros Hs.
  assert (Hrows : Forall rawAgrees (skipn 1 (ledger s))).
  { induction Hs as [ | clk e s Hs IH | s Hs IH].
    - constructor.
    - destruct (submit_ledger_rows clk e s) as [H | [H | (data & txt & values & Hv & H)]];
        rewrite H.
      + exact IH.
      + destruct (ledger s); [constructor | exact IH].
      + destruct (ledger s) as [|h rest]; cbn [withHeader length Nat.eqb app skipn] in *.
        * constructor; [|constructor]. eapply rawAgrees_buildRow; eassumption.
        * apply Forall_app. split; [exact IH|].
          constructor; [|constructor]. eapply rawAgrees_buildRow; eassumption.
    - rewrite migrateOldRows_ledger.
      destruct (ledger s) as [|h rest]; [constructor|].
      cbn [firstn skipn app] in *. apply Forall_map.
      eapply Forall_impl; [|exact IH]. intros r. apply rawAgrees_migrateRow. }
  split; [exact Hrows|]. intros R.
  unfold findDuplicate. rewrite migrateOldRows_length.
  destruct (length (ledger s) <=? 1); [reflexivity|].
  rewrite migrateOldRows_ledger.
  destruct (ledger s) as [|h rest]; [reflexivity|].
  cbn [firstn skipn app] in *. now apply scanRows_migrated.
Qed.

Lemma reachable_rows_have_agreeing_raw_cells_witness :
  Forall rawAgrees (skipn 1 (ledger (Sample.after Sample.acme)))
  /\ forall R, reportedRow (findDuplicate (ledger (migrateOldRows (Sample.after Sample.acme))) R)
               = reportedRow (findDuplicate (ledger (Sample.after Sample.acme)) R).
Proof.
  apply (reachable_rows_have_agreeing_raw_cells (Sample.after Sample.acme)).
  apply reach_submit. apply reach_empty.
Defined.

(* ================================================================== *)
(** * The history of the ledger *)

Lemma submit_appends clk e s :
  exists added,
    ledger (snd (submit clk e s)) = (ledger s ++ added)%list /\ length added <= 2.
Proof.
  destruct (submit_ledger clk e s) as [H | [H | (values & _ & H)]]; rewrite H.
  - exists []. rewrite app_nil_r. split; [reflexivity | cbn; lia].
  - destruct (ledger s) as [|h rest].
    + exists [HEADER]. split; [reflexivity | cbn; lia].
    + exists []. rewrite app_nil_r. split; [reflexivity | cbn; lia].
  - destruct (ledger s) as [|h rest].
    + exists [HEADER; values]. split; [reflexivity | cbn; lia].
    + exists [values]. split; [reflexivity | cbn; lia].
Qed.

Lemma rowAt_app_left (sh added : sheet) i :
  1 <= i <= length sh -> rowAt (sh ++ added)%list i = rowAt sh i.
Proof. intros Hi. unfold rowAt. apply app_nth1. lia. Qed.

(** X13. The ledger is append-only along every history of requests and
    migration runs: it never gets shorter, and a row that exists keeps
    every cell outside the two raw columns (in particular its first nine
    cells, Date to Timestamp) for ever. Each single request adds at most
    two rows at the end (the header and one receipt). *)
Theorem ledger_is_append_only s s' :
  evolves s s' ->
  length (ledger s) <= length (ledger s')
  /\ (forall i k, 1 <= i <= length (ledger s) -> k <> 9 -> k <> 10 ->
        cell (rowAt (ledger s') i) k = cell (rowAt (ledger s) i) k)
  /\ forall clk e,
       exists added,
         ledger (snd (submit clk e s')) = (ledger s' ++ added)%list
         /\ length added <= 2.
Proof.
  intros H. split; [|split].
  - induction H as [s | clk e s s' H IH | s s' H IH].
    + lia.
    + destruct (submit_appends clk e s') as (added & -> & _).
      rewrite length_app. lia.
    + rewrite migrateOldRows_length. exact IH.
  - induction H as [s | clk e s s' H IH | s s' H IH]; intros i k Hi Hk9 Hk10.
    + reflexivity.
    + assert (Hlen : length (ledger s) <= length (ledger s')).
      { clear - H. induction H as [s | clk e s s' H IH | s s' H IH].
        - lia.
        - destruct (submit_appends clk e s') as (added & -> & _).
          rewrite length_app. lia.
        - rewrite migrateOldRows_length. exact IH. }
      destruct (submit_appends clk e s') as (added & -> & _).
      rewrite rowAt_app_left by lia. now apply IH.
    + assert (Hlen : length (ledger s) <= length (ledger s')).
      { clear - H. induction H as [s | clk e s s' H IH | s s' H IH].
        - lia.
        - destruct (submit_appends clk e s') as (added & -> & _).
          rewrite length_app. lia.
        - rewrite migrateOldRows_length. exact IH. }
      rewrite migrateOldRows_other_cells by (assumption || lia). now apply IH.
  - intros clk e. apply submit_appends.
Qed.

Lemma ledger_is_append_only_witness :
  let s := Sample.after Sample.acmeNoTotal in
  let s' := migrateOldRows (snd (submit Sample.clk2 (Parsed (JReceipt Sample.acme)) s)) in
  length (ledger s) <= length (ledger s')
  /\ (forall i k, 1 <= i <= length (ledger s) -> k <> 9 -> k <> 10 ->
        cell (rowAt (ledger s') i) k = cell (rowAt (ledger s) i) k)
  /\ forall clk e,
       exists added,
         ledger (snd (submit clk e s')) = (ledger s' ++ added)%list
         /\ length added <= 2.
Proof.
  intros s s'.
  apply (ledger_is_append_only s s').
  apply evolves_migrate. apply evolves_submit. apply evolves_refl.
Defined.

(* ================================================================== *)
(** * The first revision *)

Lemma first_header_step (k : M response) s :
  (lastRow <- getLastRow ;;
   (if lastRow =? 0 then appendRow FirstRevision.HEADER else ret tt) ;;; k) s
  = k {| ledger := FirstRevision.withHeader (ledger s); debugSheet := debugSheet s |}.
Proof. destruct s as [[|h l] d]; reflexivity. Qed.

(** The first revision's [doPost], as one equation. *)
Lemma first_submit_unfold now data s :
  FirstRevision.submit now (Parsed data) s =
  let s1 := {| ledger := FirstRevision.withHeader (ledger s); debugSheet := debugSheet s |} in
  match formatItems data with
  | Throw err => (Failure (exn_toString err), s1)
  | Return txt =>
      match FirstRevision.buildRow now data txt with
      | Throw err => (Failure (exn_toString err), s1)
      | Return values =>
          (Accepted "Receipt saved successfully"
                    (length (FirstRevision.withHeader (ledger s)) + 1),
           {| ledger := (FirstRevision.withHeader (ledger s) ++ [values])%list;
              debugSheet := debugSheet s |})
      end
  end.
Proof.
  unfold FirstRevision.submit, FirstRevision.doPost, FirstRevision.doPost_try, try_catch.
  change (bind (eval (Return data)) ?k s) with (k data s). cbv beta.
  rewrite first_header_step. cbv zeta.
  unfold bind at 1, eval at 1.
  destruct (formatItems data) as [txt|err]; [|reflexivity].
  unfold bind at 1, eval at 1.
  destruct (FirstRevision.buildRow now data txt) as [values|err]; [|reflexivity].
  run_M. rewrite length_app. reflexivity.
Qed.

Lemma first_buildRow_receipt now rc txt :
  FirstRevision.buildRow now (JReceipt rc) txt =
  Return [date rc <||> PStr ""; time rc <||> PStr ""; merchantName rc <||> PStr "Unknown";
          total rc <||> PStr "0.00"; currency rc <||> PStr "USD"; tax rc <||> PStr "0.00";
          (if items_truthy (items rc) then items_length (items rc) else PNum 0);
          PStr txt; PStr now].
Proof. reflexivity. Qed.

(** X14. The first revision has no duplicate check: whatever the request
    (a body that does not parse, a primitive, a record) and whatever its
    outcome, it never answers with a duplicate warning and it leaves the
    Debug sheet as it found it; a record whose items can be formatted is
    accepted every time, so that sending it twice appends two rows of nine
    cells under consecutive row numbers. *)
Theorem first_revision_always_appends nowA nowB rc s :
  badItems (items rc) = false ->
  let e := Parsed (JReceipt rc) in
  let s1 := snd (FirstRevision.submit nowA e s) in
  let s2 := snd (FirstRevision.submit nowB e s1) in
  exists n row1 row2,
    fst (FirstRevision.submit nowA e s) = Accepted "Receipt saved successfully" n
    /\ fst (FirstRevision.submit nowB e s1) = Accepted "Receipt saved successfully" (n + 1)
    /\ ledger s2 = (FirstRevision.withHeader (ledger s) ++ [row1; row2])%list
    /\ length row1 = 9 /\ length row2 = 9
    /\ debugSheet s2 = debugSheet s
    /\ forall now' e' s',
         (forall k ex msg, fst (FirstRevision.submit now' e' s') <> Duplicate k ex msg)
         /\ debugSheet (snd (FirstRevision.submit now' e' s')) = debugSheet s'.
Proof.
  intros Hgood e s1 s2.
  destruct (formatItems_cases rc) as [[Hbad _] | [_ Hfmt]]; [congruence|].
  assert (Hone : forall now s0,
            FirstRevision.submit now e s0
            = (Accepted "Receipt saved successfully"
                        (length (FirstRevision.withHeader (ledger s0)) + 1),
               {| ledger := (FirstRevision.withHeader (ledger s0)
                             ++ [[date rc <||> PStr ""; time rc <||> PStr "";
                                  merchantName rc <||> PStr "Unknown";
                                  total rc <||> PStr "0.00"; currency rc <||> PStr "USD";
                                  tax rc <||> PStr "0.00";
                                  (if items_truthy (items rc) then items_length (items rc)
                                   else PNum 0);
                                  PStr (match items rc with
                                        | ItemsArr (it :: rest) =>
                                            JsString.join "; "
                                              (map (itemTextOf (currency rc)) (it :: rest))
                                        | _ => "No items"
                                        end);
                                  PStr now]])%list;
                  debugSheet := debugSheet s0 |})).
  { intros now s0. unfold e. rewrite first_submit_unfold. cbv zeta.
    rewrite Hfmt, first_buildRow_receipt. reflexivity. }
  subst s2 s1. rewrite !Hone. cbn [fst snd ledger debugSheet].
  set (sh := FirstRevision.withHeader (ledger s)).
  assert (Hsh : forall r : row,
             FirstRevision.withHeader (sh ++ [r])%list = (sh ++ [r])%list)
    by (intros; destruct sh; reflexivity).
  do 3 eexists. rewrite Hsh, length_app. cbn [length].
  split; [reflexivity|]. split; [reflexivity|].
  split; [now rewrite <- app_assoc|].
  split; [reflexivity|]. split; [reflexivity|]. split; [reflexivity|].
  intros now' e' s'.
  destruct e' as [err|data]; [split; [discriminate | reflexivity]|].
  rewrite first_submit_unfold. cbv zeta.
  destruct (formatItems data) as [txt|err]; [|split; [discriminate | reflexivity]].
  destruct (FirstRevision.buildRow now' data txt);
    (split; [discriminate | reflexivity]).
Qed.

Lemma first_revision_always_appends_witness :
  let e := Parsed (JReceipt Sample.acme) in
  let s1 := snd (FirstRevision.submit "t1" e emptySpreadsheet) in
  let s2 := snd (FirstRevision.submit "t2" e s1) in
  exists n row1 row2,
    fst (FirstRevision.submit "t1" e emptySpreadsheet) = Accepted "Receipt saved successfully" n
    /\ fst (FirstRevision.submit "t2" e s1) = Accepted "Receipt saved successfully" (n + 1)
    /\ ledger s2 = (FirstRevision.withHeader (ledger emptySpreadsheet) ++ [row1; row2])%list
    /\ length row1 = 9 /\ length row2 = 9
    /\ debugSheet s2 = debugSheet emptySpreadsheet
    /\ forall now' e' s',
         (forall k ex msg, fst (FirstRevision.submit now' e' s') <> Duplicate k ex msg)
         /\ debugSheet (snd (FirstRevision.submit now' e' s')) = debugSheet s'.
Proof.
  apply (first_revision_always_appends "t1" "t2" Sample.acme emptySpreadsheet).
  reflexivity.
Defined.



(** X16. With [force] set, the current revision does what the first
    revision does, plus the two raw cells: started on ledgers that agree on
    the first nine columns, both give the same response, and the ledgers
    still agree on the first nine columns afterwards. *)
Theorem forced_request_extends_first_revision clk rc s3 s1 :
  truthy (force rc) = true ->
  map (firstn 9) (ledger s3) = ledger s1 ->
  fst (submit clk (Parsed (JReceipt rc)) s3)
  = fst (FirstRevision.submit (rowTime clk) (Parsed (JReceipt rc)) s1)
  /\ map (firstn 9) (ledger (snd (submit clk (Parsed (JReceipt rc)) s3)))
     = ledger (snd (FirstRevision.submit (rowTime clk) (Parsed (JReceipt rc)) s1)).
Proof.
  intros Hforce Hrel.
  rewrite submit_record_unfold, first_submit_unfold. cbv zeta. rewrite Hforce.
  rewrite saveReceipt_spec. cbn [ledger debugSheet].
  assert (Hhead : map (firstn 9) (withHeader (ledger s3))
                  = FirstRevision.withHeader (ledger s1)).
  { rewrite <- Hrel. destruct (ledger s3); reflexivity. }
  assert (Hlen : length (withHeader (ledger s3))
                 = length (FirstRevision.withHeader (ledger s1))).
  { rewrite <- Hhead. now rewrite length_map. }
  destruct (formatItems (JReceipt rc)) as [txt|err]; cbn [fst snd ledger].
  - rewrite buildRow_receipt, first_buildRow_receipt. cbn [fst snd ledger].
    rewrite Hlen, map_app. split; [reflexivity|].
    apply (f_equal2 (@app row)); [exact Hhead | reflexivity].
  - split; [reflexivity | exact Hhead].
Qed.

Lemma forced_request_extends_first_revision_witness :
  fst (submit Sample.clk1 (Parsed (JReceipt (Sample.forced Sample.acme))) emptySpreadsheet)
  = fst (FirstRevision.submit (rowTime Sample.clk1)
           (Parsed (JReceipt (Sample.forced Sample.acme))) emptySpreadsheet)
  /\ map (firstn 9)
         (ledger (snd (submit Sample.clk1 (Parsed (JReceipt (Sample.forced Sample.acme)))
                              emptySpreadsheet)))
     = ledger (snd (FirstRevision.submit (rowTime Sample.clk1)
                      (Parsed (JReceipt (Sample.forced Sample.acme))) emptySpreadsheet)).
Proof.
  apply (forced_request_extends_first_revision
           Sample.clk1 (Sample.forced Sample.acme) emptySpreadsheet emptySpreadsheet);
    reflexivity.
Defined.

(* ================================================================== *)
(** * Sequences of requests *)

Lemma findDuplicate_same_key sh rc1 rc2 :
  isReceiptRecord rc1 = true -> isReceiptRecord rc2 = true ->
  keyOf rc1 = keyOf rc2 ->
  findDuplicate sh (JReceipt rc1) = findDuplicate sh (JReceipt rc2).
Proof.
  intros H1 H2 Hkey. unfold findDuplicate.
  destruct (length sh <=? 1); [reflexivity|].
  now apply scanRows_same_key.
Qed.

(** X17. Once a record with a merchant name and a total has been accepted,
    the next request for any record with the same key (the same record
    again, or one that differs in letter case, surrounding white space,
    time, currency, tax or items) is answered with a duplicate warning for
    the row the first request wrote. *)
Theorem same_key_submission_is_duplicate clkA clkB rc rc2 s :
  isReceiptRecord rc = true -> isReceiptRecord rc2 = true ->
  truthy (force rc) = false -> truthy (force rc2) = false ->
  truthy (merchantName rc) = true -> truthy (total rc) = true ->
  findDuplicate (withHeader (ledger s)) (JReceipt rc) = Return None ->
  keyOf rc2 = keyOf rc ->
  let n := length (withHeader (ledger s)) + 1 in
  fst (submit clkA (Parsed (JReceipt rc)) s) = Accepted "Receipt saved successfully" n
  /\ exists ex msg,
      fst (submit clkB (Parsed (JReceipt rc2)) (snd (submit clkA (Parsed (JReceipt rc)) s)))
      = Duplicate n ex msg.
Proof.
  intros Hrec Hrec2 Hf Hf2 Hm Ht Hnone Hkey n.
  destruct (resubmission_detected clkA clkB rc s Hrec Hf Hm Ht Hnone) as (Hfirst & ex & msg & Hsecond).
  split; [exact Hfirst|].
  destruct (submit_duplicate_inv _ _ _ _ _ _ Hsecond) as (data & dup & He & Hfind & Hn & _ & _).
  injection He as <-.
  rewrite <- (findDuplicate_same_key _ rc2 rc Hrec2 Hrec Hkey) in Hfind.
  set (s1 := snd (submit clkA (Parsed (JReceipt rc)) s)) in *.
  assert (Hw : withHeader (ledger s1) = ledger s1).
  { apply findDuplicate_some_length in Hfind. destruct (ledger s1); [cbn in Hfind; lia | reflexivity]. }
  rewrite <- Hw in Hfind.
  destruct (submit_duplicate_fwd clkB (JReceipt rc2) s1 (force rc2) dup eq_refl Hf2 Hfind)
    as [dbg Hsub].
  rewrite Hsub. cbn [fst]. fold n in Hn. rewrite <- Hn. eauto.
Qed.

Lemma same_key_submission_is_duplicate_witness :
  fst (submit Sample.clk1 (Parsed (JReceipt Sample.acmePadded)) emptySpreadsheet)
  = Accepted "Receipt saved successfully" 2
  /\ exists ex msg,
      fst (submit Sample.clk2 (Parsed (JReceipt Sample.acme))
                  (snd (submit Sample.clk1 (Parsed (JReceipt Sample.acmePadded))
                               emptySpreadsheet)))
      = Duplicate 2 ex msg.
Proof.
  apply (same_key_submission_is_duplicate
           Sample.clk1 Sample.clk2 Sample.acmePadded Sample.acme emptySpreadsheet);
    reflexivity.
Defined.

Lemma buildRow_merchant_text now rc txt values :
  isText (merchantName rc) = true ->
  buildRow now (JReceipt rc) txt = Return values -> isStr (cell values 2) = true.
Proof.
  intros Hm. rewrite buildRow_receipt. intros H. injection H as <-.
  unfold cell. cbn [nth]. unfold or_else.
  destruct (merchantName rc) as [| | | |m]; try discriminate Hm; [reflexivity|].
  destruct (truthy (PStr m)); reflexivity.
Qed.

Lemma merchantsAreText_withHeader sh :
  merchantsAreText sh = true -> merchantsAreText (withHeader sh) = true.
Proof. destruct sh; [reflexivity | trivial]. Qed.

(** X18. A request for a receipt record on a ledger whose Merchant cells
    hold text never fails: it is answered with a duplicate warning or
    accepted. The ledger it leaves again has text in every Merchant cell
    (an absent merchant name is stored as "Unknown"), so that no request
    of a sequence of such requests fails. *)
Theorem record_requests_never_fail clk rc s :
  isReceiptRecord rc = true ->
  merchantsAreText (ledger s) = true ->
  ((exists n, fst (submit clk (Parsed (JReceipt rc)) s)
              = Accepted "Receipt saved successfully" n)
   \/ (exists k ex msg, fst (submit clk (Parsed (JReceipt rc)) s) = Duplicate k ex msg))
  /\ merchantsAreText (ledger (snd (submit clk (Parsed (JReceipt rc)) s))) = true.
Proof.
  intros Hrec Htext.
  destruct (isReceiptRecord_fields _ Hrec) as (Hm & _ & _ & Hitems).
  destruct (formatItems_record rc Hitems) as [txt Hfmt].
  pose proof (merchantsAreText_withHeader _ Htext) as Htext'.
  destruct (findDuplicate_total _ rc Htext' Hm) as [found Hfind].
  assert (Hsaved : truthy (force rc) = true
                   \/ findDuplicate (withHeader (ledger s)) (JReceipt rc) = Return None ->
                   (exists n, fst (submit clk (Parsed (JReceipt rc)) s)
                              = Accepted "Receipt saved successfully" n)
                   /\ merchantsAreText (ledger (snd (submit clk (Parsed (JReceipt rc)) s)))
                      = true).
  { intros Hwhy.
    destruct (submit_saved_fwd clk (JReceipt rc) s (force rc) txt eq_refl Hwhy Hfmt)
      as (values & dbg & Hrow & Hsub).
    rewrite Hsub. cbn [fst snd ledger]. split; [eauto|].
    unfold merchantsAreText in *.
    destruct (withHeader (ledger s)) as [|h rest] eqn:E.
    - destruct (ledger s); discriminate E.
    - cbn [skipn app] in *. rewrite forallb_app, Htext'. cbn.
      now rewrite (buildRow_merchant_text _ _ _ _ Hm Hrow). }
  destruct (truthy (force rc)) eqn:Hforce.
  - destruct (Hsaved (or_introl eq_refl)) as [Hacc Hkeep]. split; [now left | exact Hkeep].
  - destruct found as [dup|].
    + destruct (submit_duplicate_fwd clk (JReceipt rc) s (force rc) dup eq_refl Hforce Hfind)
        as [dbg Hsub].
      rewrite Hsub. cbn [fst snd ledger]. split; [right; eauto | exact Htext'].
    + destruct (Hsaved (or_intror Hfind)) as [Hacc Hkeep]. split; [now left | exact Hkeep].
Qed.

Lemma record_requests_never_fail_witness :
  ((exists n, fst (submit Sample.clk2 (Parsed (JReceipt Sample.noMerchant))
                          (Sample.after Sample.acme))
              = Accepted "Receipt saved successfully" n)
   \/ (exists k ex msg, fst (submit Sample.clk2 (Parsed (JReceipt Sample.noMerchant))
                                    (Sample.after Sample.acme))
                        = Duplicate k ex msg))
  /\ merchantsAreText (ledger (snd (submit Sample.clk2 (Parsed (JReceipt Sample.noMerchant))
                                           (Sample.after Sample.acme)))) = true.
Proof.
  apply (record_requests_never_fail Sample.clk2 Sample.noMerchant (Sample.after Sample.acme));
    reflexivity.
Defined.

(* ================================================================== *)
(** * The handler when the spreadsheet service fails *)

(** ** One call *)

Lemma service_step {A B} (op : M A) (k : A -> Faulty.MF B) a s1 q s :
  op s = (Return a, s1) ->
  (exists err q',
      In (Some err) q /\ incl q' q
      /\ Faulty.bind (Faulty.service op) k q s = (Throw err, s, q'))
  \/ (exists q', incl q' q /\ Faulty.bind (Faulty.service op) k q s = k a q' s1).
Proof.
  intros Hop. unfold Faulty.bind, Faulty.service.
  destruct q as [|[err|] q'].
  - right. exists []. rewrite Hop. split; [apply incl_refl | reflexivity].
  - left. exists err, q'. split; [now left|]. split; [apply incl_tl, incl_refl | reflexivity].
  - right. exists q'. rewrite Hop. split; [apply incl_tl, incl_refl | reflexivity].
Qed.

Lemma faulty_bind_assoc {A B C} (c : Faulty.MF A) (k1 : A -> Faulty.MF B)
    (k2 : B -> Faulty.MF C) q s :
  Faulty.bind (Faulty.bind c k1) k2 q s
  = Faulty.bind c (fun a => Faulty.bind (k1 a) k2) q s.
Proof.
  unfold Faulty.bind. destruct (c q s) as [[[a|err] s1] q1]; reflexivity.
Qed.

(** ** Statements that keep the ledger *)

Lemma keepsLedger_ret {A} (a : A) : keepsLedger (Faulty.ret a).
Proof.
  intros q [l d]. exists (Return a), d, q. split; [apply incl_refl | reflexivity].
Qed.

Lemma keepsLedger_eval {A} (c : result A) : keepsLedger (Faulty.eval c).
Proof.
  intros q [l d]. exists c, d, q. split; [apply incl_refl | reflexivity].
Qed.

Lemma keepsLedger_service {A} (op : M A) :
  opKeepsLedger op -> keepsLedger (Faulty.service op).
Proof.
  intros Hop q s. destruct (Hop s) as (r & dbg & Hr). unfold Faulty.service.
  destruct q as [|[err|] q'].
  - exists r, dbg, []. rewrite Hr. split; [apply incl_refl | reflexivity].
  - destruct s as [l d]. exists (Throw err), d, q'.
    split; [apply incl_tl, incl_refl | reflexivity].
  - exists r, dbg, q'. rewrite Hr. split; [apply incl_tl, incl_refl | reflexivity].
Qed.

Lemma keepsLedger_bind {A B} (c : Faulty.MF A) (k : A -> Faulty.MF B) :
  keepsLedger c -> (forall a, keepsLedger (k a)) -> keepsLedger (Faulty.bind c k).
Proof.
  intros Hc Hk q s. unfold Faulty.bind.
  destruct (Hc q s) as (r & dbg & q1 & Hq1 & ->).
  destruct r as [a|err].
  - destruct (Hk a q1 {| ledger := ledger s; debugSheet := dbg |})
      as (r2 & dbg2 & q2 & Hq2 & ->).
    exists r2, dbg2, q2. split; [|reflexivity].
    eapply incl_tran; eassumption.
  - exists (Throw err), dbg, q1. split; [assumption | reflexivity].
Qed.

Lemma keepsLedger_try_catch {A} (c : Faulty.MF A) (h : exn -> Faulty.MF A) :
  keepsLedger c -> (forall err, keepsLedger (h err)) ->
  keepsLedger (Faulty.try_catch c h).
Proof.
  intros Hc Hh q s. unfold Faulty.try_catch.
  destruct (Hc q s) as (r & dbg & q1 & Hq1 & ->).
  destruct r as [a|err].
  - exists (Return a), dbg, q1. split; [assumption | reflexivity].
  - destruct (Hh err q1 {| ledger := ledger s; debugSheet := dbg |})
      as (r2 & dbg2 & q2 & Hq2 & ->).
    exists r2, dbg2, q2. split; [|reflexivity].
    eapply incl_tran; eassumption.
Qed.

Ltac op_keeps_ledger :=
  intros [? ?]; do 2 eexists; reflexivity.

Ltac keeps_ledger :=
  repeat first
    [ apply keepsLedger_ret
    | apply keepsLedger_eval
    | apply keepsLedger_service; op_keeps_ledger
    | apply keepsLedger_bind; [|intros ?]
    | apply keepsLedger_try_catch; [|intros ?]
    | match goal with
      | |- keepsLedger (match ?x with _ => _ end) => destruct x
      end ].

Lemma formatHeaderRow_keepsLedger : keepsLedger Faulty.formatHeaderRow.
Proof. unfold Faulty.formatHeaderRow. keeps_ledger. Qed.

(** Under any schedule [writeDebugLog] returns normally and leaves the
    ledger sheet as it is. *)
Lemma faulty_writeDebugLog_frame now d dup outcome q s :
  exists dbg q',
    incl q' q
    /\ Faulty.writeDebugLog now d dup outcome q s
       = (Return tt, {| ledger := ledger s; debugSheet := dbg |}, q').
Proof.
  assert (K : keepsLedger (Faulty.writeDebugLog now d dup outcome)).
  { unfold Faulty.writeDebugLog. keeps_ledger; apply formatHeaderRow_keepsLedger. }
  destruct (K q s) as (r & dbg & q' & Hq' & Hrun).
  exists dbg, q'. split; [assumption|]. rewrite Hrun.
  assert (Hr : r = Return tt); [|now rewrite Hr].
  revert Hrun. unfold Faulty.writeDebugLog, Faulty.try_catch.
  match goal with
  | |- context [match ?body q s with _ => _ end] =>
      destruct (body q s) as [[[[]|err] s1] q1]
  end; intros H; injection H as <- _ _; reflexivity.
Qed.

(** ** The handler, call by call *)

Ltac step_service :=
  match goal with
  | |- context [Faulty.bind (Faulty.service ?op) ?k ?q ?s] =>
      let H := fresh "Hstep" in
      destruct (service_step op k _ _ q s eq_refl)
        as [(?err & ?q' & ?Hin & ?Hincl & H) | (?q' & ?Hincl & H)];
      rewrite H; clear H; cbv beta
  end.

Ltac scheduled := unfold incl in *; intros; eauto 12.

(** The duplicate check reads the ledger: it changes nothing, and when no
    call fails it returns what the scan of the ledger returns. *)
Lemma faulty_findDuplicate_cases R q s :
  exists r q',
    incl q' q
    /\ Faulty.findDuplicate R q s = (r, s, q')
    /\ (r = findDuplicate (ledger s) R \/ exists err, r = Throw err /\ In (Some err) q).
Proof.
  unfold Faulty.findDuplicate, findDuplicate.
  step_service.
  { do 2 eexists. split; [|split; [reflexivity|]]; [scheduled|]. right. eauto. }
  destruct (length (ledger s) <=? 1).
  { do 2 eexists. split; [|split; [reflexivity|]]; [scheduled|]. now left. }
  step_service.
  { do 2 eexists. split; [|split; [reflexivity|]]; [scheduled|]. right. scheduled. }
  step_service.
  { do 2 eexists. split; [|split; [reflexivity|]]; [scheduled|]. right. scheduled. }
  do 2 eexists. split; [|split; [reflexivity|]]; [scheduled|]. now left.
Qed.

(** The statements that store the receipt: an exception before the write
    leaves the spreadsheet as it was; after the write, only a call of the
    service can throw, and the row stays written. *)
Lemma faulty_saveReceipt_cases clk data q s :
  exists r s' q',
    incl q' q
    /\ Faulty.saveReceipt clk data q s = (r, s', q')
    /\ match r with
       | Throw err =>
           s' = s
           \/ exists txt values,
               formatItems data = Return txt
               /\ buildRow (rowTime clk) data txt = Return values
               /\ In (Some err) q
               /\ s' = {| ledger := (ledger s ++ [values])%list;
                          debugSheet := debugSheet s |}
       | Return r0 =>
           exists txt values,
             formatItems data = Return txt
             /\ buildRow (rowTime clk) data txt = Return values
             /\ r0 = Accepted "Receipt saved successfully" (length (ledger s) + 1)
             /\ s' = {| ledger := (ledger s ++ [values])%list;
                        debugSheet := debugSheet s |}
       end.
Proof.
  unfold Faulty.saveReceipt.
  unfold Faulty.bind at 1, Faulty.eval at 1.
  destruct (formatItems data) as [txt|err0] eqn:Htxt.
  2:{ do 3 eexists. split; [|split; [reflexivity|]]; [scheduled | now left]. }
  unfold Faulty.bind at 1, Faulty.eval at 1.
  destruct (buildRow (rowTime clk) data txt) as [values|err0] eqn:Hvalues.
  2:{ do 3 eexists. split; [|split; [reflexivity|]]; [scheduled | now left]. }
  cbv zeta.
  step_service.
  { do 3 eexists. split; [|split; [reflexivity|]]; [scheduled | now left]. }
  step_service.
  { do 3 eexists. split; [|split; [reflexivity|]]; [scheduled | now left]. }
  step_service.
  { do 3 eexists. split; [|split; [reflexivity|]]; [scheduled | now left]. }
  rewrite setRowValues_append.
  do 3 (step_service;
        [ do 3 eexists; split; [|split; [reflexivity|]]; [scheduled|];
          right; exists txt, values; repeat split; scheduled | ]).
  step_service.
  { do 3 eexists. split; [|split; [reflexivity|]]; [scheduled|].
    right. exists txt, values. repeat split; scheduled. }
  do 3 eexists. split; [|split; [reflexivity|]]; [scheduled|].
  exists txt, values. cbn [ledger]. rewrite length_app. cbn [length].
  repeat split; assumption.
Qed.

(** The body of the [try] block under any schedule. It returns an accepted
    or a duplicate response, never a failure response. When it throws,
    the ledger is as before, or has got the header row, or has got the
    row of the receipt as well; the last only through a call of the
    service that threw after the write. *)
Lemma faulty_doPost_try_cases clk e q s :
  exists r s' q',
    Faulty.doPost_try clk e q s = (r, s', q')
    /\ match r with
       | Throw err =>
           (ledger s' = ledger s
            \/ (ledger s = [] /\ ledger s' = [HEADER])
            \/ (exists values,
                   rowOfRequest clk e = Some values
                   /\ ledger s' = (withHeader (ledger s) ++ [values])%list
                   /\ In (Some err) q))
           /\ (forall perr, e = ParseThrows perr -> s' = s)
       | Return (Failure _) => False
       | Return _ => True
       end.
Proof.
  unfold Faulty.doPost_try.
  destruct e as [perr|data].
  { do 3 eexists. split; [reflexivity|]. split; [now left | reflexivity]. }
  change (Faulty.bind (Faulty.eval (Return data)) ?k q s) with (k data q s). cbv beta.
  step_service.
  { do 3 eexists. split; [reflexivity|]. split; [now left | discriminate]. }
  step_service.
  { do 3 eexists. split; [reflexivity|]. split; [now left | discriminate]. }
  step_service.
  { do 3 eexists. split; [reflexivity|]. split; [now left | discriminate]. }
  match goal with
  | |- context [Faulty.bind _ ?k0 q'1 s] => set (k := k0)
  end.
  assert (Hrest : forall q2 s1,
             incl q2 q -> ledger s1 = withHeader (ledger s) ->
             exists r s' q',
               k tt q2 s1 = (r, s', q')
               /\ match r with
                  | Throw err =>
                      ledger s' = ledger s1
                      \/ (exists values,
                             rowOfRequest clk (Parsed data) = Some values
                             /\ ledger s' = (ledger s1 ++ [values])%list
                             /\ In (Some err) q)
                  | Return (Failure _) => False
                  | Return _ => True
                  end).
  { intros q2 s1 Hq2 Hs1. subst k. cbv beta.
    assert (Hsave : forall q3 s2,
               incl q3 q -> ledger s2 = ledger s1 ->
               exists r s' q',
                 Faulty.saveReceipt clk data q3 s2 = (r, s', q')
                 /\ match r with
                    | Throw err =>
                        ledger s' = ledger s1
                        \/ (exists values,
                               rowOfRequest clk (Parsed data) = Some values
                               /\ ledger s' = (ledger s1 ++ [values])%list
                               /\ In (Some err) q)
                    | Return (Failure _) => False
                    | Return _ => True
                    end).
    { intros q3 s2 Hq3 Hs2.
      destruct (faulty_saveReceipt_cases clk data q3 s2)
        as (r & s' & q4 & Hq4 & Hrun & Hr).
      exists r, s', q4. split; [exact Hrun|].
      destruct r as [r0|err].
      - destruct Hr as (txt & values & _ & _ & -> & _). exact I.
      - destruct Hr as [-> | (txt & values & Htxt & Hvalues & Hin & ->)].
        + now left.
        + right. exists values. cbn [rowOfRequest ledger].
          rewrite Htxt, Hvalues, Hs2. repeat split. scheduled. }
    unfold Faulty.bind at 1, Faulty.eval at 1.
    destruct (prop data force) as [f|err].
    2:{ do 3 eexists. split; [reflexivity | now left]. }
    destruct (negb (truthy f)); [|apply Hsave; [assumption | reflexivity]].
    unfold Faulty.bind at 1.
    destruct (faulty_findDuplicate_cases data q2 s1) as (r & q3 & Hq3 & -> & _).
    destruct r as [[dup|]|err].
    - unfold Faulty.bind at 1.
      destruct (faulty_writeDebugLog_frame (logTime clk) data (Some dup)
                  "DUPLICATE FOUND" q3 s1) as (dbg & q4 & Hq4 & ->).
      do 3 eexists. split; [reflexivity | exact I].
    - unfold Faulty.bind at 1.
      destruct (faulty_writeDebugLog_frame (logTime clk) data None
                  "NO DUPLICATE" q3 s1) as (dbg & q4 & Hq4 & ->).
      apply Hsave; [scheduled | reflexivity].
    - do 3 eexists. split; [reflexivity | now left]. }
  assert (Hq1 : incl q'1 q) by scheduled.
  assert (Hdone : forall q2 s1,
             incl q2 q -> ledger s1 = withHeader (ledger s) ->
             exists r s' q',
               k tt q2 s1 = (r, s', q')
               /\ match r with
                  | Throw err =>
                      (ledger s' = ledger s
                       \/ (ledger s = [] /\ ledger s' = [HEADER])
                       \/ (exists values,
                              rowOfRequest clk (Parsed data) = Some values
                              /\ ledger s' = (withHeader (ledger s) ++ [values])%list
                              /\ In (Some err) q))
                      /\ (forall perr, Parsed data = ParseThrows perr -> s' = s)
                  | Return (Failure _) => False
                  | Return _ => True
                  end).
  { intros q2 s1 Hq2 Hs1.
    destruct (Hrest q2 s1 Hq2 Hs1) as (r & s' & q3 & Hrun & Hr).
    exists r, s', q3. split; [exact Hrun|].
    destruct r as [[| |]|err]; try exact Hr.
    split; [|discriminate]. rewrite Hs1 in Hr.
    destruct Hr as [Hr | Hr]; [|right; right; exact Hr].
    destruct (ledger s) as [|h rest]; [right; left; auto | now left]. }
  clear Hrest. clearbody k.
  destruct (length (ledger s) =? 0) eqn:Hlen.
  - apply Nat.eqb_eq in Hlen.
    assert (Hledger : ledger s = []) by (destruct (ledger s); [reflexivity | discriminate]).
    unfold Faulty.formatHeaderRow. rewrite faulty_bind_assoc.
    step_service.
    { do 3 eexists. split; [reflexivity|]. split; [now left | discriminate]. }
    do 4 (rewrite ?faulty_bind_assoc; step_service;
          [ do 3 eexists; split; [reflexivity|];
            split; [right; left; split; [assumption | cbn; now rewrite Hledger]
                   | discriminate] | ]).
    apply Hdone; [scheduled | cbn [ledger]; rewrite Hledger; reflexivity].
  - unfold Faulty.bind at 1, Faulty.ret at 1.
    apply Hdone; [assumption|].
    unfold withHeader. now rewrite Hlen.
Qed.

(** ** Failure responses *)

(** C2, amended. Whenever the response is a failure, the [try] block threw
    an exception (from parsing, from one of the handler's own expressions
    or from a call of the spreadsheet service), [doPost] caught it, and the
    error text of the response is that exception converted to a string.
    The store is not always as before. No existing row of the ledger is
    modified or removed, but the request may have written the header row,
    when it found the sheet empty, and the row of the receipt may be in the
    ledger as well: this happens only when the exception caught is one
    that the spreadsheet service threw, in a call that follows the write.
    A payload that does not parse leaves the whole spreadsheet as it
    was. *)
Theorem failure_is_caught_and_keeps_rows q clk e s msg :
  fst (Faulty.submit q clk e s) = Failure msg ->
  (exists err,
      fst (fst (Faulty.doPost_try clk e q s)) = Throw err
      /\ msg = exn_toString err
      /\ fst (fst (Faulty.doPost clk e q s)) = Return (Failure (exn_toString err)))
  /\ (ledger (snd (Faulty.submit q clk e s)) = ledger s
      \/ (ledger s = [] /\ ledger (snd (Faulty.submit q clk e s)) = [HEADER])
      \/ (exists values err,
             rowOfRequest clk e = Some values
             /\ ledger (snd (Faulty.submit q clk e s))
                = (withHeader (ledger s) ++ [values])%list
             /\ In (Some err) q
             /\ msg = exn_toString err))
  /\ (forall perr, e = ParseThrows perr -> snd (Faulty.submit q clk e s) = s).
Proof.
  unfold Faulty.submit, Faulty.doPost, Faulty.try_catch.
  destruct (faulty_doPost_try_cases clk e q s) as (r & s' & q' & Hrun & Hr).
  rewrite Hrun. cbn [fst snd Faulty.ret createCorsResponse].
  destruct r as [r0|err]; cbn [fst snd].
  - intros ->. contradiction.
  - intros Hmsg. injection Hmsg as <-. destruct Hr as [Hledger Hparse].
    split; [exists err; repeat split|]. split; [|exact Hparse].
    destruct Hledger as [H | [H | (values & Hrow & H & Hin)]].
    + now left.
    + right; left. exact H.
    + right; right. exists values, err. repeat split; assumption.
Qed.

Lemma failure_is_caught_and_keeps_rows_witness :
  let q := (repeat None 13 ++ [Some (Exception "Service Spreadsheets failed")])%list in
  let e := Parsed (JReceipt (Sample.forced Sample.acme)) in
  let s := emptySpreadsheet in
  let msg := "Exception: Service Spreadsheets failed" in
  (exists err,
      fst (fst (Faulty.doPost_try Sample.clk1 e q s)) = Throw err
      /\ msg = exn_toString err
      /\ fst (fst (Faulty.doPost Sample.clk1 e q s)) = Return (Failure (exn_toString err)))
  /\ (ledger (snd (Faulty.submit q Sample.clk1 e s)) = ledger s
      \/ (ledger s = [] /\ ledger (snd (Faulty.submit q Sample.clk1 e s)) = [HEADER])
      \/ (exists values err,
             rowOfRequest Sample.clk1 e = Some values
             /\ ledger (snd (Faulty.submit q Sample.clk1 e s))
                = (withHeader (ledger s) ++ [values])%list
             /\ In (Some err) q
             /\ msg = exn_toString err))
  /\ (forall perr, e = ParseThrows perr -> snd (Faulty.submit q Sample.clk1 e s) = s).
Proof.
  intros q e s msg.
  apply (failure_is_caught_and_keeps_rows q Sample.clk1 e s msg).
  reflexivity.
Defined.

(** The service fails in [autoResizeColumns], the fourteenth call of a
    forced request on an empty spreadsheet: the response is a failure, and
    the header row and the row of the receipt are in the ledger. *)
Example failure_after_the_receipt_was_written :
  Faulty.submit (repeat None 13 ++ [Some (Exception "Service Spreadsheets failed")])%list
                Sample.clk1 (Parsed (JReceipt (Sample.forced Sample.acme)))
                emptySpreadsheet
  = (Failure "Exception: Service Spreadsheets failed",
     {| ledger :=
          [HEADER;
           [PStr "2024-01-01"; PStr ""; PStr "Acme"; PStr "10.00"; PStr "USD";
            PStr "0.00"; PNum 0; PStr "No items"; PStr "2024-01-02T10:00:00.100Z";
            PStr "2024-01-01"; PStr "10.00"]];
        debugSheet := None |}).
Proof. vm_compute. reflexivity. Qed.

(** The same failure in the write itself, the eleventh call: the header
    row is there, the row of the receipt is not. *)
Example failure_in_the_write :
  ledger (snd (Faulty.submit
                 (repeat None 10 ++ [Some (Exception "Service Spreadsheets failed")])%list
                 Sample.clk1 (Parsed (JReceipt (Sample.forced Sample.acme)))
                 emptySpreadsheet))
  = [HEADER].
Proof. vm_compute. reflexivity. Qed.

(** A failure of the service inside [writeDebugLog], here in the
    [appendRow] of the logged row, is not a failure of the request: the
    receipt is stored, and the Debug sheet is left with its header row. *)
Example failure_while_logging :
  Faulty.submit (repeat None 23 ++ [Some (Exception "Service Spreadsheets failed")])%list
                Sample.clk1 (Parsed (JReceipt Sample.acme)) emptySpreadsheet
  = (Accepted "Receipt saved successfully" 2,
     {| ledger :=
          [HEADER;
           [PStr "2024-01-01"; PStr ""; PStr "Acme"; PStr "10.00"; PStr "USD";
            PStr "0.00"; PNum 0; PStr "No items"; PStr "2024-01-02T10:00:00.100Z";
            PStr "2024-01-01"; PStr "10.00"]];
        debugSheet := Some [DEBUG_HEADER] |}).
Proof. vm_compute. reflexivity. Qed.

(** ** When no call fails

    Under the empty schedule every call goes through, and the handler of
    module [Faulty] is the handler of the first part. *)

Ltac run_F :=
  cbv beta iota delta
    [Faulty.bind Faulty.ret Faulty.eval Faulty.try_catch Faulty.service
     Faulty.formatHeaderRow noValueChange getDataRows];
  run_M.

Lemma faulty_findDuplicate_reliable R s :
  Faulty.findDuplicate R [] s = (findDuplicate (ledger s) R, s, []).
Proof.
  unfold Faulty.findDuplicate, findDuplicate. run_F.
  destruct (length (ledger s) <=? 1); reflexivity.
Qed.

Lemma faulty_saveReceipt_reliable clk data s :
  Faulty.saveReceipt clk data [] s = (saveReceipt clk data s, []).
Proof.
  unfold Faulty.saveReceipt, saveReceipt. run_F.
  destruct (formatItems data) as [txt|err]; [|reflexivity].
  destruct (buildRow (rowTime clk) data txt) as [values|err]; reflexivity.
Qed.

Lemma faulty_writeDebugLog_reliable now d dup outcome s :
  Faulty.writeDebugLog now d dup outcome [] s = (writeDebugLog now d dup outcome s, []).
Proof.
  unfold Faulty.writeDebugLog, writeDebugLog. destruct s as [l dbg0]. run_F.
  destruct dbg0 as [dbg0|]; run_F; unfold debugRows; cbn [ledger debugSheet].
  - destruct (length dbg0 =? 0) eqn:Hlen; cbn [orb]; run_F.
    + destruct (1 <? length l); run_F;
        destruct d as [[| |b|n|x]|r]; cbn [prop]; run_F; reflexivity.
    + destruct (isNotTimestamp (cell (nth 0 dbg0 []) 0)); run_F;
        destruct (1 <? length l); run_F;
        destruct d as [[| |b|n|x]|r]; cbn [prop]; run_F; reflexivity.
  - destruct d as [[| |b|n|x]|r]; cbn [prop]; run_F; reflexivity.
Qed.

(** The handler of the first part is the handler of this part when every
    call of the service goes through. *)
Lemma faulty_submit_reliable clk e s :
  Faulty.submit [] clk e s = submit clk e s.
Proof.
  assert (Htry : Faulty.doPost_try clk e [] s = (doPost_try clk e s, [])).
  { unfold Faulty.doPost_try, doPost_try.
    destruct e as [perr|data]; [reflexivity|].
    change (Faulty.bind (Faulty.eval (Return data)) ?k [] s) with (k data [] s).
    change (bind (eval (Return data)) ?k s) with (k data s). cbv beta.
    rewrite header_step.
    assert (Hsave : forall s1,
               Faulty.saveReceipt clk data [] s1 = (saveReceipt clk data s1, [])).
    { intros s1. apply faulty_saveReceipt_reliable. }
    match goal with
    | |- Faulty.bind _ (fun _ => Faulty.bind _ (fun _ => Faulty.bind _
           (fun lastRow => Faulty.bind _ ?k0))) [] s = (?m _, []) =>
        set (kF := k0); set (kM := m)
    end.
    assert (Hrest : forall s1, kF tt [] s1 = (kM s1, [])).
    { intros s1. subst kF kM. cbv beta.
      unfold Faulty.bind at 1, Faulty.eval at 1, bind at 1, eval at 1.
      destruct (prop data force) as [f|err]; [|reflexivity].
      destruct (negb (truthy f)); [|apply Hsave].
      unfold Faulty.bind at 1, bind at 1.
      rewrite faulty_findDuplicate_reliable.
      destruct (findDuplicate (ledger s1) data) as [[dup|]|err]; [| |reflexivity].
      - unfold Faulty.bind at 1, bind at 1.
        rewrite faulty_writeDebugLog_reliable.
        destruct (writeDebugLog (logTime clk) data (Some dup) "DUPLICATE FOUND" s1)
          as [[[]|err] s2]; reflexivity.
      - unfold Faulty.bind at 1, bind at 1.
        rewrite faulty_writeDebugLog_reliable.
        destruct (writeDebugLog (logTime clk) data None "NO DUPLICATE" s1)
          as [[[]|err] s2]; [apply Hsave | reflexivity]. }
    clearbody kF kM.
    destruct s as [[|h rest] dbg]; run_F; cbn [length Nat.eqb withHeader];
      run_F; apply Hrest. }
  unfold Faulty.submit, submit, Faulty.doPost, doPost, Faulty.try_catch, try_catch.
  rewrite Htry. destruct (doPost_try clk e s) as [[r|err] s']; reflexivity.
Qed.
